(** * Legal text splitter: the segmentation core, embedded and verified

    A shallow embedding of the JavaScript modules that turn a legal text into
    rows: [ClauseNumberDetector], [LeadingPhraseDetector], [DevanagariParser],
    [TextSplitter], [RowGenerator], the collapse filter of [TableRenderer],
    [TextExtractor.cleanText] and [getFileExtension], and the text formats of
    [ExportHandler] and [CopyHandler].

    JavaScript strings are sequences of UTF-16 code units, and none of the
    regular expressions of the source carries the [u] flag, so they work on
    code units too.  A string is therefore a [list Z] of code units; every
    character the source names lies in the Basic Multilingual Plane and is one
    code unit. *)

From Stdlib Require Import ZArith List Bool Lia.
From Stdlib Require String Ascii DecimalString.
Import ListNotations.
Local Open Scope Z_scope.

(* ================================================================== *)
(** * Part I: the embedding *)
(* ================================================================== *)

(** ** JavaScript values, strings and the string methods the source calls *)

Module JS.

Definition jsstring := list Z.

(** An ASCII literal as a sequence of code units. *)
Definition lit (s : String.string) : jsstring :=
  map (fun a => Z.of_N (Ascii.N_of_ascii a)) (String.list_ascii_of_string s).

(** The values a caller can hand to an entry point.  Numbers are kept as
    integers plus [NaN]: only their truthiness is ever observed.  [Object]
    stands for any object, array or function. *)
Inductive value :=
| Undefined
| Null
| Bool (b : bool)
| Number (n : Z)
| NaN
| Object
| Str (s : jsstring).

Definition isEmptyString (s : jsstring) : bool :=
  match s with [] => true | _ :: _ => false end.

(** ToBoolean. *)
Definition truthy (v : value) : bool :=
  match v with
  | Undefined | Null | NaN => false
  | Bool b => b
  | Number n => negb (n =? 0)
  | Object => true
  | Str s => negb (isEmptyString s)
  end.

(** [typeof v === 'string'] *)
Definition isString (v : value) : bool :=
  match v with Str _ => true | _ => false end.

(** A [string | null] result; [None] is [null]. *)
Definition nullable := option jsstring.

(** Truthiness of a [string | null]. *)
Definition truthyN (o : nullable) : bool :=
  match o with Some (_ :: _) => true | _ => false end.

(** [s || null] *)
Definition orNull (s : jsstring) : nullable :=
  if isEmptyString s then None else Some s.

(** Completion of a call: a value, or a thrown TypeError. *)
Inductive completion (A : Type) :=
| Normal (a : A)
| Throw.
Arguments Normal {A} a.
Arguments Throw {A}.

Definition bind {A B} (c : completion A) (f : A -> completion B) : completion B :=
  match c with Normal a => f a | Throw => Throw end.

(** WhiteSpace and LineTerminator code units: what [trim], [trimStart] and
    the class [\s] recognise. *)
Definition isWhiteSpace (c : Z) : bool :=
  (c =? 9) || (c =? 10) || (c =? 11) || (c =? 12) || (c =? 13) || (c =? 32)
  || (c =? 160) || (c =? 5760) || ((8192 <=? c) && (c <=? 8202))
  || (c =? 8232) || (c =? 8233) || (c =? 8239) || (c =? 8287)
  || (c =? 12288) || (c =? 65279).

Fixpoint trimStart (s : jsstring) : jsstring :=
  match s with
  | c :: s' => if isWhiteSpace c then trimStart s' else s
  | [] => []
  end.

Definition trimEnd (s : jsstring) : jsstring := rev (trimStart (rev s)).

Definition trim (s : jsstring) : jsstring := trimEnd (trimStart s).

Definition strlen (s : jsstring) : Z := Z.of_nat (List.length s).

(** [s.indexOf(c)] for a one-unit needle; [-1] when absent. *)
Fixpoint indexOf (c : Z) (s : jsstring) : Z :=
  match s with
  | [] => -1
  | d :: s' =>
      if d =? c then 0
      else let i := indexOf c s' in if i <? 0 then -1 else i + 1
  end.

(** [s.substring(a, b)]: both ends clamped to [0, length], swapped when
    they come in the wrong order. *)
Definition clampIndex (s : jsstring) (i : Z) : Z := Z.min (Z.max i 0) (strlen s).

Definition substring (s : jsstring) (a b : Z) : jsstring :=
  let a' := clampIndex s a in
  let b' := clampIndex s b in
  let lo := Z.min a' b' in
  let hi := Z.max a' b' in
  firstn (Z.to_nat (hi - lo)) (skipn (Z.to_nat lo) s).

(** [s.substring(a)] *)
Definition substringFrom (s : jsstring) (a : Z) : jsstring :=
  substring s a (strlen s).

(** [s.split(sep)] for a one-unit separator: never an empty array. *)
Fixpoint split (sep : Z) (s : jsstring) : list jsstring :=
  match s with
  | [] => [[]]
  | c :: s' =>
      if c =? sep then [] :: split sep s'
      else match split sep s' with
           | l :: ls => (c :: l) :: ls
           | [] => [[c]]
           end
  end.

(** [s.includes(c)] for a one-unit needle. *)
Definition includes (c : Z) (s : jsstring) : bool := existsb (Z.eqb c) s.

(** [s.endsWith(c)] for a one-unit suffix. *)
Definition endsWith (c : Z) (s : jsstring) : bool :=
  match rev s with d :: _ => d =? c | [] => false end.

(** [s[0]]; [None] is [undefined]. *)
Definition charAt0 (s : jsstring) : option Z :=
  match s with c :: _ => Some c | [] => None end.

(** [/[...]/.test(s)] for an unanchored one-character class. *)
Definition testClass (p : Z -> bool) (s : jsstring) : bool := existsb p s.

(** [l.join(sep)] *)
Fixpoint join (sep : jsstring) (l : list jsstring) : jsstring :=
  match l with
  | [] => []
  | x :: rest =>
      match rest with
      | [] => x
      | _ :: _ => x ++ sep ++ join sep rest
      end
  end.

(** [s.replace(/c/g, by)] for a one-unit pattern. *)
Definition replaceUnit (c : Z) (by_ : jsstring) (s : jsstring) : jsstring :=
  flat_map (fun d => if d =? c then by_ else [d]) s.

(** [s.slice(0, -1)] *)
Definition dropLast (s : jsstring) : jsstring := removelast s.

(** The decimal text of an integer, as a template literal prints a row
    number or a loop index. *)
Definition numberToString (n : Z) : jsstring :=
  lit (DecimalString.NilZero.string_of_int (Z.to_int n)).

End JS.

Import JS.

(** ** String literals of the source *)

Module Literal.

Import String.
Local Open Scope string_scope.

Definition rowPrefix : jsstring := lit "Row ".
Definition colonSpace : jsstring := lit ": ".
Definition csvHeader : jsstring :=
  (34 :: lit "Row Number" ++ 34 :: 44 :: 34 :: lit "Text Content" ++ 34 :: nil)%list.
Definition headerRowNumber : jsstring := lit "Row Number".
Definition headerTextContent : jsstring := lit "Text Content".
Definition emptyRowClass : jsstring := lit "empty-row".
Definition clauseNumberClass : jsstring := lit "clause-number".
Definition leadingPhraseClass : jsstring := lit "leading-phrase".
Definition amendmentClauseClass : jsstring := lit "amendment-clause".
Definition devanagariClass : jsstring := lit "devanagari".
Definition hasIncorrectNumber : jsstring := lit " has incorrect number: ".
Definition textIsNotAString : jsstring := lit " text is not a string".
Definition classesIsNotAnArray : jsstring := lit " classes is not an array".
Definition rowsIsNotAnArray : jsstring := lit "Rows is not an array".

End Literal.

(** ** The regular expressions of the source

    Every anchored pattern of the source is a start-anchored sequence of
    character classes, each taken once or under [?], [*] or [+] (all greedy).
    [run] is the backtracking matcher of the language for such sequences: a
    greedy quantifier takes as much as it can and gives back one unit at a
    time while the rest of the pattern fails. *)

Module Regex.

Inductive quantifier := One | Opt | Star | Plus.

Definition item := (quantifier * (Z -> bool))%type.

Record pattern := { items : list item; anchoredEnd : bool }.

Section Backtracking.
Context {A : Type} (p : Z -> bool) (k : jsstring -> option A).

Definition skip (s : jsstring) : option (jsstring * A) :=
  match k s with Some a => Some ([], a) | None => None end.

Definition one (s : jsstring) : option (jsstring * A) :=
  match s with
  | c :: s' =>
      if p c then match k s' with Some a => Some ([c], a) | None => None end
      else None
  | [] => None
  end.

Definition opt (s : jsstring) : option (jsstring * A) :=
  match one s with
  | Some r => Some r
  | None => skip s
  end.

Fixpoint star (s : jsstring) : option (jsstring * A) :=
  match s with
  | c :: s' =>
      if p c then
        match star s' with
        | Some (m, a) => Some (c :: m, a)
        | None => skip s
        end
      else skip s
  | [] => skip s
  end.

Definition plus (s : jsstring) : option (jsstring * A) :=
  match s with
  | c :: s' =>
      if p c then
        match star s' with
        | Some (m, a) => Some (c :: m, a)
        | None => None
        end
      else None
  | [] => None
  end.
End Backtracking.

Definition step {A : Type} (qt : quantifier) (p : Z -> bool)
    (k : jsstring -> option A) : jsstring -> option (jsstring * A) :=
  match qt with
  | One => one p k
  | Opt => opt p k
  | Star => star p k
  | Plus => plus p k
  end.

(** The pieces taken by the items, in order, and the unmatched rest. *)
Fixpoint run (its : list item) (atEnd : bool) (s : jsstring)
  : option (list jsstring * jsstring) :=
  match its with
  | [] =>
      if atEnd then match s with [] => Some ([], []) | _ :: _ => None end
      else Some ([], s)
  | (qt, p) :: rest =>
      match step qt p (run rest atEnd) s with
      | Some (m, (ms, tl)) => Some (m :: ms, tl)
      | None => None
      end
  end.

(** [s.match(r)]: the pieces, [None] for [null]. *)
Definition exec (r : pattern) (s : jsstring) : option (list jsstring) :=
  match run (items r) (anchoredEnd r) s with
  | Some (ms, _) => Some ms
  | None => None
  end.

(** [r.test(s)] *)
Definition test (r : pattern) (s : jsstring) : bool :=
  match exec r s with Some _ => true | None => false end.

(** [m[0]]: the whole match. *)
Definition whole (ms : list jsstring) : jsstring := concat ms.

(** A capture group spanning the pieces [from .. from+count-1]. *)
Definition group (from count : nat) (ms : list jsstring) : jsstring :=
  concat (firstn count (skipn from ms)).

End Regex.

(** ** Character classes and code units named in the source *)

Module Chars.

Definition newline : Z := 10.
Definition carriageReturn : Z := 13.
Definition space : Z := 32.
Definition lparen : Z := 40.
Definition rparen : Z := 41.
Definition asterisk : Z := 42.
Definition period : Z := 46.
Definition colon : Z := 58.
Definition byteOrderMark : Z := 65279.

(** The twelve amendment glyphs, in source order:
    U+2611, '*', U+2020, U+2021, U+00A7, U+00B6, U+2022, U+25C6, U+25A0,
    U+25AA, U+25B2, U+25BA. *)
Definition amendmentSymbols : list Z :=
  [9745; 42; 8224; 8225; 167; 182; 8226; 9670; 9632; 9642; 9650; 9658].

(** The class listing the same twelve glyphs in the patterns. *)
Definition isSymbol (c : Z) : bool := existsb (Z.eqb c) amendmentSymbols.

(** [\d] *)
Definition isDigit (c : Z) : bool := (48 <=? c) && (c <=? 57).

(** [[a-z]] *)
Definition isLower (c : Z) : bool := (97 <=? c) && (c <=? 122).

(** [[A-Z]] *)
Definition isUpper (c : Z) : bool := (65 <=? c) && (c <=? 90).

(** [[a-zA-Z]]; also what [[a-z]] accepts under the [i] flag: without the
    [u] flag a code unit is compared after upper-casing, and no unit outside
    ASCII upper-cases into [A-Z]. *)
Definition isLetter (c : Z) : bool := isLower c || isUpper c.

(** The Devanagari digits U+0966 .. U+096F. *)
Definition isDevanagariDigit (c : Z) : bool := (2406 <=? c) && (c <=? 2415).

(** The range U+0915 .. U+092F of the patterns. *)
Definition isDevanagariLetter (c : Z) : bool := (2325 <=? c) && (c <=? 2351).

(** [[ऀ-ॿ]] *)
Definition isDevanagari (c : Z) : bool := (2304 <=? c) && (c <=? 2431).

(** The class inside the parentheses of the sub-clause pattern. *)
Definition isSubClauseChar (c : Z) : bool :=
  isDigit c || isLower c || isUpper c || isDevanagariLetter c || isDevanagariDigit c.

Definition isPeriod (c : Z) : bool := c =? period.
Definition isLParen (c : Z) : bool := c =? lparen.
Definition isRParen (c : Z) : bool := c =? rparen.

End Chars.

Import Chars.

(** ** DevanagariParser (the part the detector calls) *)

Module DevanagariParser.

(** The keys of [devanagariLetters]: 26 consonants; U+0929 is not one. *)
Definition devanagariLetterKeys : list Z :=
  [2325; 2326; 2327; 2328; 2329; 2330; 2331; 2332; 2333; 2334; 2335; 2336;
   2337; 2338; 2339; 2340; 2341; 2342; 2343; 2344; 2346; 2347; 2348; 2349;
   2350; 2351].

Definition extractDevanagariLetter (numeral : jsstring) : option Z :=
  match rev numeral with
  | lastChar :: _ =>
      if existsb (Z.eqb lastChar) devanagariLetterKeys then Some lastChar else None
  | [] => None
  end.

Definition isAlphaNumeric (numeral : jsstring) : bool :=
  match extractDevanagariLetter numeral with Some _ => true | None => false end.

Definition hasDevanagari (text : jsstring) : bool := testClass isDevanagari text.

(** [devanagariDigits]: key and value of each entry. *)
Definition devanagariDigits : list (Z * Z) :=
  [(2406, 48); (2407, 49); (2408, 50); (2409, 51); (2410, 52);
   (2411, 53); (2412, 54); (2413, 55); (2414, 56); (2415, 57)].

(** [devanagariLetters]: key and value of each entry. *)
Definition devanagariLetters : list (Z * Z) :=
  [(2325, 97); (2326, 98); (2327, 99); (2328, 100); (2329, 101); (2330, 102);
   (2331, 103); (2332, 104); (2333, 105); (2334, 106); (2335, 107); (2336, 108);
   (2337, 109); (2338, 110); (2339, 111); (2340, 112); (2341, 113); (2342, 114);
   (2343, 115); (2344, 116); (2346, 117); (2347, 118); (2348, 119); (2349, 120);
   (2350, 121); (2351, 122)].

(** [table[char]]; [None] is [undefined]. *)
Fixpoint lookup (table : list (Z * Z)) (char : Z) : option Z :=
  match table with
  | [] => None
  | (key, value) :: rest => if key =? char then Some value else lookup rest char
  end.

(** The loops [for (let char of text)] walk code points; a unit that is part
    of a surrogate pair is in neither table and is appended as it stands, so
    the result is the same unit by unit. *)
Definition convertDevanagariToEnglish (devanagariNumber : jsstring) : jsstring :=
  map (fun char =>
         match lookup devanagariDigits char with
         | Some digit => digit
         | None => char
         end) devanagariNumber.

Definition hasDevanagariDigits (text : jsstring) : bool :=
  testClass isDevanagariDigit text.

(** [/^[...]?([digits]+[letters]?)\.?/] *)
Definition numeralPattern : Regex.pattern :=
  {| Regex.items := [(Regex.Opt, isSymbol); (Regex.Plus, isDevanagariDigit);
                     (Regex.Opt, isDevanagariLetter); (Regex.Opt, isPeriod)];
     Regex.anchoredEnd := false |}.

Definition extractDevanagariNumeral (text : jsstring) : nullable :=
  match Regex.exec numeralPattern text with
  | Some m => Some (Regex.group 1 2 m)
  | None => None
  end.

Definition getBaseNumber (numeral : jsstring) : jsstring :=
  match extractDevanagariLetter numeral with
  | Some _ => dropLast numeral
  | None => numeral
  end.

Definition getEnglishEquivalent (devanagariNumeral : jsstring) : jsstring :=
  map (fun char =>
         match lookup devanagariDigits char with
         | Some digit => digit
         | None =>
             match lookup devanagariLetters char with
             | Some letter => letter
             | None => char
             end
         end) devanagariNumeral.

End DevanagariParser.

(** ** ClauseNumberDetector *)

Module ClauseNumberDetector.

Import Regex.

Inductive clauseLanguage := english | devanagari.

Record detection := {
  fullClause : jsstring;
  baseNumber : jsstring;
  amendment : option Z;
  language : clauseLanguage;
  hasAlpha : bool
}.

(** [/^[...]?\s*(\d+(?:[a-z])?)\s*\./i] *)
Definition englishNumeralPattern : pattern :=
  {| items := [(Opt, isSymbol); (Star, isWhiteSpace); (Plus, isDigit);
               (Opt, isLetter); (Star, isWhiteSpace); (One, isPeriod)];
     anchoredEnd := false |}.

(** [/^[...]?\s*([digits]+(?:[letters])?)\s*\./] *)
Definition devanagariNumeralPattern : pattern :=
  {| items := [(Opt, isSymbol); (Star, isWhiteSpace); (Plus, isDevanagariDigit);
               (Opt, isDevanagariLetter); (Star, isWhiteSpace); (One, isPeriod)];
     anchoredEnd := false |}.

(** [/^\s*\([0-9a-zA-Z...]+\)/] *)
Definition subClausePattern : pattern :=
  {| items := [(Star, isWhiteSpace); (One, isLParen); (Plus, isSubClauseChar);
               (One, isRParen)];
     anchoredEnd := false |}.

(** The one capture group of the two numeral patterns: digits and suffix. *)
Definition numeralGroup (ms : list jsstring) : jsstring := group 2 2 ms.

Definition extractAmendmentSymbol (text : jsstring) : option Z :=
  let trimmed := trimStart text in
  match charAt0 trimmed with
  | Some firstChar =>
      if existsb (Z.eqb firstChar) amendmentSymbols then Some firstChar else None
  | None => None
  end.

Definition detectClauseNumber (line : jsstring) : option detection :=
  if isEmptyString line || isEmptyString (trim line) then None
  else
    let trimmedLine := trimStart line in
    if test subClausePattern trimmedLine then None
    else
      match exec englishNumeralPattern trimmedLine with
      | Some englishMatch =>
          Some {| fullClause := trim (whole englishMatch);
                  baseNumber := numeralGroup englishMatch;
                  amendment := extractAmendmentSymbol trimmedLine;
                  language := english;
                  hasAlpha := testClass isLetter (numeralGroup englishMatch) |}
      | None =>
          match exec devanagariNumeralPattern trimmedLine with
          | Some devanagariMatch =>
              Some {| fullClause := trim (whole devanagariMatch);
                      baseNumber := numeralGroup devanagariMatch;
                      amendment := extractAmendmentSymbol trimmedLine;
                      language := devanagari;
                      hasAlpha :=
                        DevanagariParser.isAlphaNumeric (numeralGroup devanagariMatch) |}
          | None => None
          end
      end.

Definition hasClauseNumber (line : jsstring) : bool :=
  match detectClauseNumber line with Some _ => true | None => false end.

Definition getClauseNumberRow (line : jsstring) : nullable :=
  match detectClauseNumber line with
  | None => None
  | Some detected =>
      match amendment detected with
      | Some sym => Some (sym :: fullClause detected)
      | None => Some (fullClause detected)
      end
  end.

Definition getRemainder (line : jsstring) : nullable :=
  match detectClauseNumber line with
  | None => None
  | Some detected =>
      let trimmed := trimStart line in
      let dotIndex := indexOf period trimmed in
      if negb (dotIndex =? -1) then
        let remainder := trimStart (substringFrom trimmed (dotIndex + 1)) in
        orNull remainder
      else None
  end.

Definition isSubClause (line : jsstring) : bool :=
  test subClausePattern (trimStart line).

Definition isAmendmentClause (line : jsstring) : bool :=
  match detectClauseNumber line with
  | None => false
  | Some detected =>
      hasAlpha detected
      || match amendment detected with Some _ => true | None => false end
  end.

Inductive clauseType := amendmentType | regularType.

(** A found amendment symbol is a one-unit string, hence truthy. *)
Definition getClauseType (line : jsstring) : option clauseType :=
  match detectClauseNumber line with
  | None => None
  | Some detected =>
      if hasAlpha detected
         || match amendment detected with Some _ => true | None => false end
      then Some amendmentType
      else Some regularType
  end.

(** An entry of [extractAllClauseNumbers]: [{lineNumber, ...detected}]. *)
Record clauseEntry := {
  lineNumber : Z;
  detected : detection
}.

Definition pushClause (clauses : list clauseEntry) (line : jsstring)
  : list clauseEntry :=
  match detectClauseNumber line with
  | Some d =>
      clauses ++ [{| lineNumber := Z.of_nat (List.length clauses); detected := d |}]
  | None => clauses
  end.

(** No guard here: [text.split] throws on anything but a string. *)
Definition extractAllClauseNumbers (text : value) : completion (list clauseEntry) :=
  match text with
  | Str s => Normal (fold_left pushClause (split newline s) [])
  | _ => Throw
  end.

End ClauseNumberDetector.

(** ** LeadingPhraseDetector *)

Module LeadingPhraseDetector.

Record leading := {
  phrase : jsstring;
  content : nullable;
  hasContent : bool
}.

Definition detectLeadingPhrase (line : jsstring) (remainder : nullable)
  : option leading :=
  match remainder with
  | None | Some [] => None
  | Some remainder =>
      let colonIndex := indexOf colon remainder in
      if colonIndex =? -1 then None
      else
        let leadingPhraseRaw := trim (substring remainder 0 colonIndex) in
        if isEmptyString leadingPhraseRaw then None
        else
          let contentAfterColon := trim (substringFrom remainder (colonIndex + 1)) in
          Some {| phrase := leadingPhraseRaw ++ [colon];
                  content := orNull contentAfterColon;
                  hasContent := 0 <? strlen contentAfterColon |}
  end.

Definition hasLeadingPhrase (line : jsstring) : bool :=
  match ClauseNumberDetector.detectClauseNumber line with
  | None => false
  | Some _ =>
      let remainder := ClauseNumberDetector.getRemainder line in
      if negb (truthyN remainder) then false
      else match detectLeadingPhrase line remainder with
           | Some _ => true
           | None => false
           end
  end.

Definition getLeadingPhrase (line : jsstring) : nullable :=
  match ClauseNumberDetector.detectClauseNumber line with
  | None => None
  | Some _ =>
      let remainder := ClauseNumberDetector.getRemainder line in
      if negb (truthyN remainder) then None
      else match detectLeadingPhrase line remainder with
           | Some detected => Some (phrase detected)
           | None => None
           end
  end.

Definition getContentAfterPhrase (line : jsstring) : nullable :=
  match ClauseNumberDetector.detectClauseNumber line with
  | None => None
  | Some _ =>
      let remainder := ClauseNumberDetector.getRemainder line in
      if negb (truthyN remainder) then None
      else match detectLeadingPhrase line remainder with
           | Some detected =>
               if hasContent detected then content detected else None
           | None => None
           end
  end.

(** [detected.content.length] throws when [content] is [null]; the test of
    [hasContent] comes first. *)
Definition hasMinimalContent (line : jsstring) : completion bool :=
  match ClauseNumberDetector.detectClauseNumber line with
  | None => Normal false
  | Some _ =>
      let remainder := ClauseNumberDetector.getRemainder line in
      if negb (truthyN remainder) then Normal false
      else match detectLeadingPhrase line remainder with
           | None => Normal false
           | Some detected =>
               if negb (hasContent detected) then Normal true
               else match content detected with
                    | Some c => Normal (strlen c <? 10)
                    | None => Throw
                    end
           end
  end.




End LeadingPhraseDetector.

(** ** TextSplitter *)

Module TextSplitter.

(** What one turn of the loop of [splitText] pushes onto [rows]; an entry
    is a [string | null], as [getClauseNumberRow] returns one. *)
Definition splitLine (line : jsstring) : list nullable :=
  match ClauseNumberDetector.detectClauseNumber line with
  | Some _ =>
      let clauseRow := ClauseNumberDetector.getClauseNumberRow line in
      let leadingPhrase := LeadingPhraseDetector.getLeadingPhrase line in
      let contentAfterPhrase := LeadingPhraseDetector.getContentAfterPhrase line in
      if truthyN leadingPhrase then
        if truthyN contentAfterPhrase
        then [clauseRow; leadingPhrase; contentAfterPhrase]
        else [clauseRow; leadingPhrase]
      else
        let remainder := ClauseNumberDetector.getRemainder line in
        if truthyN remainder then [clauseRow; remainder] else [clauseRow]
  | None =>
      if ClauseNumberDetector.isSubClause line then [Some line]
      else [Some line]
  end.

(** The loop over the lines, pushing in order. *)
Definition splitLines (lines : list jsstring) : list nullable :=
  fold_left (fun rows line => rows ++ splitLine line) lines [].

Definition splitText (text : value) : completion (list nullable) :=
  if negb (truthy text) || negb (isString text) then Normal []
  else
    match text with
    | Str s => Normal (splitLines (split newline s))
    | _ => Throw
    end.

(** [s.replace(/  +/g, ' ')]: of every run of two or more spaces one space
    stays; a space is dropped exactly when another space follows it. *)
Fixpoint collapseSpaces (s : jsstring) : jsstring :=
  match s with
  | c :: s' =>
      if (c =? space) && match s' with d :: _ => d =? space | [] => false end
      then collapseSpaces s'
      else c :: collapseSpaces s'
  | [] => []
  end.

Definition normalizeRow (row : nullable) : nullable :=
  match row with
  | None => None
  | Some row => Some (collapseSpaces (trim row))
  end.

Definition splitWithNormalization (text : value) : completion (list nullable) :=
  bind (splitText text) (fun rows => Normal (map normalizeRow rows)).

Record analysis := {
  totalLines : Z;
  clauseCount : Z;
  leadingPhraseCount : Z;
  estimatedRows : Z;
  nonEmptyLines : option Z
}.

(** One turn of the loop of [analyzeSplitting] on the three counters
    (clauseCount, leadingPhraseCount, estimatedRows). *)
Definition analyzeLine (acc : Z * Z * Z) (line : jsstring) : Z * Z * Z :=
  let '(clauseCount, leadingPhraseCount, estimatedRows) := acc in
  if ClauseNumberDetector.hasClauseNumber line then
    if LeadingPhraseDetector.hasLeadingPhrase line then
      if truthyN (LeadingPhraseDetector.getContentAfterPhrase line)
      then (clauseCount + 1, leadingPhraseCount + 1, estimatedRows + 1 + 1 + 1)
      else (clauseCount + 1, leadingPhraseCount + 1, estimatedRows + 1 + 1)
    else (clauseCount + 1, leadingPhraseCount, estimatedRows + 1)
  else acc.

Definition analyzeSplitting (text : value) : completion analysis :=
  if negb (truthy text) || negb (isString text) then
    Normal {| totalLines := 0; clauseCount := 0; leadingPhraseCount := 0;
              estimatedRows := 0; nonEmptyLines := None |}
  else
    match text with
    | Str s =>
        let lines := split newline s in
        let '(clauseCount, leadingPhraseCount, estimatedRows) :=
          fold_left analyzeLine lines (0, 0, Z.of_nat (List.length lines)) in
        Normal {| totalLines := Z.of_nat (List.length lines);
                  clauseCount := clauseCount;
                  leadingPhraseCount := leadingPhraseCount;
                  estimatedRows := estimatedRows;
                  nonEmptyLines :=
                    Some (Z.of_nat (List.length
                      (filter (fun l => negb (isEmptyString (trim l))) lines))) |}
    | _ => Throw
    end.

Definition isLargeDocument (text : value) : completion bool :=
  if negb (truthy text) then Normal false
  else bind (analyzeSplitting text) (fun a => Normal (1000 <? estimatedRows a)).



End TextSplitter.

(** ** RowGenerator *)

Module Row.

Inductive languageTag := unknown | mixed | devanagari | english | other.

Record t := {
  number : Z;
  text : jsstring;
  isEmpty : bool;
  isClauseNumber : bool;
  isLeadingPhrase : bool;
  isAmendment : bool;
  language : languageTag;
  length : Z
}.

End Row.

Module EnhancedRow.

(** A row after [enhanceRows]: the properties of the row, spread, and the
    added ones. *)
Record t := {
  row : Row.t;
  index : Z;
  isFirst : bool;
  isLast : bool;
  classes : list jsstring;
  displayText : jsstring;
  isMainClause : bool;
  isAmendmentClause : bool
}.

End EnhancedRow.

(** [issues.length === 0] *)
Definition isEmptyList {A : Type} (l : list A) : bool :=
  match l with [] => true | _ :: _ => false end.

Module RowGenerator.

Import Regex.

(** [/^[...]?\d+[a-z]?\.?$/] *)
Definition englishRowPattern : pattern :=
  {| items := [(Opt, isSymbol); (Plus, isDigit); (Opt, isLower); (Opt, isPeriod)];
     anchoredEnd := true |}.

(** [/^[...]?[digits]+[letters]?\.?$/] *)
Definition devanagariRowPattern : pattern :=
  {| items := [(Opt, isSymbol); (Plus, isDevanagariDigit);
               (Opt, isDevanagariLetter); (Opt, isPeriod)];
     anchoredEnd := true |}.

Definition isClauseNumber (text : jsstring) : bool :=
  if isEmptyString text || isEmptyString (trim text) then false
  else
    let trimmed := trim text in
    if test englishRowPattern trimmed then true
    else if test devanagariRowPattern trimmed then true
    else false.

Definition isLeadingPhrase (text : jsstring) : bool :=
  if isEmptyString text || isEmptyString (trim text) then false
  else endsWith colon (trim text).

Definition isAmendment (text : jsstring) : bool :=
  if isEmptyString text then false
  else existsb (fun symbol => includes symbol text) amendmentSymbols.

Definition detectLanguage (text : jsstring) : Row.languageTag :=
  if isEmptyString text then Row.unknown
  else
    let hasEnglish := testClass isLetter text in
    let hasDevanagari := testClass isDevanagari text in
    if hasEnglish && hasDevanagari then Row.mixed
    else if hasDevanagari then Row.devanagari
    else if hasEnglish then Row.english
    else Row.other.

(** The object built for [rows[i]]; [text.trim()] throws on [null]. *)
Definition rowObject (i : Z) (entry : nullable) : completion Row.t :=
  match entry with
  | None => Throw
  | Some text =>
      Normal {| Row.number := i + 1;
                Row.text := text;
                Row.isEmpty := isEmptyString (trim text);
                Row.isClauseNumber := isClauseNumber text;
                Row.isLeadingPhrase := isLeadingPhrase text;
                Row.isAmendment := isAmendment text;
                Row.language := detectLanguage text;
                Row.length := strlen text |}
  end.

(** The loop of [generateRows], from index [i] on. *)
Fixpoint generateRowsFrom (i : Z) (rows : list nullable) : completion (list Row.t) :=
  match rows with
  | [] => Normal []
  | entry :: rest =>
      bind (rowObject i entry) (fun rowObj =>
      bind (generateRowsFrom (i + 1) rest) (fun rowObjects =>
      Normal (rowObj :: rowObjects)))
  end.

Definition generateRows (rows : list nullable) : completion (list Row.t) :=
  generateRowsFrom 0 rows.

Definition generateRowsFromText (text : value) : completion (list Row.t) :=
  bind (TextSplitter.splitWithNormalization text) generateRows.

Definition getRowClasses (row : Row.t) : list jsstring :=
  (if Row.isEmpty row then [Literal.emptyRowClass] else [])
  ++ (if Row.isClauseNumber row then [Literal.clauseNumberClass] else [])
  ++ (if Row.isLeadingPhrase row then [Literal.leadingPhraseClass] else [])
  ++ (if Row.isAmendment row then [Literal.amendmentClauseClass] else [])
  ++ (match Row.language row with
      | Row.devanagari | Row.mixed => [Literal.devanagariClass]
      | _ => []
      end).

Definition getDisplayText (row : Row.t) : jsstring :=
  if Row.isEmpty row then [] else Row.text row.

(** The callback of [enhanceRows] at [index], [total] being [rows.length]. *)
Definition enhanceRow (total : Z) (index : Z) (row : Row.t) : EnhancedRow.t :=
  {| EnhancedRow.row := row;
     EnhancedRow.index := index;
     EnhancedRow.isFirst := index =? 0;
     EnhancedRow.isLast := index =? total - 1;
     EnhancedRow.classes := getRowClasses row;
     EnhancedRow.displayText := getDisplayText row;
     EnhancedRow.isMainClause := Row.isClauseNumber row && negb (Row.isAmendment row);
     EnhancedRow.isAmendmentClause := Row.isClauseNumber row && Row.isAmendment row |}.

Fixpoint enhanceFrom (total : Z) (index : Z) (rows : list Row.t)
  : list EnhancedRow.t :=
  match rows with
  | [] => []
  | row :: rest => enhanceRow total index row :: enhanceFrom total (index + 1) rest
  end.

Definition enhanceRows (rows : list Row.t) : list EnhancedRow.t :=
  enhanceFrom (Z.of_nat (List.length rows)) 0 rows.

(** What [validateRows] may be given: rows as [generateRows] builds them,
    which have no [classes] property, or enhanced rows. *)
Inductive rowValue :=
| plainRow (r : Row.t)
| enhancedRow (e : EnhancedRow.t).

Definition numberOf (o : rowValue) : Z :=
  match o with
  | plainRow r => Row.number r
  | enhancedRow e => Row.number (EnhancedRow.row e)
  end.

(** [typeof row.text === 'string']: so it is for either kind of row. *)
Definition textIsString (o : rowValue) : bool :=
  match o with plainRow _ => true | enhancedRow _ => true end.

(** [Array.isArray(row.classes)] *)
Definition classesIsArray (o : rowValue) : bool :=
  match o with plainRow _ => false | enhancedRow _ => true end.

Inductive rowsArgument :=
| notAnArray
| rowArray (rows : list rowValue).

Record validation := {
  valid : bool;
  issues : list jsstring;
  rowCount : option Z
}.

(** The issues one turn of the loop of [validateRows] pushes for [rows[i]]. *)
Definition rowIssues (i : Z) (o : rowValue) : list jsstring :=
  (if negb (numberOf o =? i + 1)
   then [Literal.rowPrefix ++ numberToString i ++ Literal.hasIncorrectNumber
           ++ numberToString (numberOf o)]
   else [])
  ++ (if negb (textIsString o)
      then [Literal.rowPrefix ++ numberToString (numberOf o)
              ++ Literal.textIsNotAString]
      else [])
  ++ (if negb (classesIsArray o)
      then [Literal.rowPrefix ++ numberToString (numberOf o)
              ++ Literal.classesIsNotAnArray]
      else []).

Fixpoint issuesFrom (i : Z) (rows : list rowValue) : list jsstring :=
  match rows with
  | [] => []
  | o :: rest => rowIssues i o ++ issuesFrom (i + 1) rest
  end.

Definition validateRows (rows : rowsArgument) : validation :=
  match rows with
  | notAnArray =>
      {| valid := false; issues := [Literal.rowsIsNotAnArray]; rowCount := None |}
  | rowArray rows =>
      let issues := issuesFrom 0 rows in
      {| valid := isEmptyList issues;
         issues := issues;
         rowCount := Some (Z.of_nat (List.length rows)) |}
  end.

End RowGenerator.

(** ** TableRenderer: the collapse view

    The two methods as the feature document of the repository lists them.
    They read one property of a row object, [isEmpty]; the row type is kept
    abstract, so that plain and enhanced rows are both covered. *)

Module TableRenderer.

Section Rows.
Variable R : Type.
Variable isEmpty : R -> bool.

Record state := { currentRows : list R }.

Definition filterEmptyRows (rows : list R) : list R :=
  filter (fun row => negb (isEmpty row)) rows.

Definition getDisplayRows (this : state) (collapseEmpty : bool) : list R :=
  if collapseEmpty then filterEmptyRows (currentRows this)
  else currentRows this.
End Rows.

Arguments currentRows {R} _.
Arguments Build_state {R} _.
Arguments filterEmptyRows {R} isEmpty rows.
Arguments getDisplayRows {R} isEmpty this collapseEmpty.

End TableRenderer.

(** ** TextExtractor.cleanText *)

Module TextExtractor.

(** [s.replace(/\r\n/g, '\n')] *)
Fixpoint replaceCRLF (s : jsstring) : jsstring :=
  match s with
  | c :: s' =>
      if c =? carriageReturn then
        match s' with
        | d :: s'' =>
            if d =? newline then newline :: replaceCRLF s''
            else c :: replaceCRLF s'
        | [] => [c]
        end
      else c :: replaceCRLF s'
  | [] => []
  end.

(** [s.replace(/\r/g, '\n')] *)
Definition replaceCR (s : jsstring) : jsstring :=
  map (fun c => if c =? carriageReturn then newline else c) s.

Definition normalizeLineEndings (s : jsstring) : jsstring :=
  replaceCR (replaceCRLF s).

Definition cleanText (text : jsstring) : jsstring :=
  if isEmptyString text then []
  else
    let cleaned :=
      match text with
      | c :: rest => if c =? byteOrderMark then rest else text
      | [] => text
      end in
    normalizeLineEndings cleaned.

Definition getFileExtension (filename : jsstring) : jsstring :=
  let parts := split period filename in
  if (1 <? Z.of_nat (List.length parts)) then last parts [] else [].

End TextExtractor.

(** ** ExportHandler and CopyHandler: rows as text

    The rows these functions are given are row objects, enhanced or not; they
    read the properties [generateRows] sets. *)

Module ExportHandler.

Definition exportAsText (rows : list Row.t) : jsstring :=
  join [newline]
    (map (fun row =>
            if Row.isEmpty row then []
            else Literal.rowPrefix ++ numberToString (Row.number row)
                 ++ Literal.colonSpace ++ Row.text row) rows).

Definition backslashN : jsstring := [92; 110].
Definition backslashR : jsstring := [92; 114].
Definition quote : Z := 34.

Definition escapeCsvValue (value : jsstring) : jsstring :=
  if isEmptyString value then []
  else
    let escaped := replaceUnit quote [quote; quote] value in
    replaceUnit carriageReturn backslashR (replaceUnit newline backslashN escaped).

Definition csvLine (row : Row.t) : jsstring :=
  [quote] ++ numberToString (Row.number row) ++ [quote; 44; quote]
  ++ escapeCsvValue (Row.text row) ++ [quote].

Definition exportAsCsv (rows : list Row.t) : jsstring :=
  join [newline] (Literal.csvHeader :: map csvLine rows).

(** The newer export: [value] may be [null]; the delimiter is one unit
    (a comma, a tab or a bar in the callers). *)
Definition escapeDelimitedValue (value : nullable) (delimiter : Z) : jsstring :=
  match value with
  | None => []
  | Some value =>
      let v := TextExtractor.replaceCR (TextExtractor.replaceCRLF value) in
      let v := replaceUnit quote [quote; quote] v in
      if negb (indexOf delimiter v =? -1)
         || testClass (fun c => (c =? newline) || (c =? quote)) v
      then [quote] ++ v ++ [quote]
      else v
  end.

Definition delimitedLine (delimiter : Z) (row : Row.t) : jsstring :=
  join [delimiter]
    [numberToString (Row.number row);
     escapeDelimitedValue (Some (Row.text row)) delimiter].

Definition exportAsDelimited (rows : list Row.t) (delimiter : Z) : jsstring :=
  join [newline]
    (join [delimiter] [Literal.headerRowNumber; Literal.headerTextContent]
       :: map (delimitedLine delimiter) rows).

End ExportHandler.

Module CopyHandler.

Definition formatRow (row : Row.t) : jsstring :=
  if Row.isEmpty row
  then Literal.rowPrefix ++ numberToString (Row.number row) ++ Literal.colonSpace
  else Literal.rowPrefix ++ numberToString (Row.number row) ++ Literal.colonSpace
       ++ Row.text row.

Definition formatRowsForCopy (rows : list Row.t) : jsstring :=
  join [newline] (map formatRow rows).

End CopyHandler.

(** ** Texts of the scenarios *)

Module Scenario.

Import String.
Local Open Scope string_scope.

Definition amendmentLine : jsstring := lit "*16a. New clause here.".
Definition amendmentClause : jsstring := lit "*16a.".
Definition doubledAmendmentClause : jsstring := lit "**16a.".
Definition newClauseHere : jsstring := lit "New clause here.".
Definition bareNumber : jsstring := lit "16".
Definition upperSuffixClause : jsstring := lit "5A.".
Definition act : jsstring := lit "Act".

(** [a], a lone carriage return, [b]. *)
Definition loneReturn : jsstring := [97; 13; 98].

End Scenario.

(** ** Vocabulary of the statements *)

Module Shape.

Import Regex.

(** A piece of input is acceptable for an item of a pattern. *)
Definition pieceOk (it : item) (m : jsstring) : bool :=
  match it with
  | (One, p) => match m with [c] => p c | _ => false end
  | (Opt, p) => match m with [] => true | [c] => p c | _ => false end
  | (Star, p) => forallb p m
  | (Plus, p) => negb (isEmptyString m) && forallb p m
  end.

(** [ms] cuts a prefix of the input into one acceptable piece per item. *)
Definition pieces (its : list item) (ms : list jsstring) : Prop :=
  Forall2 (fun it m => pieceOk it m = true) its ms.

(** A code unit with which a match of [its], or what follows an unanchored
    pattern, may begin. *)
Fixpoint canStart (its : list item) (c : Z) : bool :=
  match its with
  | [] => true
  | (One, p) :: _ | (Plus, p) :: _ => p c
  | (Opt, p) :: rest | (Star, p) :: rest => p c || canStart rest c
  end.

(** No quantified item can take a unit with which the rest may begin: the
    pattern has at most one way to match a prefix. *)
Fixpoint deterministic (its : list item) : Prop :=
  match its with
  | [] => True
  | (qt, p) :: rest =>
      match qt with
      | One => True
      | _ => forall c, p c = true -> canStart rest c = false
      end /\ deterministic rest
  end.

(** [l] is an interleaving of [l1] and [l2], each in its own order. *)
Inductive Merge {A : Type} : list A -> list A -> list A -> Prop :=
| Merge_nil : Merge [] [] []
| Merge_left x l1 l2 l : Merge l1 l2 l -> Merge (x :: l1) l2 (x :: l)
| Merge_right x l1 l2 l : Merge l1 l2 l -> Merge l1 (x :: l2) (x :: l).

(** The text of a row under the row classifier's own patterns: an optional
    amendment symbol, digits, an optional suffix letter, an optional period,
    and nothing else. *)
Definition rowShape (isD isL : Z -> bool) (t : jsstring) : Prop :=
  exists sym digits suffix dot,
    t = sym ++ digits ++ suffix ++ dot /\
    (sym = [] \/ exists c, sym = [c] /\ isSymbol c = true) /\
    digits <> [] /\ forallb isD digits = true /\
    (suffix = [] \/ exists c, suffix = [c] /\ isL c = true) /\
    (dot = [] \/ dot = [period]).

(** The two numeral patterns read as one: either kind of digit, either kind
    of suffix letter. *)
Definition isAnyDigit (c : Z) : bool := isDigit c || isDevanagariDigit c.
Definition isAnyLetter (c : Z) : bool := isLetter c || isDevanagariLetter c.
Definition mergedNumeralItems : list item :=
  [(Opt, isSymbol); (Star, isWhiteSpace); (Plus, isAnyDigit);
   (Opt, isAnyLetter); (Star, isWhiteSpace); (One, isPeriod)].

(** The sub-clause shape at the start of a line: white space, an opening
    parenthesis, one or more units of the class, a closing parenthesis, and
    whatever follows. *)
Definition subClauseLine (ws body rest : jsstring) : jsstring :=
  ws ++ [lparen] ++ body ++ [rparen] ++ rest.

(** Every match of the pattern ends with a unit that is not white space. *)
Definition endsNonWhite (its : list item) : Prop :=
  forall ms, pieces its ms ->
    exists y c, List.concat ms = y ++ [c] /\ isWhiteSpace c = false.

(** Two lines that differ at most by a carriage return at the end. *)
Definition sameButReturn (l l' : jsstring) : Prop :=
  l = l' \/ l = l' ++ [carriageReturn].

(** What the estimator adds for a line on top of the line itself. *)
Definition extraRows (line : jsstring) : Z :=
  if ClauseNumberDetector.hasClauseNumber line then
    if LeadingPhraseDetector.hasLeadingPhrase line then
      if truthyN (LeadingPhraseDetector.getContentAfterPhrase line) then 3 else 2
    else 1
  else 0.

Definition sumExtra (lines : list jsstring) : Z :=
  fold_right (fun line acc => extraRows line + acc) 0 lines.

Definition isStringEntry (entry : nullable) : Prop := entry <> None.

(** Every carriage return is immediately followed by a line feed. *)
Fixpoint crlfOnly (s : jsstring) : bool :=
  match s with
  | [] => true
  | c :: s' =>
      if c =? carriageReturn then
        match s' with
        | d :: s'' => (d =? newline) && crlfOnly s''
        | [] => false
        end
      else crlfOnly s'
  end.

(** A text with no white space at either end. *)
Definition trimmedText (s : jsstring) : Prop :=
  match s with
  | [] => True
  | c :: _ => isWhiteSpace c = false /\ isWhiteSpace (last s c) = false
  end.

(** Two spaces in a row somewhere in the text. *)
Fixpoint hasDoubleSpace (s : jsstring) : bool :=
  match s with
  | c :: s' =>
      ((c =? space) && match s' with d :: _ => d =? space | [] => false end)
      || hasDoubleSpace s'
  | [] => false
  end.

(** The row numbers [from + 1, from + 2, ...] of [n] rows. *)
Fixpoint numbersFrom (from : Z) (n : nat) : list Z :=
  match n with
  | O => []
  | S n' => (from + 1) :: numbersFrom (from + 1) n'
  end.

(** The lines on which a clause number is detected, with the detection. *)
Fixpoint detections (lines : list jsstring) : list ClauseNumberDetector.detection :=
  match lines with
  | [] => []
  | line :: rest =>
      match ClauseNumberDetector.detectClauseNumber line with
      | Some d => d :: detections rest
      | None => detections rest
      end
  end.

(** Reading a field of a delimited file back: a field in double quotes
    loses them and has its doubled quotes halved. *)
Fixpoint halveQuotes (s : jsstring) : jsstring :=
  match s with
  | c :: s' =>
      if c =? 34 then
        match s' with
        | d :: s'' => if d =? 34 then 34 :: halveQuotes s'' else c :: halveQuotes s'
        | [] => [c]
        end
      else c :: halveQuotes s'
  | [] => []
  end.

Definition unquoteField (field : jsstring) : jsstring :=
  match field with
  | c :: inner => if c =? 34 then halveQuotes (removelast inner) else field
  | [] => []
  end.


(** How many elements satisfy a test. *)
Definition countIf {A : Type} (p : A -> bool) (l : list A) : Z :=
  Z.of_nat (List.length (filter p l)).

(** U+0929, the one unit of the suffix range of the patterns that is not a
    key of [devanagariLetters]. *)
Definition unmappedLetter : Z := 2345.

(** The units [lo], [lo + 1], ..., [lo + n - 1]. *)
Definition unitRange (lo : Z) (n : nat) : list Z :=
  map (fun k => lo + Z.of_nat k) (seq 0 n).

End Shape.

Import Shape.

(* ================================================================== *)
(** * Part II: properties *)
(* ================================================================== *)

(** ** The matcher against its declarative reading *)

Section MatcherSteps.
Import Regex.
Context {A : Type} (p : Z -> bool) (k : jsstring -> option A).

Lemma skip_inv s m a : skip k s = Some (m, a) -> m = [] /\ k s = Some a.
Proof.
  unfold skip. destruct (k s); intros H; inversion H; auto.
Qed.

Lemma one_inv s m a :
  one p k s = Some (m, a) ->
  exists c s', s = c :: s' /\ m = [c] /\ p c = true /\ k s' = Some a.
Proof.
  destruct s as [|c s']; simpl; [discriminate|].
  destruct (p c) eqn:Hc; [|discriminate].
  destruct (k s') eqn:Hk; [|discriminate].
  intros H; inversion H; subst. eauto 6.
Qed.

Lemma star_inv s : forall m a,
  star p k s = Some (m, a) ->
  exists s', s = m ++ s' /\ forallb p m = true /\ k s' = Some a.
Proof.
  induction s as [|c s' IH]; intros m a; simpl.
  - intros H. apply skip_inv in H as [-> H]. exists []. auto.
  - destruct (p c) eqn:Hc.
    + destruct (star p k s') as [[m' a']|] eqn:Hs.
      * intros H; inversion H; subst.
        destruct (IH _ _ eq_refl) as (t & -> & Hm & Hk).
        exists t. simpl. rewrite Hc, Hm. auto.
      * intros H. apply skip_inv in H as [-> H]. exists (c :: s'). auto.
    + intros H. apply skip_inv in H as [-> H]. exists (c :: s'). auto.
Qed.

Lemma step_inv qt s m a :
  step qt p k s = Some (m, a) ->
  exists s', s = m ++ s' /\ pieceOk (qt, p) m = true /\ k s' = Some a.
Proof.
  destruct qt; simpl.
  - intros H. apply one_inv in H as (c & s' & -> & -> & Hc & Hk).
    exists s'. simpl. auto.
  - unfold opt. destruct (one p k s) as [[m' a']|] eqn:Ho.
    + intros H; inversion H; subst.
      apply one_inv in Ho as (c & s' & -> & -> & Hc & Hk).
      exists s'. simpl. auto.
    + intros H. apply skip_inv in H as [-> H]. exists s. auto.
  - apply star_inv.
  - destruct s as [|c s']; simpl; [discriminate|].
    destruct (p c) eqn:Hc; [|discriminate].
    destruct (star p k s') as [[m' a']|] eqn:Hs; [|discriminate].
    intros H; inversion H; subst.
    apply star_inv in Hs as (t & -> & Hm & Hk).
    exists t. simpl. rewrite Hc, Hm. auto.
Qed.

Lemma star_skip s : k s <> None -> star p k s <> None.
Proof.
  intros Hk.
  assert (Hs : skip k s <> None) by (unfold skip; destruct (k s); congruence).
  destruct s as [|c s']; simpl; auto.
  destruct (p c); auto.
  destruct (star p k s') as [[m a]|]; [discriminate | auto].
Qed.

Lemma star_complete m : forall s',
  forallb p m = true -> k s' <> None -> star p k (m ++ s') <> None.
Proof.
  induction m as [|c m IH]; intros s' Hm Hk; simpl.
  - now apply star_skip.
  - simpl in Hm. apply andb_prop in Hm as [Hc Hm]. rewrite Hc.
    specialize (IH s' Hm Hk).
    destruct (star p k (m ++ s')) as [[m' a]|]; congruence.
Qed.

Lemma step_complete qt m s' :
  pieceOk (qt, p) m = true -> k s' <> None -> step qt p k (m ++ s') <> None.
Proof.
  intros Hm Hk. destruct qt; simpl in *.
  - destruct m as [|c [|d m]]; try discriminate. simpl. rewrite Hm.
    destruct (k s'); congruence.
  - destruct m as [|c [|d m]]; try discriminate; unfold opt; simpl.
    + destruct (one p k s') as [r|]; [discriminate|].
      unfold skip. destruct (k s'); congruence.
    + rewrite Hm. destruct (k s'); congruence.
  - now apply star_complete.
  - destruct m as [|c m]; [discriminate|]. simpl in *.
    apply andb_prop in Hm as [Hc Hm]. rewrite Hc.
    pose proof (star_complete m s' Hm Hk) as Hs.
    destruct (star p k (m ++ s')) as [[m' a]|]; congruence.
Qed.
End MatcherSteps.

Section MatcherFacts.
Import Regex.

(** Whatever the matcher returns is a cut of a prefix of the input into
    acceptable pieces. *)
Lemma run_sound its atEnd : forall s ms tl,
  run its atEnd s = Some (ms, tl) ->
  pieces its ms /\ s = List.concat ms ++ tl /\ (atEnd = true -> tl = []).
Proof.
  induction its as [|[qt p] rest IH]; intros s ms tl; simpl.
  - destruct atEnd.
    + destruct s; [|discriminate]. intros H; inversion H; subst.
      repeat split; auto. constructor.
    + intros H; inversion H; subst. repeat split; auto.
      * constructor.
      * discriminate.
  - destruct (step qt p (run rest atEnd) s) as [[m [ms' tl']]|] eqn:Hst;
      [|discriminate].
    intros H; inversion H; subst.
    apply step_inv in Hst as (s' & -> & Hm & Hk).
    apply IH in Hk as (Hps & -> & Hend).
    repeat split; auto.
    + constructor; auto.
    + simpl. now rewrite <- app_assoc.
Qed.

(** Wherever such a cut exists, the matcher succeeds. *)
Lemma run_complete its atEnd : forall ms tl,
  pieces its ms -> (atEnd = true -> tl = []) ->
  run its atEnd (List.concat ms ++ tl) <> None.
Proof.
  induction its as [|[qt p] rest IH]; intros ms tl Hps Hend.
  - inversion Hps; subst. simpl. destruct atEnd; [|discriminate].
    rewrite (Hend eq_refl). discriminate.
  - inversion Hps as [|it m its' ms' Hm Hrest]; subst.
    simpl. rewrite <- app_assoc.
    pose proof (step_complete p (run rest atEnd) qt m
                  (List.concat ms' ++ tl) Hm (IH _ _ Hrest Hend)) as Hst.
    destruct (step qt p (run rest atEnd) (m ++ List.concat ms' ++ tl))
      as [[m0 [ms0 tl0]]|]; congruence.
Qed.

Lemma test_iff r s :
  test r s = true <->
  exists ms tl, pieces (items r) ms /\ s = List.concat ms ++ tl
                /\ (anchoredEnd r = true -> tl = []).
Proof.
  unfold test, exec. split.
  - destruct (run (items r) (anchoredEnd r) s) as [[ms tl]|] eqn:Hr;
      [|discriminate].
    intros _. exists ms, tl. now apply run_sound.
  - intros (ms & tl & Hps & -> & Hend).
    pose proof (run_complete (items r) (anchoredEnd r) ms tl Hps Hend) as Hr.
    destruct (run (items r) (anchoredEnd r) (List.concat ms ++ tl))
      as [[ms' tl']|]; congruence.
Qed.

Lemma pieceOk_all qt p m c :
  pieceOk (qt, p) m = true -> In c m -> p c = true.
Proof.
  destruct qt; simpl; intros Hm Hin.
  - destruct m as [|d [|e m]]; try discriminate.
    destruct Hin as [<-|[]]; auto.
  - destruct m as [|d [|e m]]; try discriminate; [destruct Hin|].
    destruct Hin as [<-|[]]; auto.
  - rewrite forallb_forall in Hm; auto.
  - apply andb_prop in Hm as [_ Hm]. rewrite forallb_forall in Hm; auto.
Qed.

Lemma canStart_sound its : forall ms tl c x,
  pieces its ms -> List.concat ms ++ tl = c :: x -> canStart its c = true.
Proof.
  induction its as [|[qt p] rest IH]; intros ms tl c x Hps Heq; [reflexivity|].
  inversion Hps as [|it m its' ms' Hm Hrest]; subst.
  simpl in Heq. rewrite <- app_assoc in Heq.
  destruct m as [|d m].
  - simpl in Heq. specialize (IH _ _ _ _ Hrest Heq).
    destruct qt; simpl in *; try discriminate; rewrite IH; apply orb_true_r.
  - simpl in Heq. inversion Heq; subst.
    assert (Hc : p c = true)
      by (eapply pieceOk_all; [exact Hm | left; reflexivity]).
    destruct qt; simpl; rewrite Hc; reflexivity.
Qed.

(** Two lists with a common extension: equal, or one continues the other. *)
Lemma app_eq_cases {T : Type} (m m' x x' : list T) :
  m ++ x = m' ++ x' ->
  (m = m' /\ x = x')
  \/ (exists c y, m' = m ++ c :: y /\ x = c :: y ++ x')
  \/ (exists c y, m = m' ++ c :: y /\ x' = c :: y ++ x).
Proof.
  revert m'. induction m as [|a m IH]; intros m' H.
  - destruct m' as [|b m']; simpl in *.
    + left; auto.
    + right; left. exists b, m'. auto.
  - destruct m' as [|b m']; simpl in *.
    + right; right. exists a, m. auto.
    + inversion H; subst.
      destruct (IH _ H2) as [[-> ->]|[(c & y & -> & ->)|(c & y & -> & ->)]].
      * left; auto.
      * right; left. exists c, y. auto.
      * right; right. exists c, y. auto.
Qed.

Lemma piece_extension_absurd qt p rest m m' c y ms tl z :
  (match qt with
   | One => True
   | _ => forall c, p c = true -> canStart rest c = false
   end) ->
  pieceOk (qt, p) m = true -> pieceOk (qt, p) m' = true ->
  m' = m ++ c :: y ->
  pieces rest ms -> List.concat ms ++ tl = c :: z ->
  False.
Proof.
  intros Hdet Hm Hm' -> Hps Heq.
  assert (Hc : p c = true).
  { eapply pieceOk_all; [exact Hm'|]. apply in_or_app. right. left. reflexivity. }
  pose proof (canStart_sound rest ms tl c z Hps Heq) as Hst.
  destruct qt.
  - simpl in Hm, Hm'.
    destruct m as [|d [|e m]]; discriminate.
  - rewrite (Hdet c Hc) in Hst. discriminate.
  - rewrite (Hdet c Hc) in Hst. discriminate.
  - rewrite (Hdet c Hc) in Hst. discriminate.
Qed.

(** A deterministic pattern cuts a given input in at most one way. *)
Lemma pieces_unique its : forall ms ms' tl tl',
  deterministic its -> pieces its ms -> pieces its ms' ->
  List.concat ms ++ tl = List.concat ms' ++ tl' ->
  ms = ms' /\ tl = tl'.
Proof.
  induction its as [|[qt p] rest IH]; intros ms ms' tl tl' Hdet Hps Hps' Heq.
  - inversion Hps; inversion Hps'; subst. simpl in Heq. auto.
  - inversion Hps as [|it m its1 ms1 Hm Hrest]; subst.
    inversion Hps' as [|it' m' its1' ms1' Hm' Hrest']; subst.
    destruct Hdet as [Hhead Hdet].
    simpl in Heq. rewrite <- !app_assoc in Heq.
    destruct (app_eq_cases _ _ _ _ Heq)
      as [[-> Hx]|[(c & y & E & Hx)|(c & y & E & Hx)]].
    + destruct (IH _ _ _ _ Hdet Hrest Hrest' Hx) as [-> ->]. auto.
    + exfalso.
      apply (piece_extension_absurd qt p rest m m' c y ms1 tl
               (y ++ List.concat ms1' ++ tl')); auto.
    + exfalso.
      apply (piece_extension_absurd qt p rest m' m c y ms1' tl'
               (y ++ List.concat ms1 ++ tl)); auto.
Qed.

(** For a deterministic unanchored pattern the matcher returns exactly the
    one cut there is. *)
Lemma run_iff its s ms tl :
  deterministic its ->
  (run its false s = Some (ms, tl) <-> pieces its ms /\ s = List.concat ms ++ tl).
Proof.
  intros Hdet. split.
  - intros H. apply run_sound in H. tauto.
  - intros [Hps ->].
    assert (Hend : false = true -> tl = []) by discriminate.
    pose proof (run_complete its false ms tl Hps Hend) as Hr.
    destruct (run its false (List.concat ms ++ tl)) as [[ms' tl']|] eqn:E;
      [|congruence].
    apply run_sound in E as (Hps' & Heq & _).
    destruct (pieces_unique its ms ms' tl tl' Hdet Hps Hps' Heq) as [-> ->].
    reflexivity.
Qed.

End MatcherFacts.

(** ** Character classes *)

Ltac class_unfold :=
  unfold isSymbol, amendmentSymbols, isWhiteSpace, isDigit, isLetter, isLower,
    isUpper, isDevanagariDigit, isDevanagariLetter, isDevanagari,
    isSubClauseChar, isPeriod, isLParen, isRParen, period, lparen, rparen,
    colon, space, newline, carriageReturn, asterisk in *;
  simpl existsb in *.

Ltac class_props :=
  repeat match goal with
    | H : _ || _ = true |- _ => apply orb_prop in H
    | H : _ && _ = true |- _ => apply andb_prop in H
    | H : _ \/ _ |- _ => destruct H
    | H : _ /\ _ |- _ => destruct H
    | H : (_ =? _) = true |- _ => apply Z.eqb_eq in H
    | H : (_ <=? _) = true |- _ => apply Z.leb_le in H
    | H : false = true |- _ => discriminate H
    end.

(** Settles [cls c = false] and contradictions between class memberships. *)
Ltac class_solve :=
  try (apply not_true_iff_false; intro);
  class_unfold; class_props; try subst; try discriminate; try lia.

Lemma symbol_not_white c : isSymbol c = true -> isWhiteSpace c = false.
Proof. intros H. class_solve. Qed.

Lemma lparen_not_white : isWhiteSpace lparen = false.
Proof. reflexivity. Qed.

Lemma englishNumeral_deterministic :
  deterministic (Regex.items ClauseNumberDetector.englishNumeralPattern).
Proof.
  simpl. repeat split; intros c H; class_solve.
Qed.

Lemma devanagariNumeral_deterministic :
  deterministic (Regex.items ClauseNumberDetector.devanagariNumeralPattern).
Proof.
  simpl. repeat split; intros c H; class_solve.
Qed.

Lemma subClause_deterministic :
  deterministic (Regex.items ClauseNumberDetector.subClausePattern).
Proof.
  simpl. repeat split; intros c H; class_solve.
Qed.

(** ** The loops as list functions *)

Section Loops.
Import TextSplitter.

Lemma fold_push {T U : Type} (f : T -> list U) (l : list T) : forall acc,
  fold_left (fun rows x => rows ++ f x) l acc = acc ++ flat_map f l.
Proof.
  induction l as [|x l IH]; intros acc; simpl.
  - now rewrite app_nil_r.
  - rewrite IH. now rewrite <- app_assoc.
Qed.

Lemma splitLines_flat_map lines : splitLines lines = flat_map splitLine lines.
Proof. unfold splitLines. now rewrite fold_push. Qed.

Lemma splitText_string s :
  s <> [] -> splitText (Str s) = Normal (flat_map splitLine (split newline s)).
Proof.
  intros Hs. unfold splitText. destruct s as [|c s]; [congruence|].
  simpl truthy. simpl isString. cbv iota beta. simpl orb. cbv iota.
  now rewrite splitLines_flat_map.
Qed.

Lemma splitText_not_text v :
  isString v = false \/ v = Str [] -> splitText v = Normal [].
Proof.
  intros [H| ->]; [|reflexivity].
  unfold splitText. rewrite H. now rewrite orb_true_r.
Qed.

Lemma split_nonempty sep s : split sep s <> [].
Proof.
  destruct s as [|c s]; simpl; [discriminate|].
  destruct (c =? sep); [discriminate|].
  destruct (split sep s); discriminate.
Qed.

Lemma getClauseNumberRow_detected line d :
  ClauseNumberDetector.detectClauseNumber line = Some d ->
  isStringEntry (ClauseNumberDetector.getClauseNumberRow line).
Proof.
  intros H. unfold ClauseNumberDetector.getClauseNumberRow. rewrite H.
  destruct (ClauseNumberDetector.amendment d); discriminate.
Qed.

Lemma truthyN_string o : truthyN o = true -> isStringEntry o.
Proof. destruct o; [discriminate | intros H; discriminate H]. Qed.

(** A line pushes one, two or three entries, all of them strings. *)
Lemma splitLine_shape line :
  (1 <= List.length (splitLine line) <= 3)%nat
  /\ Forall isStringEntry (splitLine line).
Proof.
  unfold splitLine.
  destruct (ClauseNumberDetector.detectClauseNumber line) as [d|] eqn:Hd.
  - pose proof (getClauseNumberRow_detected line d Hd) as Hrow.
    destruct (truthyN (LeadingPhraseDetector.getLeadingPhrase line)) eqn:Hp.
    + destruct (truthyN (LeadingPhraseDetector.getContentAfterPhrase line)) eqn:Hc;
        simpl; split; try lia; repeat constructor;
        auto using truthyN_string.
    + destruct (truthyN (ClauseNumberDetector.getRemainder line)) eqn:Hr;
        simpl; split; try lia; repeat constructor;
        auto using truthyN_string.
  - destruct (ClauseNumberDetector.isSubClause line);
      simpl; split; try lia; repeat constructor; discriminate.
Qed.

Lemma flat_map_length_bounds {T U : Type} (f : T -> list U) (l : list T) lo hi :
  (forall x, lo <= List.length (f x) <= hi)%nat ->
  (lo * List.length l <= List.length (flat_map f l) <= hi * List.length l)%nat.
Proof.
  intros Hf. induction l as [|x l IH]; simpl; [lia|].
  rewrite length_app. specialize (Hf x). lia.
Qed.

Lemma flat_map_Forall {T U : Type} (P : U -> Prop) (f : T -> list U) l :
  (forall x, Forall P (f x)) -> Forall P (flat_map f l).
Proof.
  intros Hf. induction l as [|x l IH]; simpl; [constructor|].
  apply Forall_app. auto.
Qed.

Lemma normalizeRow_string entry :
  isStringEntry entry -> isStringEntry (normalizeRow entry).
Proof. destruct entry; simpl; [discriminate | auto]. Qed.

End Loops.

Section RowObjects.
Import RowGenerator.

(** [generateRows] succeeds on string entries, gives one object per entry,
    numbers them from [i + 1] and computes each flag from the text. *)
Lemma generateRowsFrom_total rows : forall i,
  Forall isStringEntry rows ->
  exists objs,
    generateRowsFrom i rows = Normal objs
    /\ List.length objs = List.length rows
    /\ map (fun o => Some (Row.text o)) objs = rows
    /\ Forall (fun o =>
         Row.isEmpty o = isEmptyString (trim (Row.text o))
         /\ Row.isClauseNumber o = isClauseNumber (Row.text o)
         /\ Row.isLeadingPhrase o = isLeadingPhrase (Row.text o)
         /\ Row.isAmendment o = isAmendment (Row.text o)
         /\ Row.language o = detectLanguage (Row.text o)) objs.
Proof.
  induction rows as [|entry rows IH]; intros i Hall.
  - exists []. simpl. repeat split; constructor.
  - inversion Hall as [|e r He Hrest]; subst.
    destruct entry as [text|]; [|now elim He].
    destruct (IH (i + 1) Hrest) as (objs & Hgen & Hlen & Htext & Hflags).
    cbn [generateRowsFrom rowObject bind]. rewrite Hgen. cbn [bind].
    eexists. split; [reflexivity|].
    split; [simpl; now rewrite Hlen|].
    split; [simpl; now rewrite Htext|].
    constructor; [simpl; auto | exact Hflags].
Qed.

End RowObjects.

(** ** Scenario 2: an amendment clause *)

(** C1. On the line [*16a. New clause here.] the pipeline gives two rows, but
    the first one reads [**16a.]: [getClauseNumberRow] puts the amendment
    symbol in front of [fullClause], which already begins with it.  The row is
    flagged as an amendment and, having two symbols, not as a clause number. *)
Theorem C1_amendment_symbol_emitted_twice :
  RowGenerator.generateRowsFromText (Str Scenario.amendmentLine)
  = Normal
      [ {| Row.number := 1;
           Row.text := Scenario.doubledAmendmentClause;
           Row.isEmpty := false;
           Row.isClauseNumber := false;
           Row.isLeadingPhrase := false;
           Row.isAmendment := true;
           Row.language := Row.english;
           Row.length := 6 |};
        {| Row.number := 2;
           Row.text := Scenario.newClauseHere;
           Row.isEmpty := false;
           Row.isClauseNumber := false;
           Row.isLeadingPhrase := false;
           Row.isAmendment := false;
           Row.language := Row.english;
           Row.length := 16 |} ]
  /\ Scenario.doubledAmendmentClause = asterisk :: Scenario.amendmentClause.
Proof. split; vm_compute; reflexivity. Qed.

(** ** Inputs that are not a text *)

(** C5. [null], [undefined], any other non-string and the empty string are
    answered with an empty row sequence, by the splitter and by the whole
    pipeline, and nothing is thrown. *)
Theorem C5_no_text_no_rows (v : value) :
  isString v = false \/ v = Str [] ->
  TextSplitter.splitText v = Normal []
  /\ TextSplitter.splitWithNormalization v = Normal []
  /\ RowGenerator.generateRowsFromText v = Normal [].
Proof.
  intros H. pose proof (splitText_not_text v H) as Hs.
  unfold RowGenerator.generateRowsFromText, TextSplitter.splitWithNormalization.
  rewrite Hs. simpl. auto.
Qed.

Lemma C5_no_text_no_rows_witness :
  (isString Null = false \/ Null = Str [])
  /\ RowGenerator.generateRowsFromText Null = Normal [].
Proof.
  split; [left; reflexivity|].
  apply (C5_no_text_no_rows Null). left; reflexivity.
Defined.

(** ** The collapse view *)

Section Collapse.
Context {R : Type} (isEmpty : R -> bool).

Lemma filter_Merge (rows : list R) :
  Merge (filter (fun row => negb (isEmpty row)) rows) (filter isEmpty rows) rows.
Proof.
  induction rows as [|row rows IH]; simpl; [constructor|].
  destruct (isEmpty row); simpl; constructor; exact IH.
Qed.

Lemma Merge_unique (rows : list R) : forall kept removed,
  Merge kept removed rows ->
  Forall (fun row => isEmpty row = false) kept ->
  Forall (fun row => isEmpty row = true) removed ->
  kept = filter (fun row => negb (isEmpty row)) rows.
Proof.
  intros kept removed HM. induction HM as [|x l1 l2 l HM IH|x l1 l2 l HM IH];
    intros Hk Hr; simpl.
  - reflexivity.
  - inversion Hk as [|y ys Hx Hk']; subst. rewrite Hx. simpl.
    f_equal. auto.
  - inversion Hr as [|y ys Hx Hr']; subst. rewrite Hx. simpl. auto.
Qed.
End Collapse.

(** C6. With [collapseEmpty = true] the displayed rows are the current rows
    with the empty ones taken out: the current rows are an interleaving of the
    view, whose rows all have [isEmpty = false], and of the removed rows, which
    all have [isEmpty = true], both in their original order; and the view is
    the only list of which this is true. *)
Theorem C6_collapse_view (R : Type) (isEmpty : R -> bool)
    (this : TableRenderer.state R) :
  let view := TableRenderer.getDisplayRows isEmpty this true in
  Forall (fun row => isEmpty row = false) view
  /\ (exists removed,
        Forall (fun row => isEmpty row = true) removed
        /\ Merge view removed (TableRenderer.currentRows this))
  /\ (forall kept removed,
        Merge kept removed (TableRenderer.currentRows this) ->
        Forall (fun row => isEmpty row = false) kept ->
        Forall (fun row => isEmpty row = true) removed ->
        kept = view).
Proof.
  simpl. unfold TableRenderer.filterEmptyRows.
  split; [|split].
  - apply Forall_forall. intros row Hin. apply filter_In in Hin as [_ H].
    now apply negb_true_iff in H.
  - exists (filter isEmpty (TableRenderer.currentRows this)). split.
    + apply Forall_forall. intros row Hin. now apply filter_In in Hin as [_ H].
    + apply filter_Merge.
  - intros kept removed HM Hk Hr. eapply Merge_unique; eauto.
Qed.

Lemma C6_collapse_view_witness :
  let this := TableRenderer.Build_state [true; false; true; false] in
  TableRenderer.getDisplayRows (fun b : bool => b) this true = [false; false]
  /\ Forall (fun row : bool => row = false)
       (TableRenderer.getDisplayRows (fun b : bool => b) this true).
Proof.
  split; [reflexivity|].
  exact (proj1 (C6_collapse_view bool (fun b => b)
                  (TableRenderer.Build_state [true; false; true; false]))).
Defined.

(** ** The language tag *)

Lemma testClass_iff p s :
  testClass p s = true <-> exists c, In c s /\ p c = true.
Proof. unfold testClass. apply existsb_exists. Qed.

(** C8. The classifier has five answers.  The empty string, and only it, is
    [unknown]; a string is [mixed] when it holds a Latin letter and a
    Devanagari unit, [english] with Latin letters only, [devanagari] with
    Devanagari only, and [other] when it is not empty and holds neither. *)
Theorem C8_language_tags (text : jsstring) :
  let latin := exists c, In c text /\ isLetter c = true in
  let deva := exists c, In c text /\ isDevanagari c = true in
  (RowGenerator.detectLanguage text = Row.unknown <-> text = [])
  /\ (RowGenerator.detectLanguage text = Row.mixed <-> latin /\ deva)
  /\ (RowGenerator.detectLanguage text = Row.english <-> latin /\ ~ deva)
  /\ (RowGenerator.detectLanguage text = Row.devanagari <-> deva /\ ~ latin)
  /\ (RowGenerator.detectLanguage text = Row.other <->
        text <> [] /\ ~ latin /\ ~ deva).
Proof.
  intros latin deva. unfold RowGenerator.detectLanguage.
  pose proof (testClass_iff isLetter text) as HL.
  pose proof (testClass_iff isDevanagari text) as HD.
  fold latin in HL. fold deva in HD.
  destruct text as [|c text].
  - assert (HnL : ~ latin) by (intros (c & [] & _)).
    assert (HnD : ~ deva) by (intros (c & [] & _)).
    simpl. repeat split; intros; try discriminate; try reflexivity;
      try tauto; try (exfalso; tauto).
  - cbn [isEmptyString].
    assert (Hne : c :: text <> []) by discriminate.
    destruct (testClass isLetter (c :: text));
      destruct (testClass isDevanagari (c :: text)); simpl;
      (match type of HL with
       | true = true <-> _ => assert (HL' : latin) by (now apply HL)
       | _ => assert (HL' : ~ latin) by (intros X; apply HL in X; discriminate X)
       end);
      (match type of HD with
       | true = true <-> _ => assert (HD' : deva) by (now apply HD)
       | _ => assert (HD' : ~ deva) by (intros X; apply HD in X; discriminate X)
       end);
      clear HL HD;
      repeat split; intros; try discriminate; try reflexivity;
      try tauto; try (exfalso; tauto).
Qed.

Lemma C8_language_tags_witness :
  RowGenerator.detectLanguage (Scenario.act) = Row.english.
Proof.
  apply (proj1 (proj2 (proj2 (C8_language_tags (Scenario.act))))).
  split.
  - exists 65. split; [left; reflexivity | reflexivity].
  - intros (c & Hin & Hc). simpl in Hin.
    destruct Hin as [<-|[<-|[<-|[]]]]; discriminate Hc.
Defined.

Lemma C8_empty_string_is_unknown :
  RowGenerator.detectLanguage [] = Row.unknown
  /\ RowGenerator.detectLanguage [] <> Row.other
  /\ ~ (exists c, In c (@nil Z) /\ isLetter c = true)
  /\ ~ (exists c, In c (@nil Z) /\ isDevanagari c = true).
Proof.
  repeat split; try discriminate; intros (c & [] & _).
Qed.

(** ** The estimator against the splitter *)

Section Estimate.
Import TextSplitter.

Lemma getLeadingPhrase_hasLeadingPhrase line :
  truthyN (LeadingPhraseDetector.getLeadingPhrase line) = true ->
  LeadingPhraseDetector.hasLeadingPhrase line = true.
Proof.
  unfold LeadingPhraseDetector.getLeadingPhrase,
    LeadingPhraseDetector.hasLeadingPhrase.
  destruct (ClauseNumberDetector.detectClauseNumber line); [|discriminate].
  destruct (negb (truthyN (ClauseNumberDetector.getRemainder line)));
    [discriminate|].
  destruct (LeadingPhraseDetector.detectLeadingPhrase line
              (ClauseNumberDetector.getRemainder line)); [reflexivity|discriminate].
Qed.

(** A line never pushes more entries than the estimator counts for it. *)
Lemma splitLine_within_estimate line :
  Z.of_nat (List.length (splitLine line)) <= 1 + extraRows line.
Proof.
  unfold splitLine, extraRows, ClauseNumberDetector.hasClauseNumber.
  destruct (ClauseNumberDetector.detectClauseNumber line) as [d|].
  - destruct (truthyN (LeadingPhraseDetector.getLeadingPhrase line)) eqn:Hp.
    + rewrite (getLeadingPhrase_hasLeadingPhrase line Hp).
      destruct (truthyN (LeadingPhraseDetector.getContentAfterPhrase line));
        simpl; lia.
    + destruct (LeadingPhraseDetector.hasLeadingPhrase line);
        destruct (truthyN (LeadingPhraseDetector.getContentAfterPhrase line));
        destruct (truthyN (ClauseNumberDetector.getRemainder line));
        simpl; lia.
  - destruct (ClauseNumberDetector.isSubClause line); simpl; lia.
Qed.

Lemma analyzeLine_estimate lines : forall a b e,
  snd (fold_left analyzeLine lines (a, b, e)) = e + sumExtra lines.
Proof.
  induction lines as [|line lines IH]; intros a b e; [simpl; lia|].
  cbn [fold_left sumExtra fold_right].
  destruct (analyzeLine (a, b, e) line) as [[a' b'] e'] eqn:E.
  rewrite IH. fold (sumExtra lines). unfold analyzeLine, extraRows in *.
  destruct (ClauseNumberDetector.hasClauseNumber line);
    [destruct (LeadingPhraseDetector.hasLeadingPhrase line);
     [destruct (truthyN (LeadingPhraseDetector.getContentAfterPhrase line))|]|];
    inversion E; subst; lia.
Qed.

Lemma splitLines_within_estimate lines :
  Z.of_nat (List.length (flat_map splitLine lines))
  <= Z.of_nat (List.length lines) + sumExtra lines.
Proof.
  induction lines as [|line lines IH]; [simpl; lia|].
  cbn [flat_map List.length sumExtra fold_right]. fold (sumExtra lines).
  rewrite length_app, Nat2Z.inj_add, Nat2Z.inj_succ.
  pose proof (splitLine_within_estimate line). lia.
Qed.
End Estimate.

Lemma analyzeSplitting_string s :
  s <> [] ->
  exists a,
    TextSplitter.analyzeSplitting (Str s) = Normal a
    /\ TextSplitter.totalLines a = Z.of_nat (List.length (split newline s))
    /\ TextSplitter.estimatedRows a
       = Z.of_nat (List.length (split newline s)) + sumExtra (split newline s).
Proof.
  intros Hs. destruct s as [|c s]; [congruence|].
  unfold TextSplitter.analyzeSplitting.
  cbn [truthy isString isEmptyString negb orb].
  pose proof (analyzeLine_estimate (split newline (c :: s)) 0 0
                (Z.of_nat (List.length (split newline (c :: s))))) as He.
  destruct (fold_left TextSplitter.analyzeLine (split newline (c :: s))
              (0, 0, Z.of_nat (List.length (split newline (c :: s)))))
    as [[cc lc] e].
  simpl snd in He. eexists. split; [reflexivity|]. simpl. auto.
Qed.

Lemma analyzeSplitting_not_text v :
  isString v = false \/ v = Str [] ->
  exists a,
    TextSplitter.analyzeSplitting v = Normal a
    /\ TextSplitter.totalLines a = 0 /\ TextSplitter.estimatedRows a = 0.
Proof.
  intros H. unfold TextSplitter.analyzeSplitting.
  assert (G : negb (truthy v) || negb (isString v) = true).
  { destruct H as [H| ->]; [rewrite H; apply orb_true_r | reflexivity]. }
  rewrite G. eexists. split; [reflexivity|]. simpl. auto.
Qed.

Lemma value_cases v : (isString v = false \/ v = Str []) \/ exists s, s <> [] /\ v = Str s.
Proof.
  destruct v as [| |b|n| | |s]; try (left; left; reflexivity).
  destruct s as [|c s]; [left; right; reflexivity|].
  right. exists (c :: s). split; [discriminate | reflexivity].
Qed.

(** C10. Whatever the input, [analyzeSplitting] and [splitText] both return,
    and [estimatedRows] is at least the number of rows [splitText] produces;
    hence [isLargeDocument] answers [true] whenever more than a thousand rows
    are produced. *)
Theorem C10_estimate_never_undercounts (text : value) :
  exists a rows large,
    TextSplitter.analyzeSplitting text = Normal a
    /\ TextSplitter.splitText text = Normal rows
    /\ TextSplitter.isLargeDocument text = Normal large
    /\ Z.of_nat (List.length rows) <= TextSplitter.estimatedRows a
    /\ implb (1000 <? Z.of_nat (List.length rows)) large = true.
Proof.
  destruct (value_cases text) as [Hno|(s & Hs & ->)].
  - destruct (analyzeSplitting_not_text text Hno) as (a & Ha & _ & He).
    exists a, [], false. rewrite (splitText_not_text text Hno).
    repeat split; auto.
    + unfold TextSplitter.isLargeDocument. rewrite Ha. simpl. rewrite He.
      destruct (negb (truthy text)); reflexivity.
    + simpl. lia.
  - destruct (analyzeSplitting_string s Hs) as (a & Ha & _ & He).
    pose proof (splitLines_within_estimate (split newline s)) as Hle.
    exists a, (flat_map TextSplitter.splitLine (split newline s)),
      (1000 <? TextSplitter.estimatedRows a).
    rewrite (splitText_string s Hs).
    repeat split; auto.
    + unfold TextSplitter.isLargeDocument. rewrite Ha.
      destruct s; [congruence | reflexivity].
    + lia.
    + destruct (1000 <? Z.of_nat (List.length
                  (flat_map TextSplitter.splitLine (split newline s)))) eqn:E;
        [|reflexivity].
      simpl. apply Z.ltb_lt in E. apply Z.ltb_lt. lia.
Qed.

(** ** Rows per line *)

Lemma generateRowsFromText_string s :
  s <> [] ->
  exists objs,
    RowGenerator.generateRowsFromText (Str s) = Normal objs
    /\ List.length objs
       = List.length (flat_map TextSplitter.splitLine (split newline s))
    /\ map (fun o => Some (Row.text o)) objs
       = map TextSplitter.normalizeRow
           (flat_map TextSplitter.splitLine (split newline s)).
Proof.
  intros Hs.
  unfold RowGenerator.generateRowsFromText, TextSplitter.splitWithNormalization.
  rewrite (splitText_string s Hs). cbn [bind].
  assert (Hall : Forall isStringEntry
            (map TextSplitter.normalizeRow
               (flat_map TextSplitter.splitLine (split newline s)))).
  { apply Forall_map. apply flat_map_Forall. intros line.
    eapply Forall_impl; [|apply splitLine_shape].
    intros entry. apply normalizeRow_string. }
  destruct (generateRowsFrom_total _ 0 Hall) as (objs & Hgen & Hlen & Htext & _).
  exists objs. unfold RowGenerator.generateRows. rewrite Hgen.
  rewrite length_map in Hlen. auto.
Qed.

(** C3. For a text that is not empty, [splitText] pushes, line after line,
    what [splitLine] gives for the line: one to three entries each, whatever
    the line.  The rows are therefore at least as many as the lines and at
    most three times as many, and the pipeline builds one Row per entry. *)
Theorem C3_rows_per_line (s : jsstring) :
  s <> [] ->
  (forall line, (1 <= List.length (TextSplitter.splitLine line) <= 3)%nat)
  /\ exists rows objs,
       TextSplitter.splitText (Str s) = Normal rows
       /\ rows = flat_map TextSplitter.splitLine (split newline s)
       /\ RowGenerator.generateRowsFromText (Str s) = Normal objs
       /\ List.length objs = List.length rows
       /\ (List.length (split newline s) <= List.length rows
           <= 3 * List.length (split newline s))%nat.
Proof.
  intros Hs. split; [intros line; apply splitLine_shape|].
  destruct (generateRowsFromText_string s Hs) as (objs & Hgen & Hlen & _).
  exists (flat_map TextSplitter.splitLine (split newline s)), objs.
  repeat split; auto using splitText_string.
  - pose proof (flat_map_length_bounds TextSplitter.splitLine (split newline s) 1 3
                  (fun line => proj1 (splitLine_shape line))). lia.
  - pose proof (flat_map_length_bounds TextSplitter.splitLine (split newline s) 1 3
                  (fun line => proj1 (splitLine_shape line))). lia.
Qed.

Lemma C3_rows_per_line_witness :
  Scenario.loneReturn <> []
  /\ exists rows objs,
       TextSplitter.splitText (Str Scenario.loneReturn) = Normal rows
       /\ rows = flat_map TextSplitter.splitLine (split newline Scenario.loneReturn)
       /\ RowGenerator.generateRowsFromText (Str Scenario.loneReturn) = Normal objs
       /\ List.length objs = List.length rows
       /\ (List.length (split newline Scenario.loneReturn) <= List.length rows
           <= 3 * List.length (split newline Scenario.loneReturn))%nat.
Proof.
  split; [discriminate|].
  apply (C3_rows_per_line Scenario.loneReturn). discriminate.
Defined.

(** The empty string splits into one (empty) line, and no row is emitted. *)
Lemma C3_empty_string_one_line_no_row :
  split newline [] = [[]]
  /\ TextSplitter.splitText (Str []) = Normal []
  /\ RowGenerator.generateRowsFromText (Str []) = Normal []
  /\ ~ (List.length (split newline []) <= List.length (@nil Row.t))%nat.
Proof.
  repeat split. simpl. lia.
Qed.

(** ** Trimming *)

Lemma trimStart_white ws x :
  forallb isWhiteSpace ws = true -> trimStart (ws ++ x) = trimStart x.
Proof.
  induction ws as [|c ws IH]; simpl; [reflexivity|].
  intros H. apply andb_prop in H as [Hc Hws]. rewrite Hc. auto.
Qed.

Lemma trimStart_nonwhite c x :
  isWhiteSpace c = false -> trimStart (c :: x) = c :: x.
Proof. intros H. simpl. now rewrite H. Qed.

Lemma trimStart_head s c x : trimStart s = c :: x -> isWhiteSpace c = false.
Proof.
  induction s as [|d s IH]; simpl; [discriminate|].
  destruct (isWhiteSpace d) eqn:Hd; [exact IH|].
  intros H; inversion H; subst. exact Hd.
Qed.

Lemma trimStart_idempotent s : trimStart (trimStart s) = trimStart s.
Proof.
  destruct (trimStart s) as [|c x] eqn:E; [reflexivity|].
  apply trimStart_nonwhite. eapply trimStart_head; eauto.
Qed.

(** ** Pieces of the patterns *)

Ltac invert_pieces :=
  unfold pieces in *;
  repeat match goal with
    | H : Forall2 _ (_ :: _) _ |- _ => inversion H; subst; clear H
    | H : Forall2 _ [] _ |- _ => inversion H; subst; clear H
    end.

Lemma pieceOk_weaken qt (p q : Z -> bool) m :
  (forall c, p c = true -> q c = true) ->
  pieceOk (qt, p) m = true -> pieceOk (qt, q) m = true.
Proof.
  intros Hpq. destruct qt; simpl.
  - destruct m as [|c [|d m]]; auto.
  - destruct m as [|c [|d m]]; auto.
  - rewrite !forallb_forall. auto.
  - intros H. apply andb_prop in H as [Hne H]. rewrite Hne. simpl.
    rewrite forallb_forall in *. auto.
Qed.

Lemma pieceOk_opt_iff p m :
  pieceOk (Regex.Opt, p) m = true <-> m = [] \/ exists c, m = [c] /\ p c = true.
Proof.
  simpl. destruct m as [|c [|d m]]; split; intros H; auto.
  - right. eauto.
  - destruct H as [H|(x & H & Hx)]; [discriminate|]. now inversion H; subst.
  - discriminate.
  - destruct H as [H|(x & H & Hx)]; discriminate.
Qed.

Lemma pieceOk_plus_iff p m :
  pieceOk (Regex.Plus, p) m = true <-> m <> [] /\ forallb p m = true.
Proof.
  simpl. destruct m as [|c m]; simpl; split.
  - discriminate.
  - intros [H _]. congruence.
  - intros H. split; [discriminate | exact H].
  - intros [_ H]. exact H.
Qed.

Ltac weaken_class :=
  eapply pieceOk_weaken; [|eassumption];
  let c := fresh "c" in
  let Hc := fresh "Hc" in
  intros c Hc; unfold isAnyDigit, isAnyLetter; rewrite Hc;
  auto using orb_true_r.

Lemma merged_deterministic : deterministic mergedNumeralItems.
Proof.
  simpl. unfold isAnyDigit, isAnyLetter.
  repeat split; intros c H; class_solve.
Qed.

Lemma english_pieces_merged ms :
  pieces (Regex.items ClauseNumberDetector.englishNumeralPattern) ms ->
  pieces mergedNumeralItems ms.
Proof.
  intros H. simpl in H. invert_pieces.
  repeat (constructor; [first [assumption | weaken_class]|]). constructor.
Qed.

Lemma devanagari_pieces_merged ms :
  pieces (Regex.items ClauseNumberDetector.devanagariNumeralPattern) ms ->
  pieces mergedNumeralItems ms.
Proof.
  intros H. simpl in H. invert_pieces.
  repeat (constructor; [first [assumption | weaken_class]|]). constructor.
Qed.

(** No string begins with both numeral shapes. *)
Lemma numeral_patterns_exclusive s :
  Regex.test ClauseNumberDetector.englishNumeralPattern s = true ->
  Regex.test ClauseNumberDetector.devanagariNumeralPattern s = true ->
  False.
Proof.
  intros He Hd.
  apply test_iff in He as (ms & tl & Hps & Hs & _).
  apply test_iff in Hd as (ms' & tl' & Hps' & Hs' & _).
  assert (E : ms = ms').
  { eapply (pieces_unique mergedNumeralItems ms ms' tl tl').
    - exact merged_deterministic.
    - now apply english_pieces_merged.
    - now apply devanagari_pieces_merged.
    - congruence. }
  subst ms'. simpl in Hps, Hps'. invert_pieces.
  match goal with
  | H1 : pieceOk (Regex.Plus, isDigit) ?m = true,
    H2 : pieceOk (Regex.Plus, isDevanagariDigit) ?m = true |- _ =>
      destruct m as [|c m]; [discriminate H1|];
      simpl in H1, H2;
      apply andb_prop in H1 as [H1 _]; apply andb_prop in H2 as [H2 _]
  end.
  class_solve.
Qed.

Lemma exec_test r s ms : Regex.exec r s = Some ms -> Regex.test r s = true.
Proof. unfold Regex.test. now intros ->. Qed.

Lemma exec_none_test r s : Regex.exec r s = None -> Regex.test r s = false.
Proof. unfold Regex.test. now intros ->. Qed.

(** C9. A line is never both a sub-clause and a clause: where the sub-clause
    pattern matches, [detectClauseNumber] answers [null].  No string begins
    with both the English and the Devanagari numeral shape.  So a detected
    clause is of one shape only: its line is no sub-clause, and does not match
    the numeral pattern of the other script. *)
Theorem C9_shapes_exclusive (line : jsstring) :
  ClauseNumberDetector.isSubClause line
    && ClauseNumberDetector.hasClauseNumber line = false
  /\ Regex.test ClauseNumberDetector.englishNumeralPattern line
       && Regex.test ClauseNumberDetector.devanagariNumeralPattern line = false
  /\ match ClauseNumberDetector.detectClauseNumber line with
     | Some d =>
         ClauseNumberDetector.isSubClause line = false
         /\ match ClauseNumberDetector.language d with
            | ClauseNumberDetector.english =>
                Regex.test ClauseNumberDetector.devanagariNumeralPattern
                  (trimStart line) = false
            | ClauseNumberDetector.devanagari =>
                Regex.test ClauseNumberDetector.englishNumeralPattern
                  (trimStart line) = false
            end
     | None => True
     end.
Proof.
  split; [|split].
  - unfold ClauseNumberDetector.isSubClause, ClauseNumberDetector.hasClauseNumber,
      ClauseNumberDetector.detectClauseNumber.
    destruct (Regex.test ClauseNumberDetector.subClausePattern (trimStart line));
      [|reflexivity].
    destruct (isEmptyString line || isEmptyString (trim line)); reflexivity.
  - destruct (Regex.test ClauseNumberDetector.englishNumeralPattern line) eqn:He;
      [|reflexivity].
    destruct (Regex.test ClauseNumberDetector.devanagariNumeralPattern line) eqn:Hd;
      [|reflexivity].
    exfalso. eapply numeral_patterns_exclusive; eauto.
  - unfold ClauseNumberDetector.detectClauseNumber, ClauseNumberDetector.isSubClause.
    destruct (isEmptyString line || isEmptyString (trim line)); [exact I|].
    destruct (Regex.test ClauseNumberDetector.subClausePattern (trimStart line));
      [exact I|].
    destruct (Regex.exec ClauseNumberDetector.englishNumeralPattern (trimStart line))
      as [ms|] eqn:He.
    + cbn [ClauseNumberDetector.language]. split; [reflexivity|].
      apply exec_test in He.
      destruct (Regex.test ClauseNumberDetector.devanagariNumeralPattern
                  (trimStart line)) eqn:Hd; [|reflexivity].
      exfalso. eapply numeral_patterns_exclusive; eauto.
    + destruct (Regex.exec ClauseNumberDetector.devanagariNumeralPattern
                  (trimStart line)) as [ms|]; [|exact I].
      cbn [ClauseNumberDetector.language]. split; [reflexivity|].
      now apply exec_none_test.
Qed.

(** ** Sub-clauses *)

Lemma subClause_shape_test body rest :
  body <> [] -> forallb isSubClauseChar body = true ->
  Regex.test ClauseNumberDetector.subClausePattern
    ([lparen] ++ body ++ [rparen] ++ rest) = true.
Proof.
  intros Hne Hbody. apply test_iff.
  exists [[]; [lparen]; body; [rparen]], rest. repeat split.
  - repeat constructor. apply pieceOk_plus_iff. auto.
  - simpl. now rewrite <- !app_assoc.
  - discriminate.
Qed.

Lemma isSubClause_no_clause line :
  ClauseNumberDetector.isSubClause line = true ->
  ClauseNumberDetector.detectClauseNumber line = None
  /\ TextSplitter.splitLine line = [Some line].
Proof.
  intros H.
  assert (Hd : ClauseNumberDetector.detectClauseNumber line = None).
  { unfold ClauseNumberDetector.detectClauseNumber.
    unfold ClauseNumberDetector.isSubClause in H. rewrite H.
    destruct (isEmptyString line || isEmptyString (trim line)); reflexivity. }
  split; [exact Hd|].
  unfold TextSplitter.splitLine. now rewrite Hd, H.
Qed.

(** Any line whose first unit after the leading white space is an opening
    parenthesis is left whole, sub-clause or not: no numeral pattern can
    begin with a parenthesis. *)
Lemma paren_line_unsplit ws rest :
  forallb isWhiteSpace ws = true ->
  let line := ws ++ lparen :: rest in
  ClauseNumberDetector.detectClauseNumber line = None
  /\ TextSplitter.splitLine line = [Some line].
Proof.
  intros Hws line.
  assert (Hd : ClauseNumberDetector.detectClauseNumber line = None).
  { unfold ClauseNumberDetector.detectClauseNumber, line.
    rewrite (trimStart_white ws _ Hws).
    rewrite (trimStart_nonwhite lparen rest lparen_not_white).
    assert (Hno : forall ms tl,
              pieces mergedNumeralItems ms ->
              lparen :: rest = List.concat ms ++ tl -> False).
    { intros ms tl Hps Heq. symmetry in Heq.
      pose proof (canStart_sound _ _ _ _ _ Hps Heq) as Hst.
      discriminate Hst. }
    destruct (isEmptyString (ws ++ lparen :: rest)
              || isEmptyString (trim (ws ++ lparen :: rest))); [reflexivity|].
    destruct (Regex.test ClauseNumberDetector.subClausePattern (lparen :: rest));
      [reflexivity|].
    unfold Regex.exec.
    destruct (Regex.run (Regex.items ClauseNumberDetector.englishNumeralPattern)
                (Regex.anchoredEnd ClauseNumberDetector.englishNumeralPattern)
                (lparen :: rest)) as [[ms tl]|] eqn:He.
    { exfalso. apply run_sound in He as (Hps & Heq & _).
      apply (Hno ms tl); [now apply english_pieces_merged | exact Heq]. }
    destruct (Regex.run (Regex.items ClauseNumberDetector.devanagariNumeralPattern)
                (Regex.anchoredEnd ClauseNumberDetector.devanagariNumeralPattern)
                (lparen :: rest)) as [[ms tl]|] eqn:Hv; [|reflexivity].
    exfalso. apply run_sound in Hv as (Hps & Heq & _).
    apply (Hno ms tl); [now apply devanagari_pieces_merged | exact Heq]. }
  split; [exact Hd|].
  unfold TextSplitter.splitLine. rewrite Hd.
  destruct (ClauseNumberDetector.isSubClause line); reflexivity.
Qed.

(** C4. A line that begins, after any leading white space, with an opening
    parenthesis, one or more units of the sub-clause class and a closing
    parenthesis is a sub-clause whatever follows: the clause matcher answers
    [null] and the loop of [splitText] pushes the line itself, whole and once,
    between what the lines before and after it give. *)
Theorem C4_subclause_line_unsplit (ws body rest : jsstring) :
  forallb isWhiteSpace ws = true ->
  body <> [] ->
  forallb isSubClauseChar body = true ->
  let line := subClauseLine ws body rest in
  ClauseNumberDetector.isSubClause line = true
  /\ ClauseNumberDetector.detectClauseNumber line = None
  /\ TextSplitter.splitLine line = [Some line]
  /\ forall before after,
       TextSplitter.splitLines (before ++ line :: after)
       = TextSplitter.splitLines before ++ Some line :: TextSplitter.splitLines after.
Proof.
  intros Hws Hne Hbody line.
  assert (Hsub : ClauseNumberDetector.isSubClause line = true).
  { unfold ClauseNumberDetector.isSubClause, line, subClauseLine.
    rewrite (trimStart_white ws _ Hws).
    change ([lparen] ++ body ++ [rparen] ++ rest)
      with (lparen :: (body ++ [rparen] ++ rest)).
    rewrite (trimStart_nonwhite lparen _ lparen_not_white).
    now apply subClause_shape_test. }
  destruct (isSubClause_no_clause line Hsub) as [Hd Hl].
  repeat split; auto.
  intros before after. rewrite !splitLines_flat_map.
  rewrite flat_map_app. simpl. now rewrite Hl.
Qed.

Lemma C4_subclause_line_unsplit_witness :
  let line := subClauseLine [space] [97] [space; 49; period; space; 120; colon] in
  forallb isWhiteSpace [space] = true
  /\ [97] <> []
  /\ forallb isSubClauseChar [97] = true
  /\ TextSplitter.splitLine line = [Some line].
Proof.
  intros line.
  assert (Hws : forallb isWhiteSpace [space] = true) by reflexivity.
  assert (Hne : [97] <> []) by discriminate.
  assert (Hbody : forallb isSubClauseChar [97] = true) by reflexivity.
  split; [exact Hws|]. split; [exact Hne|]. split; [exact Hbody|].
  exact (proj1 (proj2 (proj2
    (C4_subclause_line_unsplit [space] [97]
       [space; 49; period; space; 120; colon] Hws Hne Hbody)))).
Defined.

(** ** The clause-number flag of a row *)

Lemma rowPattern_iff isD isL t :
  Regex.test {| Regex.items := [(Regex.Opt, isSymbol); (Regex.Plus, isD);
                                (Regex.Opt, isL); (Regex.Opt, isPeriod)];
                Regex.anchoredEnd := true |} t = true
  <-> rowShape isD isL t.
Proof.
  rewrite test_iff. simpl. unfold rowShape. split.
  - intros (ms & tl & Hps & -> & Hend). rewrite (Hend eq_refl).
    invert_pieces.
    repeat match goal with
      | H : pieceOk (Regex.Opt, _) _ = true |- _ => apply pieceOk_opt_iff in H
      | H : pieceOk (Regex.Plus, _) _ = true |- _ =>
          apply pieceOk_plus_iff in H; destruct H
      end.
    match goal with
    | |- exists _ _ _ _, List.concat [?a; ?b; ?c; ?d] ++ [] = _ /\ _ =>
        exists a, b, c, d
    end.
    simpl. rewrite !app_nil_r. repeat split; auto.
    match goal with
    | H : ?d = [] \/ (exists c, ?d = [c] /\ isPeriod c = true) |- ?d = [] \/ _ =>
        destruct H as [H|(c & H & Hc)]; [left; exact H|right]
    end.
    subst. unfold isPeriod in Hc. apply Z.eqb_eq in Hc. now subst.
  - intros (sym & digits & suffix & dot & -> & Hsym & Hne & Hdig & Hsuf & Hdot).
    exists [sym; digits; suffix; dot], []. repeat split; auto.
    + repeat constructor.
      * now apply pieceOk_opt_iff.
      * now apply pieceOk_plus_iff.
      * now apply pieceOk_opt_iff.
      * apply pieceOk_opt_iff. destruct Hdot as [H|H]; [left; exact H|right].
        exists period. split; [exact H | reflexivity].
    + simpl. now rewrite !app_nil_r.
Qed.

Lemma rowShape_nonempty isD isL t : rowShape isD isL t -> t <> [].
Proof.
  intros (sym & digits & suffix & dot & -> & _ & Hne & _) H.
  apply app_eq_nil in H as [_ H]. apply app_eq_nil in H as [H _]. auto.
Qed.

Lemma isClauseNumber_iff text :
  RowGenerator.isClauseNumber text = true
  <-> rowShape isDigit isLower (trim text)
      \/ rowShape isDevanagariDigit isDevanagariLetter (trim text).
Proof.
  unfold RowGenerator.isClauseNumber.
  pose proof (rowPattern_iff isDigit isLower (trim text)) as He.
  pose proof (rowPattern_iff isDevanagariDigit isDevanagariLetter (trim text)) as Hd.
  fold RowGenerator.englishRowPattern in He.
  fold RowGenerator.devanagariRowPattern in Hd.
  destruct (isEmptyString text || isEmptyString (trim text)) eqn:G.
  - split; [discriminate|].
    assert (Ht : trim text = []).
    { apply orb_prop in G as [G|G].
      - destruct text; [reflexivity | discriminate].
      - destruct (trim text); [reflexivity | discriminate]. }
    rewrite Ht. intros [H|H]; apply rowShape_nonempty in H; congruence.
  - destruct (Regex.test RowGenerator.englishRowPattern (trim text)).
    + split; [intros _; left; now apply He | reflexivity].
    + destruct (Regex.test RowGenerator.devanagariRowPattern (trim text)).
      * split; [intros _; right; now apply Hd | reflexivity].
      * split; [discriminate|].
        intros [H|H]; [apply He in H | apply Hd in H]; discriminate.
Qed.

Lemma generateRowsFrom_inv rows : forall i objs,
  RowGenerator.generateRowsFrom i rows = Normal objs ->
  map (fun o => Some (Row.text o)) objs = rows
  /\ Forall (fun o =>
       Row.isClauseNumber o = RowGenerator.isClauseNumber (Row.text o)) objs.
Proof.
  induction rows as [|entry rows IH]; intros i objs; simpl.
  - intros H; inversion H; subst. split; constructor.
  - destruct entry as [text|]; simpl; [|discriminate].
    destruct (RowGenerator.generateRowsFrom (i + 1) rows) as [objs'|] eqn:Hgen;
      simpl; [|discriminate].
    intros H; inversion H; subst.
    destruct (IH _ _ Hgen) as [Htext Hflag]. simpl. split.
    + now rewrite Htext.
    + constructor; [reflexivity | exact Hflag].
Qed.

(** C2. The flag [isClauseNumber] of every Row is computed by the row
    classifier's own anchored patterns, not by the clause matcher: it is true
    exactly when the trimmed text is an optional amendment symbol, one or more
    digits, an optional lower-case suffix letter and an optional period, all
    in one script, and nothing else.  The period being optional, a row that is
    a bare number is flagged. *)
Theorem C2_row_clause_flag (rows : list nullable) (objs : list Row.t) :
  RowGenerator.generateRows rows = Normal objs ->
  Forall (fun o =>
    Row.isClauseNumber o = true
    <-> rowShape isDigit isLower (trim (Row.text o))
        \/ rowShape isDevanagariDigit isDevanagariLetter (trim (Row.text o))) objs.
Proof.
  intros H. apply generateRowsFrom_inv in H as [_ H].
  eapply Forall_impl; [|exact H].
  intros o Ho. cbv beta in Ho. rewrite Ho. apply isClauseNumber_iff.
Qed.

Lemma C2_row_clause_flag_witness :
  exists o,
    RowGenerator.generateRows [Some Scenario.bareNumber] = Normal [o]
    /\ (Row.isClauseNumber o = true
        <-> rowShape isDigit isLower (trim (Row.text o))
            \/ rowShape isDevanagariDigit isDevanagariLetter (trim (Row.text o))).
Proof.
  eexists. split; [reflexivity|].
  exact (Forall_inv (C2_row_clause_flag [Some Scenario.bareNumber] _ eq_refl)).
Defined.

(** The row ["16"] is flagged although the clause matcher rejects its text;
    the row ["5A."] is not, although the matcher accepts it and leaves no
    remainder. *)
Lemma C2_bare_number_row_is_flagged :
  exists o o',
    RowGenerator.generateRows [Some Scenario.bareNumber; Some Scenario.upperSuffixClause]
    = Normal [o; o']
    /\ Row.isClauseNumber o = true
    /\ ClauseNumberDetector.detectClauseNumber (trim (Row.text o)) = None
    /\ Row.isClauseNumber o' = false
    /\ ClauseNumberDetector.hasClauseNumber (trim (Row.text o')) = true
    /\ ClauseNumberDetector.getRemainder (trim (Row.text o')) = None.
Proof.
  do 2 eexists. split; [reflexivity|]. repeat split; reflexivity.
Qed.

(** ** A trailing white-space unit *)

Section TrailingWhite.
Variable w : Z.
Hypothesis w_white : isWhiteSpace w = true.

Lemma trimStart_app x y : trimStart x <> [] -> trimStart (x ++ y) = trimStart x ++ y.
Proof.
  induction x as [|c x IH]; simpl; [congruence|].
  destruct (isWhiteSpace c); auto.
Qed.

Lemma trimStart_blank_app x y : trimStart x = [] -> trimStart (x ++ y) = trimStart y.
Proof.
  induction x as [|c x IH]; simpl; [reflexivity|].
  destruct (isWhiteSpace c); [auto | discriminate].
Qed.

Lemma trimStart_snoc_blank x : trimStart x = [] -> trimStart (x ++ [w]) = [].
Proof.
  intros H. rewrite (trimStart_blank_app x [w] H). simpl. now rewrite w_white.
Qed.

Lemma trimEnd_snoc x : trimEnd (x ++ [w]) = trimEnd x.
Proof.
  unfold trimEnd. rewrite rev_app_distr. simpl. now rewrite w_white.
Qed.

Lemma trim_snoc x : trim (x ++ [w]) = trim x.
Proof.
  unfold trim. destruct (trimStart x) as [|c y] eqn:E.
  - now rewrite (trimStart_snoc_blank x E).
  - rewrite trimStart_app by congruence. rewrite E. apply trimEnd_snoc.
Qed.

Lemma trim_blank x : trimStart x = [] -> trim x = [].
Proof. intros H. unfold trim. now rewrite H. Qed.

Lemma trimEnd_keeps_head c y : isWhiteSpace c = false -> trimEnd (c :: y) <> [].
Proof.
  intros Hc. unfold trimEnd. simpl rev.
  assert (H : trimStart (rev y ++ [c]) <> []).
  { induction (rev y) as [|d z IH]; simpl.
    - rewrite Hc. discriminate.
    - destruct (isWhiteSpace d); [exact IH | discriminate]. }
  intros E. apply H. apply (f_equal (@rev Z)) in E. rewrite rev_involutive in E.
  exact E.
Qed.

Lemma trim_nonblank x : trimStart x <> [] -> trim x <> [].
Proof.
  intros H. unfold trim. destruct (trimStart x) as [|c y] eqn:E; [congruence|].
  apply trimEnd_keeps_head. eapply trimStart_head; eauto.
Qed.

Lemma indexOf_range c x : indexOf c x = -1 \/ 0 <= indexOf c x < strlen x.
Proof.
  unfold strlen. induction x as [|d x IH]; [left; reflexivity|].
  cbn [indexOf List.length]. rewrite Nat2Z.inj_succ.
  destruct (d =? c); [right; lia|].
  destruct (indexOf c x <? 0) eqn:E; [left; reflexivity|].
  apply Z.ltb_ge in E. right. lia.
Qed.

Lemma indexOf_snoc c x : w <> c -> indexOf c (x ++ [w]) = indexOf c x.
Proof.
  intros Hw. induction x as [|d x IH]; simpl.
  - apply Z.eqb_neq in Hw. now rewrite Hw.
  - now rewrite IH.
Qed.

Lemma substringFrom_valid x i :
  0 <= i <= strlen x -> substringFrom x i = skipn (Z.to_nat i) x.
Proof.
  intros Hi. unfold substringFrom, substring, clampIndex.
  replace (Z.min (Z.max i 0) (strlen x)) with i by lia.
  replace (Z.min (Z.max (strlen x) 0) (strlen x)) with (strlen x) by lia.
  replace (Z.min i (strlen x)) with i by lia.
  replace (Z.max i (strlen x)) with (strlen x) by lia.
  apply firstn_all2. rewrite length_skipn. unfold strlen in *. lia.
Qed.

Lemma substring_prefix x j :
  0 <= j <= strlen x -> substring x 0 j = firstn (Z.to_nat j) x.
Proof.
  intros Hj. unfold substring, clampIndex.
  replace (Z.min (Z.max 0 0) (strlen x)) with 0 by (unfold strlen; lia).
  replace (Z.min (Z.max j 0) (strlen x)) with j by lia.
  replace (Z.min 0 j) with 0 by lia.
  replace (Z.max 0 j) with j by lia.
  simpl. now rewrite Z.sub_0_r.
Qed.

Lemma strlen_snoc x : strlen (x ++ [w]) = strlen x + 1.
Proof. unfold strlen. rewrite length_app. simpl. lia. Qed.

Lemma substringFrom_snoc x i :
  0 <= i <= strlen x -> substringFrom (x ++ [w]) i = substringFrom x i ++ [w].
Proof.
  intros Hi. rewrite !substringFrom_valid by (rewrite ?strlen_snoc; lia).
  rewrite skipn_app.
  replace (Z.to_nat i - List.length x)%nat with 0%nat by (unfold strlen in Hi; lia).
  reflexivity.
Qed.

Lemma substring_prefix_snoc x j :
  0 <= j <= strlen x -> substring (x ++ [w]) 0 j = substring x 0 j.
Proof.
  intros Hj. rewrite !substring_prefix by (rewrite ?strlen_snoc; lia).
  rewrite firstn_app.
  replace (Z.to_nat j - List.length x)%nat with 0%nat by (unfold strlen in Hj; lia).
  simpl. apply app_nil_r.
Qed.

End TrailingWhite.

Section TrailingWhiteMatch.
Variable w : Z.
Hypothesis w_white : isWhiteSpace w = true.

Lemma app_snoc_cases (a tl' x y : jsstring) c :
  a = y ++ [c] -> c <> w -> a ++ tl' = x ++ [w] ->
  exists tl, tl' = tl ++ [w] /\ x = a ++ tl.
Proof.
  intros -> Hc Heq.
  induction tl' as [|w' tl _] using rev_ind.
  - rewrite app_nil_r in Heq. apply app_inj_tail in Heq as [_ E].
    congruence.
  - rewrite app_assoc in Heq. apply app_inj_tail in Heq as [E ->].
    exists tl. auto.
Qed.

(** A pattern whose matches end with a non-white unit sees no difference
    when a white-space unit is appended to the input. *)
Lemma run_snoc_none its x :
  endsNonWhite its ->
  Regex.run its false x = None -> Regex.run its false (x ++ [w]) = None.
Proof.
  intros Hend Hx.
  destruct (Regex.run its false (x ++ [w])) as [[ms tl']|] eqn:E; [|reflexivity].
  exfalso. apply run_sound in E as (Hps & Heq & _).
  destruct (Hend ms Hps) as (y & c & Hy & Hc).
  assert (Hcw : c <> w) by (intros ->; congruence).
  symmetry in Heq.
  destruct (app_snoc_cases _ tl' x y c Hy Hcw Heq) as (tl & -> & ->).
  revert Hx. apply run_complete; [exact Hps | discriminate].
Qed.

Lemma exec_snoc r x :
  Regex.anchoredEnd r = false ->
  deterministic (Regex.items r) -> endsNonWhite (Regex.items r) ->
  Regex.exec r (x ++ [w]) = Regex.exec r x.
Proof.
  intros Ha Hdet Hend. unfold Regex.exec. rewrite Ha.
  destruct (Regex.run (Regex.items r) false x) as [[ms tl]|] eqn:E.
  - apply (run_iff _ _ _ _ Hdet) in E as [Hps ->].
    assert (E' : Regex.run (Regex.items r) false ((List.concat ms ++ tl) ++ [w])
                 = Some (ms, tl ++ [w])).
    { apply (run_iff _ _ _ _ Hdet). split; [exact Hps|]. now rewrite app_assoc. }
    now rewrite E'.
  - now rewrite (run_snoc_none _ _ Hend E).
Qed.

Lemma test_snoc r x :
  Regex.anchoredEnd r = false ->
  deterministic (Regex.items r) -> endsNonWhite (Regex.items r) ->
  Regex.test r (x ++ [w]) = Regex.test r x.
Proof.
  intros Ha Hdet Hend. unfold Regex.test. now rewrite exec_snoc.
Qed.

End TrailingWhiteMatch.

Ltac ends_with_one :=
  intros ms Hps; simpl in Hps; invert_pieces;
  match goal with
  | H : pieceOk (Regex.One, _) ?m = true |- _ =>
      destruct m as [|c [|d m]]; try discriminate H;
      simpl in H; apply Z.eqb_eq in H; subst c
  end.

Lemma englishNumeral_endsNonWhite :
  endsNonWhite (Regex.items ClauseNumberDetector.englishNumeralPattern).
Proof.
  ends_with_one.
  match goal with
  | |- exists _ _, List.concat [?a; ?b; ?c; ?d; ?e; [?p]] = _ /\ _ =>
      exists (a ++ b ++ c ++ d ++ e), p
  end.
  split; [simpl; now rewrite <- !app_assoc | reflexivity].
Qed.

Lemma devanagariNumeral_endsNonWhite :
  endsNonWhite (Regex.items ClauseNumberDetector.devanagariNumeralPattern).
Proof.
  ends_with_one.
  match goal with
  | |- exists _ _, List.concat [?a; ?b; ?c; ?d; ?e; [?p]] = _ /\ _ =>
      exists (a ++ b ++ c ++ d ++ e), p
  end.
  split; [simpl; now rewrite <- !app_assoc | reflexivity].
Qed.

Lemma subClause_endsNonWhite :
  endsNonWhite (Regex.items ClauseNumberDetector.subClausePattern).
Proof.
  ends_with_one.
  match goal with
  | |- exists _ _, List.concat [?a; ?b; ?c; [?p]] = _ /\ _ =>
      exists (a ++ b ++ c), p
  end.
  split; [simpl; now rewrite <- !app_assoc | reflexivity].
Qed.

(** ** A line with a trailing white-space unit *)

Section TrailingWhiteLine.
Import ClauseNumberDetector LeadingPhraseDetector TextSplitter.
Variable w : Z.
Hypothesis w_white : isWhiteSpace w = true.

Lemma white_not_period : w <> period.
Proof. intros ->. discriminate w_white. Qed.

Lemma white_not_colon : w <> colon.
Proof. intros ->. discriminate w_white. Qed.

Lemma extractAmendmentSymbol_snoc c y :
  isWhiteSpace c = false ->
  extractAmendmentSymbol ((c :: y) ++ [w]) = extractAmendmentSymbol (c :: y).
Proof.
  intros Hc. unfold extractAmendmentSymbol.
  change ((c :: y) ++ [w]) with (c :: (y ++ [w])).
  now rewrite !trimStart_nonwhite.
Qed.

Lemma detectClauseNumber_snoc l :
  detectClauseNumber (l ++ [w]) = detectClauseNumber l.
Proof.
  unfold detectClauseNumber. rewrite (trim_snoc w w_white).
  destruct (trimStart l) as [|c y] eqn:E.
  - rewrite (trim_blank l E). simpl. now rewrite !orb_true_r.
  - assert (Hne : trimStart l <> []) by congruence.
    pose proof (trim_nonblank l Hne) as Ht.
    pose proof (trimStart_head l c y E) as Hc.
    rewrite (trimStart_app l [w] Hne), E.
    assert (G1 : isEmptyString (l ++ [w]) = false) by (destruct l; reflexivity).
    assert (G2 : isEmptyString l = false) by (destruct l; [discriminate E | reflexivity]).
    assert (G3 : isEmptyString (trim l) = false)
      by (destruct (trim l); [congruence | reflexivity]).
    rewrite G1, G2, G3. cbn [orb].
    rewrite (test_snoc w w_white subClausePattern) by
      (first [reflexivity | exact subClause_deterministic
             | exact subClause_endsNonWhite]).
    rewrite (exec_snoc w w_white englishNumeralPattern) by
      (first [reflexivity | exact englishNumeral_deterministic
             | exact englishNumeral_endsNonWhite]).
    rewrite (exec_snoc w w_white devanagariNumeralPattern) by
      (first [reflexivity | exact devanagariNumeral_deterministic
             | exact devanagariNumeral_endsNonWhite]).
    now rewrite (extractAmendmentSymbol_snoc c y Hc).
Qed.

Lemma getClauseNumberRow_snoc l :
  getClauseNumberRow (l ++ [w]) = getClauseNumberRow l.
Proof. unfold getClauseNumberRow. now rewrite detectClauseNumber_snoc. Qed.

(** The remainder is the same, or the same followed by the appended unit. *)
Lemma getRemainder_snoc l :
  getRemainder (l ++ [w]) = getRemainder l
  \/ exists r, r <> [] /\ getRemainder l = Some r
               /\ getRemainder (l ++ [w]) = Some (r ++ [w]).
Proof.
  unfold getRemainder. rewrite detectClauseNumber_snoc.
  destruct (detectClauseNumber l) as [d|]; [|left; reflexivity].
  destruct (trimStart l) as [|c y] eqn:E.
  - rewrite (trimStart_snoc_blank w w_white l E). left; reflexivity.
  - rewrite (trimStart_app l [w]) by congruence. rewrite E.
    rewrite (indexOf_snoc w period (c :: y) white_not_period).
    destruct (indexOf_range period (c :: y)) as [H|H].
    + rewrite H. left; reflexivity.
    + assert (Hi : (indexOf period (c :: y) =? -1) = false)
        by (apply Z.eqb_neq; lia).
      rewrite Hi. cbn [negb].
      rewrite (substringFrom_snoc w) by lia.
      destruct (trimStart (substringFrom (c :: y) (indexOf period (c :: y) + 1)))
        as [|c' r'] eqn:Er.
      * rewrite (trimStart_snoc_blank w w_white _ Er). left; reflexivity.
      * rewrite trimStart_app by congruence. rewrite Er.
        right. exists (c' :: r').
        split; [discriminate|]. split; reflexivity.
Qed.

Lemma detectLeadingPhrase_snoc line line' r :
  r <> [] ->
  detectLeadingPhrase line' (Some (r ++ [w])) = detectLeadingPhrase line (Some r).
Proof.
  intros Hr. destruct r as [|c r]; [congruence|].
  unfold detectLeadingPhrase.
  change ((c :: r) ++ [w]) with (c :: (r ++ [w])).
  cbv iota beta.
  change (c :: (r ++ [w])) with ((c :: r) ++ [w]).
  rewrite (indexOf_snoc w colon (c :: r) white_not_colon).
  destruct (indexOf_range colon (c :: r)) as [H|H].
  - rewrite H. reflexivity.
  - assert (Hi : (indexOf colon (c :: r) =? -1) = false) by (apply Z.eqb_neq; lia).
    rewrite Hi.
    rewrite (substring_prefix_snoc w) by lia.
    rewrite (substringFrom_snoc w) by lia.
    now rewrite (trim_snoc w w_white).
Qed.

Lemma truthyN_snoc r : r <> [] -> truthyN (Some (r ++ [w])) = truthyN (Some r).
Proof. destruct r; [congruence | reflexivity]. Qed.

Lemma getLeadingPhrase_snoc l :
  getLeadingPhrase (l ++ [w]) = getLeadingPhrase l.
Proof.
  unfold getLeadingPhrase. rewrite detectClauseNumber_snoc.
  destruct (detectClauseNumber l); [|reflexivity].
  destruct (getRemainder_snoc l) as [->|(r & Hr & -> & ->)]; [reflexivity|].
  rewrite (truthyN_snoc r Hr).
  now rewrite (detectLeadingPhrase_snoc l (l ++ [w]) r Hr).
Qed.

Lemma getContentAfterPhrase_snoc l :
  getContentAfterPhrase (l ++ [w]) = getContentAfterPhrase l.
Proof.
  unfold getContentAfterPhrase. rewrite detectClauseNumber_snoc.
  destruct (detectClauseNumber l); [|reflexivity].
  destruct (getRemainder_snoc l) as [->|(r & Hr & -> & ->)]; [reflexivity|].
  rewrite (truthyN_snoc r Hr).
  now rewrite (detectLeadingPhrase_snoc l (l ++ [w]) r Hr).
Qed.

Lemma normalizeRow_snoc x :
  normalizeRow (Some (x ++ [w])) = normalizeRow (Some x).
Proof. simpl. now rewrite (trim_snoc w w_white). Qed.

(** After normalisation a line gives the same rows with or without a
    trailing white-space unit. *)
Lemma splitLine_snoc l :
  map normalizeRow (splitLine (l ++ [w])) = map normalizeRow (splitLine l).
Proof.
  unfold splitLine. rewrite detectClauseNumber_snoc.
  destruct (detectClauseNumber l) as [d|].
  - rewrite getClauseNumberRow_snoc, getLeadingPhrase_snoc,
      getContentAfterPhrase_snoc.
    destruct (truthyN (getLeadingPhrase l)).
    + reflexivity.
    + destruct (getRemainder_snoc l) as [->|(r & Hr & -> & ->)]; [reflexivity|].
      rewrite (truthyN_snoc r Hr).
      destruct (truthyN (Some r)); [|reflexivity].
      cbn [map]. now rewrite normalizeRow_snoc.
  - destruct (isSubClause (l ++ [w])); destruct (isSubClause l);
      cbn [map]; now rewrite normalizeRow_snoc.
Qed.

End TrailingWhiteLine.

(** ** Line endings *)

Section LineEndings.
Import TextSplitter TextExtractor.

Lemma normalize_crlf s :
  normalizeLineEndings (carriageReturn :: newline :: s)
  = newline :: normalizeLineEndings s.
Proof. reflexivity. Qed.

Lemma normalize_cons c s :
  c <> carriageReturn ->
  normalizeLineEndings (c :: s) = c :: normalizeLineEndings s.
Proof.
  intros Hc. apply Z.eqb_neq in Hc.
  unfold normalizeLineEndings. cbn [replaceCRLF]. rewrite Hc.
  cbn [replaceCR map]. now rewrite Hc.
Qed.

Lemma split_cons_newline s : split newline (newline :: s) = [] :: split newline s.
Proof. reflexivity. Qed.

Lemma split_cons_other c s l ls :
  c <> newline -> split newline s = l :: ls ->
  split newline (c :: s) = (c :: l) :: ls.
Proof.
  intros Hc Hs. apply Z.eqb_neq in Hc. cbn [split]. now rewrite Hc, Hs.
Qed.

(** On a text whose carriage returns all precede a line feed, normalising
    changes the lines only by taking the carriage return off their end. *)
Lemma split_normalize n : forall s,
  (List.length s <= n)%nat -> crlfOnly s = true ->
  Forall2 sameButReturn (split newline s) (split newline (normalizeLineEndings s)).
Proof.
  induction n as [|n IH]; intros s Hlen Hs.
  - destruct s; [|simpl in Hlen; lia].
    repeat constructor.
  - destruct s as [|c s]; [repeat constructor|].
    simpl in Hlen. cbn [crlfOnly] in Hs.
    destruct (c =? carriageReturn) eqn:Hc.
    + apply Z.eqb_eq in Hc. subst c.
      destruct s as [|d s]; [discriminate|].
      apply andb_prop in Hs as [Hd Hs]. apply Z.eqb_eq in Hd. subst d.
      rewrite normalize_crlf, split_cons_newline.
      assert (IHs : Forall2 sameButReturn (split newline s)
                      (split newline (normalizeLineEndings s)))
        by (apply IH; [simpl in Hlen; lia | exact Hs]).
      rewrite (split_cons_other carriageReturn (newline :: s) [] (split newline s));
        [|discriminate|reflexivity].
      constructor; [right; reflexivity | exact IHs].
    + apply Z.eqb_neq in Hc. rewrite (normalize_cons c s Hc).
      assert (IHs : Forall2 sameButReturn (split newline s)
                      (split newline (normalizeLineEndings s)))
        by (apply IH; [lia | exact Hs]).
      destruct (Z.eq_dec c newline) as [->|Hn].
      * rewrite !split_cons_newline. constructor; [left; reflexivity | exact IHs].
      * inversion IHs as [|l l' ls ls' Hl Hls El El']; subst.
        -- exfalso. symmetry in H0. now apply split_nonempty in H0.
        -- rewrite (split_cons_other c s l ls Hn (eq_sym El)).
           rewrite (split_cons_other c _ l' ls' Hn (eq_sym El')).
           constructor; [|exact Hls].
           destruct Hl as [->| ->]; [left | right]; reflexivity.
Qed.

Lemma splitLine_sameButReturn l l' :
  sameButReturn l l' ->
  map normalizeRow (splitLine l) = map normalizeRow (splitLine l').
Proof.
  intros [->| ->]; [reflexivity|].
  apply (splitLine_snoc carriageReturn). reflexivity.
Qed.

Lemma splitLines_sameButReturn ls ls' :
  Forall2 sameButReturn ls ls' ->
  map normalizeRow (flat_map splitLine ls) = map normalizeRow (flat_map splitLine ls').
Proof.
  induction 1 as [|l l' ls ls' Hl _ IH]; [reflexivity|].
  simpl. rewrite !map_app. now rewrite IH, (splitLine_sameButReturn l l' Hl).
Qed.

Lemma normalize_nonempty s :
  crlfOnly s = true -> s <> [] -> normalizeLineEndings s <> [].
Proof.
  intros Hs Hne. destruct s as [|c s]; [congruence|].
  cbn [crlfOnly] in Hs. destruct (c =? carriageReturn) eqn:Hc.
  - apply Z.eqb_eq in Hc. subst c. destruct s as [|d s]; [discriminate|].
    apply andb_prop in Hs as [Hd _]. apply Z.eqb_eq in Hd. subst d.
    rewrite normalize_crlf. discriminate.
  - apply Z.eqb_neq in Hc. rewrite (normalize_cons c s Hc). discriminate.
Qed.

End LineEndings.

(** C7. The core does not normalise line endings itself.  Yet, on a text in
    which every carriage return is immediately followed by a line feed, the
    pipeline gives the same Row sequence as on the text with its line endings
    normalised: the carriage return left at the end of a line is white space
    and is trimmed from every row. *)
Theorem C7_crlf_text_same_rows (s : jsstring) :
  crlfOnly s = true ->
  RowGenerator.generateRowsFromText (Str s)
  = RowGenerator.generateRowsFromText (Str (TextExtractor.normalizeLineEndings s)).
Proof.
  intros Hs. destruct s as [|c s]; [reflexivity|].
  assert (Hne : c :: s <> []) by discriminate.
  pose proof (normalize_nonempty (c :: s) Hs Hne) as Hne'.
  unfold RowGenerator.generateRowsFromText, TextSplitter.splitWithNormalization.
  rewrite (splitText_string _ Hne), (splitText_string _ Hne'). cbn [bind].
  f_equal. apply splitLines_sameButReturn.
  apply (split_normalize (List.length (c :: s))); [lia | exact Hs].
Qed.

Lemma C7_crlf_text_same_rows_witness :
  let s := [97; carriageReturn; newline; 98] in
  crlfOnly s = true
  /\ RowGenerator.generateRowsFromText (Str s)
     = RowGenerator.generateRowsFromText (Str [97; newline; 98]).
Proof.
  split; [reflexivity|].
  apply (C7_crlf_text_same_rows [97; carriageReturn; newline; 98]). reflexivity.
Defined.

(** A lone carriage return is not a line break for the core: one row, where
    the normalised text gives two. *)
Lemma C7_lone_return_not_normalized :
  TextExtractor.normalizeLineEndings Scenario.loneReturn = [97; newline; 98]
  /\ TextSplitter.splitText (Str Scenario.loneReturn)
     = Normal [Some Scenario.loneReturn]
  /\ TextSplitter.splitText (Str (TextExtractor.normalizeLineEndings Scenario.loneReturn))
     = Normal [Some [97]; Some [98]]
  /\ RowGenerator.generateRowsFromText (Str Scenario.loneReturn)
     <> RowGenerator.generateRowsFromText
          (Str (TextExtractor.normalizeLineEndings Scenario.loneReturn)).
Proof.
  split; [reflexivity|]. split; [reflexivity|]. split; [reflexivity|].
  vm_compute. discriminate.
Qed.

(** ** The amendment symbol in the clause-number row *)

Lemma trimStart_keeps_last u c :
  isWhiteSpace c = false -> exists v, trimStart (u ++ [c]) = v ++ [c].
Proof.
  intros Hc. induction u as [|d u (v & IH)]; simpl.
  - rewrite Hc. exists []. reflexivity.
  - destruct (isWhiteSpace d).
    + exists v. exact IH.
    + exists (d :: u). reflexivity.
Qed.

Lemma trim_keeps_head c y :
  isWhiteSpace c = false -> exists z, trim (c :: y) = c :: z.
Proof.
  intros Hc. unfold trim. rewrite (trimStart_nonwhite c y Hc).
  unfold trimEnd. simpl rev.
  destruct (trimStart_keeps_last (rev y) c Hc) as (v & ->).
  exists (rev v). now rewrite rev_app_distr.
Qed.

(** A match on an input that begins with an amendment symbol begins with
    that symbol. *)
Lemma merged_match_takes_symbol ms tl sym y :
  pieces mergedNumeralItems ms ->
  List.concat ms ++ tl = sym :: y ->
  isSymbol sym = true ->
  exists rest, List.concat ms = sym :: rest.
Proof.
  intros Hps Heq Hsym. unfold mergedNumeralItems, pieces in Hps.
  inversion Hps as [|i1 a r1 ms1 Ha Hps1]; subst.
  inversion Hps1 as [|i2 b r2 ms2 Hb Hps2]; subst.
  inversion Hps2 as [|i3 g r3 ms3 Hg Hps3]; subst.
  clear Hps Hps1 Hps2 Hps3.
  apply pieceOk_opt_iff in Ha. apply pieceOk_plus_iff in Hg as [Hne Hdig].
  cbn [List.concat] in *. rewrite <- !app_assoc in Heq.
  destruct Ha as [->|(c & -> & Hc)].
  - exfalso. simpl in Heq. destruct b as [|b0 b].
    + destruct g as [|d0 g]; [congruence|].
      simpl in Heq. inversion Heq; subst.
      simpl in Hdig. apply andb_prop in Hdig as [Hd _].
      unfold isAnyDigit in Hd. class_solve.
    + simpl in Heq, Hb. inversion Heq; subst.
      apply andb_prop in Hb as [Hw _].
      rewrite (symbol_not_white sym Hsym) in Hw. discriminate.
  - simpl in Heq. inversion Heq; subst. simpl. eauto.
Qed.

(** Whenever a clause is detected behind an amendment symbol, the row
    returned for it carries the symbol twice. *)
Lemma getClauseNumberRow_doubles_symbol line d sym :
  ClauseNumberDetector.detectClauseNumber line = Some d ->
  ClauseNumberDetector.amendment d = Some sym ->
  exists rest,
    ClauseNumberDetector.fullClause d = sym :: rest
    /\ ClauseNumberDetector.getClauseNumberRow line = Some (sym :: sym :: rest).
Proof.
  intros Hd Ha.
  assert (G : exists ms tl y,
             pieces mergedNumeralItems ms
             /\ List.concat ms ++ tl = sym :: y
             /\ isSymbol sym = true
             /\ ClauseNumberDetector.fullClause d = trim (Regex.whole ms)).
  { assert (Hx : forall a, ClauseNumberDetector.extractAmendmentSymbol (trimStart line)
                           = Some a ->
                 exists y, trimStart line = a :: y /\ isSymbol a = true).
    { intros a. unfold ClauseNumberDetector.extractAmendmentSymbol.
      rewrite trimStart_idempotent.
      destruct (trimStart line) as [|c y]; cbn [charAt0];
        [intros X; discriminate X|].
      destruct (existsb (Z.eqb c) amendmentSymbols) eqn:Hc;
        [|intros X; discriminate X].
      intros H; inversion H; subst. eauto. }
    revert Hd Ha. unfold ClauseNumberDetector.detectClauseNumber, Regex.exec.
    destruct (isEmptyString line || isEmptyString (trim line));
      [intros X; discriminate X|].
    destruct (Regex.test ClauseNumberDetector.subClausePattern (trimStart line));
      [intros X; discriminate X|].
    destruct (Regex.run (Regex.items ClauseNumberDetector.englishNumeralPattern)
                (Regex.anchoredEnd ClauseNumberDetector.englishNumeralPattern)
                (trimStart line)) as [[ms tl]|] eqn:He.
    - intros Hd Ha. inversion Hd; subst d; clear Hd. simpl in Ha.
      destruct (Hx sym Ha) as (y & Hy & Hsym).
      apply run_sound in He as (Hps & Heq & _).
      exists ms, tl, y.
      split; [now apply english_pieces_merged|].
      split; [congruence|]. split; [exact Hsym | reflexivity].
    - destruct (Regex.run (Regex.items ClauseNumberDetector.devanagariNumeralPattern)
                  (Regex.anchoredEnd ClauseNumberDetector.devanagariNumeralPattern)
                  (trimStart line)) as [[ms tl]|] eqn:Hv;
        [|intros X; discriminate X].
      intros Hd Ha. inversion Hd; subst d; clear Hd. simpl in Ha.
      destruct (Hx sym Ha) as (y & Hy & Hsym).
      apply run_sound in Hv as (Hps & Heq & _).
      exists ms, tl, y.
      split; [now apply devanagari_pieces_merged|].
      split; [congruence|]. split; [exact Hsym | reflexivity]. }
  destruct G as (ms & tl & y & Hps & Heq & Hsym & Hfull).
  destruct (merged_match_takes_symbol ms tl sym y Hps Heq Hsym) as (rest & Hrest).
  unfold Regex.whole in Hfull. rewrite Hrest in Hfull.
  destruct (trim_keeps_head sym rest (symbol_not_white sym Hsym)) as (z & Hz).
  exists z. split; [congruence|].
  unfold ClauseNumberDetector.getClauseNumberRow. rewrite Hd, Ha. congruence.
Qed.


(* ================================================================== *)
(** * Part III: further properties of the modules *)
(* ================================================================== *)

(** ** Row objects: numbering and validation *)

Lemma generateRowsFrom_numbers rows : forall i objs,
  RowGenerator.generateRowsFrom i rows = Normal objs ->
  map Row.number objs = numbersFrom i (List.length rows)
  /\ Forall (fun o => Row.length o = strlen (Row.text o)) objs.
Proof.
  induction rows as [|entry rows IH]; intros i objs; simpl.
  - intros H; inversion H; subst. split; constructor.
  - destruct entry as [text|]; simpl; [|discriminate].
    destruct (RowGenerator.generateRowsFrom (i + 1) rows) as [objs'|] eqn:Hgen;
      simpl; [|discriminate].
    intros H; inversion H; subst.
    destruct (IH _ _ Hgen) as [Hn Hl]. simpl. split.
    + now rewrite Hn.
    + constructor; [reflexivity | exact Hl].
Qed.

Lemma generateRowsFrom_throws rows : forall i,
  RowGenerator.generateRowsFrom i rows = Throw <-> In None rows.
Proof.
  induction rows as [|entry rows IH]; intros i; simpl.
  - split; [discriminate | intros []].
  - destruct entry as [text|]; simpl.
    + specialize (IH (i + 1)).
      destruct (RowGenerator.generateRowsFrom (i + 1) rows); simpl.
      * split; [discriminate|]. intros [H|H]; [discriminate|].
        apply IH in H. discriminate.
      * split; [intros _; right; now apply IH | reflexivity].
    + split; [intros _; now left | reflexivity].
Qed.

(** X1. [generateRows] throws exactly when an entry is [null].  Otherwise it
    gives one object per entry, in order, holding the entry's text, its
    length, and the numbers 1, 2, ..., n. *)
Theorem X1_generateRows_numbering (rows : list nullable) :
  (RowGenerator.generateRows rows = Throw <-> In None rows)
  /\ forall objs,
       RowGenerator.generateRows rows = Normal objs ->
       map (fun o => Some (Row.text o)) objs = rows
       /\ map Row.number objs = numbersFrom 0 (List.length rows)
       /\ Forall (fun o => Row.length o = strlen (Row.text o)) objs.
Proof.
  split; [apply generateRowsFrom_throws|].
  intros objs H. unfold RowGenerator.generateRows in H.
  destruct (generateRowsFrom_inv rows 0 objs H) as [Ht _].
  destruct (generateRowsFrom_numbers rows 0 objs H) as [Hn Hl].
  auto.
Qed.

Lemma X1_generateRows_numbering_witness :
  exists objs,
    RowGenerator.generateRows [Some Scenario.bareNumber; Some Scenario.act]
    = Normal objs
    /\ map Row.number objs = [1; 2].
Proof.
  eexists. split; [reflexivity|].
  exact (proj1 (proj2 (proj2 (X1_generateRows_numbering
           [Some Scenario.bareNumber; Some Scenario.act]) _ eq_refl))).
Defined.

Section Validation.
Import RowGenerator.

Lemma rowIssues_nil_iff i o :
  rowIssues i o = [] <-> numberOf o = i + 1 /\ classesIsArray o = true.
Proof.
  unfold rowIssues. split.
  - intros H. destruct (numberOf o =? i + 1) eqn:Hn; [|discriminate H].
    apply Z.eqb_eq in Hn. destruct o as [r|e]; [discriminate H|].
    split; [exact Hn | reflexivity].
  - intros [Hn Hc]. apply Z.eqb_eq in Hn. rewrite Hn.
    destruct o as [r|e]; [discriminate Hc | reflexivity].
Qed.

Lemma issuesFrom_nil_iff l : forall i,
  issuesFrom i l = []
  <-> map numberOf l = numbersFrom i (List.length l)
      /\ forallb classesIsArray l = true.
Proof.
  induction l as [|o l IH]; intros i;
    cbn [issuesFrom map List.length numbersFrom forallb].
  - split; auto.
  - split.
    + intros H. apply app_eq_nil in H as [Ho Hl].
      apply rowIssues_nil_iff in Ho as [Hn Hc]. apply IH in Hl as [Hl Hcs].
      rewrite Hn, Hl, Hc, Hcs. auto.
    + intros [Hn Hc]. injection Hn as Ho Hl.
      apply andb_prop in Hc as [Hc Hcs].
      assert (Hi : rowIssues i o = []).
      { apply rowIssues_nil_iff. split; [exact Ho | exact Hc]. }
      assert (Hr : issuesFrom (i + 1) l = []).
      { apply IH. split; [exact Hl | exact Hcs]. }
      now rewrite Hi, Hr.
Qed.

Lemma enhanceFrom_rows total rows : forall i,
  map EnhancedRow.row (enhanceFrom total i rows) = rows.
Proof.
  induction rows as [|r rows IH]; intros i; simpl; [reflexivity|].
  now rewrite IH.
Qed.

Lemma enhanced_numbers rows :
  map numberOf (map enhancedRow (enhanceRows rows)) = map Row.number rows.
Proof.
  unfold enhanceRows. rewrite map_map. simpl.
  rewrite <- (map_map EnhancedRow.row Row.number).
  now rewrite enhanceFrom_rows.
Qed.

Lemma length_enhanceFrom total rows : forall i,
  List.length (enhanceFrom total i rows) = List.length rows.
Proof.
  induction rows as [|r rows IH]; intros i; simpl; [reflexivity|].
  now rewrite IH.
Qed.

Lemma plain_issues l : forall i,
  map Row.number l = numbersFrom i (List.length l) ->
  List.length (issuesFrom i (map plainRow l)) = List.length l.
Proof.
  induction l as [|r l IH]; intros i H; [reflexivity|].
  cbn [map List.length numbersFrom] in H. injection H as Hn Hl.
  cbn [map issuesFrom List.length]. rewrite length_app, (IH (i + 1) Hl).
  unfold rowIssues. cbn [numberOf textIsString classesIsArray negb].
  rewrite Hn, Z.eqb_refl. reflexivity.
Qed.

End Validation.



(** X3. The rows [generateRows] builds pass [validateRows] once they went
    through [enhanceRows], with no issue at all; given as they are, they
    fail it, with one issue for every row, since they have no [classes]. *)
Theorem X3_generated_rows_validate (rows : list nullable) (objs : list Row.t) :
  RowGenerator.generateRows rows = Normal objs ->
  RowGenerator.validateRows
    (RowGenerator.rowArray
       (map RowGenerator.enhancedRow (RowGenerator.enhanceRows objs)))
  = {| RowGenerator.valid := true;
       RowGenerator.issues := [];
       RowGenerator.rowCount := Some (Z.of_nat (List.length rows)) |}
  /\ List.length
       (RowGenerator.issues
          (RowGenerator.validateRows
             (RowGenerator.rowArray (map RowGenerator.plainRow objs))))
     = List.length rows.
Proof.
  intros H.
  destruct (proj2 (X1_generateRows_numbering rows) objs H) as (Ht & Hn & _).
  assert (Hlen : List.length objs = List.length rows).
  { rewrite <- Ht. now rewrite length_map. }
  split.
  - assert (Hi : RowGenerator.issuesFrom 0
                   (map RowGenerator.enhancedRow (RowGenerator.enhanceRows objs)) = []).
    { apply issuesFrom_nil_iff. split.
      - rewrite enhanced_numbers, length_map.
        unfold RowGenerator.enhanceRows. rewrite length_enhanceFrom.
        now rewrite Hlen.
      - apply forallb_forall. intros o Ho. apply in_map_iff in Ho as (e & <- & _).
        reflexivity. }
    simpl. rewrite Hi. simpl. rewrite length_map.
    unfold RowGenerator.enhanceRows. rewrite length_enhanceFrom.
    now rewrite Hlen.
  - simpl. rewrite plain_issues; [exact Hlen|]. now rewrite Hlen.
Qed.

Lemma X3_generated_rows_validate_witness :
  exists objs,
    RowGenerator.generateRows [Some Scenario.bareNumber] = Normal objs
    /\ RowGenerator.valid
         (RowGenerator.validateRows
            (RowGenerator.rowArray
               (map RowGenerator.enhancedRow (RowGenerator.enhanceRows objs))))
       = true.
Proof.
  eexists. split; [reflexivity|].
  exact (f_equal RowGenerator.valid
           (proj1 (X3_generated_rows_validate [Some Scenario.bareNumber] _ eq_refl))).
Defined.

(** ** Enhanced rows *)

Lemma enhanceFrom_nth total rows : forall i k e,
  nth_error (RowGenerator.enhanceFrom total i rows) k = Some e ->
  exists r, nth_error rows k = Some r
            /\ e = RowGenerator.enhanceRow total (i + Z.of_nat k) r.
Proof.
  induction rows as [|r rows IH]; intros i k e H.
  - destruct k; discriminate H.
  - destruct k as [|k]; simpl in H.
    + inversion H; subst. exists r. split; [reflexivity|].
      now rewrite Z.add_0_r.
    + destruct (IH _ _ _ H) as (r' & Hr & ->). exists r'. split; [exact Hr|].
      f_equal. lia.
Qed.

(** X4. [enhanceRows] keeps the rows, in order and unchanged, and adds their
    position: [index] is the place in the array, [isFirst] holds at place 0
    only and [isLast] at the last place only.  A row is never both a main
    clause and an amendment clause, and it is one of the two exactly when it
    is a clause number. *)
Theorem X4_enhanceRows_positions (rows : list Row.t) (k : nat) (e : EnhancedRow.t) :
  nth_error (RowGenerator.enhanceRows rows) k = Some e ->
  List.length (RowGenerator.enhanceRows rows) = List.length rows
  /\ nth_error rows k = Some (EnhancedRow.row e)
  /\ EnhancedRow.index e = Z.of_nat k
  /\ (EnhancedRow.isFirst e = true <-> k = 0%nat)
  /\ (EnhancedRow.isLast e = true <-> S k = List.length rows)
  /\ EnhancedRow.isMainClause e && EnhancedRow.isAmendmentClause e = false
  /\ EnhancedRow.isMainClause e || EnhancedRow.isAmendmentClause e
     = Row.isClauseNumber (EnhancedRow.row e).
Proof.
  intros H. unfold RowGenerator.enhanceRows in *.
  split; [apply length_enhanceFrom|].
  destruct (enhanceFrom_nth _ _ _ _ _ H) as (r & Hr & ->). simpl.
  split; [exact Hr|]. split; [reflexivity|].
  assert (Hk : (k < List.length rows)%nat).
  { apply nth_error_Some. congruence. }
  split; [|split; [|split]].
  - rewrite Z.eqb_eq. lia.
  - rewrite Z.eqb_eq. lia.
  - destruct (Row.isClauseNumber r); destruct (Row.isAmendment r); reflexivity.
  - destruct (Row.isClauseNumber r); destruct (Row.isAmendment r); reflexivity.
Qed.

Lemma X4_enhanceRows_positions_witness :
  exists objs e,
    RowGenerator.generateRows [Some Scenario.bareNumber; Some Scenario.act]
    = Normal objs
    /\ nth_error (RowGenerator.enhanceRows objs) 1 = Some e
    /\ (EnhancedRow.isLast e = true <-> 2%nat = List.length objs).
Proof.
  do 2 eexists. split; [reflexivity|]. split; [reflexivity|].
  eapply (X4_enhanceRows_positions _ 1 _). reflexivity.
Defined.

(** ** What the normalisation pass leaves *)

Section Normalised.
Import TextSplitter.

Lemma rev_head_last (s : jsstring) c y d :
  s = c :: y -> exists z, rev s = last s d :: z.
Proof.
  intros ->.
  destruct (exists_last (l := c :: y)) as (u & e & E); [discriminate|].
  rewrite E. rewrite last_last, rev_app_distr. simpl. eauto.
Qed.

Lemma trim_nil : trim [] = [].
Proof. reflexivity. Qed.

Lemma trim_of_trimmed s : trimmedText s -> trim s = s.
Proof.
  destruct s as [|c y]; [reflexivity|]. intros [Hc Hl].
  unfold trim. rewrite (trimStart_nonwhite c y Hc). unfold trimEnd.
  destruct (rev_head_last (c :: y) c y c eq_refl) as (z & E).
  rewrite E, (trimStart_nonwhite _ z Hl), <- E. apply rev_involutive.
Qed.

Lemma trim_trimmedText x : trimmedText (trim x).
Proof.
  unfold trim. destruct (trimStart x) as [|c y] eqn:E; [exact I|].
  pose proof (trimStart_head x c y E) as Hc.
  destruct (trim_keeps_head c y Hc) as (z & Hz).
  unfold trim in Hz. rewrite (trimStart_nonwhite c y Hc) in Hz.
  rewrite Hz. split; [exact Hc|].
  unfold trimEnd in Hz.
  destruct (trimStart (rev (c :: y))) as [|d u] eqn:Eu; [discriminate Hz|].
  pose proof (trimStart_head _ d u Eu) as Hd.
  rewrite <- Hz. simpl rev. now rewrite last_last.
Qed.

Lemma space_white : isWhiteSpace space = true.
Proof. reflexivity. Qed.

Lemma collapse_head c s :
  (c =? space) = false -> collapseSpaces (c :: s) = c :: collapseSpaces s.
Proof. intros H. simpl. now rewrite H. Qed.

Lemma nonwhite_not_space c : isWhiteSpace c = false -> (c =? space) = false.
Proof.
  intros H. destruct (c =? space) eqn:E; [|reflexivity].
  apply Z.eqb_eq in E. subst. discriminate H.
Qed.

Lemma collapse_nonempty s : s <> [] -> collapseSpaces s <> [].
Proof.
  induction s as [|c s IH]; [congruence|]. intros _. simpl.
  destruct ((c =? space) && match s with d :: _ => d =? space | [] => false end)
    eqn:E; [|discriminate].
  apply IH. destruct s; [|discriminate].
  rewrite andb_false_r in E. discriminate.
Qed.

Lemma collapse_last s d : last (collapseSpaces s) d = last s d.
Proof.
  induction s as [|c s IH]; [reflexivity|]. simpl collapseSpaces.
  destruct ((c =? space) && match s with e :: _ => e =? space | [] => false end)
    eqn:E.
  - rewrite IH. destruct s; [|reflexivity].
    rewrite andb_false_r in E. discriminate.
  - destruct s as [|e s]; [reflexivity|].
    assert (Hne : collapseSpaces (e :: s) <> []) by (apply collapse_nonempty; discriminate).
    destruct (collapseSpaces (e :: s)) as [|f t] eqn:Ec; [congruence|].
    change (last (c :: f :: t) d) with (last (f :: t) d).
    change (last (c :: e :: s) d) with (last (e :: s) d).
    exact IH.
Qed.

Lemma collapse_trimmed s : trimmedText s -> trimmedText (collapseSpaces s).
Proof.
  destruct s as [|c y]; [intros _; exact I|]. intros [Hc Hl].
  rewrite (collapse_head c y (nonwhite_not_space c Hc)).
  split; [exact Hc|].
  rewrite <- (collapse_head c y (nonwhite_not_space c Hc)).
  now rewrite collapse_last.
Qed.

Lemma collapse_first_kept d s :
  (d =? space) = false ->
  match collapseSpaces (d :: s) with e :: _ => e =? space | [] => false end = false.
Proof. intros H. rewrite (collapse_head d s H). exact H. Qed.

Lemma collapse_no_double s : hasDoubleSpace (collapseSpaces s) = false.
Proof.
  induction s as [|c s IH]; [reflexivity|]. simpl collapseSpaces.
  destruct ((c =? space) && match s with e :: _ => e =? space | [] => false end)
    eqn:E; [exact IH|].
  cbn [hasDoubleSpace]. rewrite IH, orb_false_r.
  destruct (c =? space) eqn:Hc; [|reflexivity]. simpl in E |- *.
  destruct s as [|e s]; [reflexivity|].
  now apply collapse_first_kept.
Qed.

Lemma collapse_fixed s : hasDoubleSpace s = false -> collapseSpaces s = s.
Proof.
  induction s as [|c s IH]; [reflexivity|]. cbn [hasDoubleSpace].
  intros H. apply orb_false_elim in H as [H1 H2].
  simpl. rewrite H1. now rewrite (IH H2).
Qed.

Lemma normalizeRow_settled t :
  let r := collapseSpaces (trim t) in
  trimmedText r /\ trim r = r /\ hasDoubleSpace r = false
  /\ normalizeRow (Some r) = Some r.
Proof.
  intros r.
  assert (Ht : trimmedText r) by (apply collapse_trimmed, trim_trimmedText).
  assert (Hd : hasDoubleSpace r = false) by apply collapse_no_double.
  repeat split; auto using trim_of_trimmed.
  simpl. rewrite (trim_of_trimmed r Ht). now rewrite (collapse_fixed r Hd).
Qed.

Lemma splitText_strings text rows :
  splitText text = Normal rows -> Forall isStringEntry rows.
Proof.
  destruct (value_cases text) as [Hno|(s & Hs & ->)].
  - rewrite (splitText_not_text text Hno). intros H; inversion H. constructor.
  - rewrite (splitText_string s Hs). intros H; inversion H.
    apply flat_map_Forall. intros line. apply splitLine_shape.
Qed.

End Normalised.

(** X5. Every row [splitWithNormalization] returns is a string with no white
    space at either end and no two spaces in a row; normalising it again
    changes nothing. *)
Theorem X5_normalised_rows_settled (text : value) (rows : list nullable) :
  TextSplitter.splitWithNormalization text = Normal rows ->
  Forall (fun entry =>
    exists t, entry = Some t /\ trimmedText t /\ trim t = t
              /\ hasDoubleSpace t = false
              /\ TextSplitter.normalizeRow entry = entry) rows.
Proof.
  unfold TextSplitter.splitWithNormalization.
  destruct (TextSplitter.splitText text) as [rows0|] eqn:E; simpl; [|discriminate].
  intros H; inversion H; subst; clear H.
  pose proof (splitText_strings text rows0 E) as Hall.
  apply Forall_map. eapply Forall_impl; [|exact Hall].
  intros [t|] Ht; [|now elim Ht].
  destruct (normalizeRow_settled t) as (H1 & H2 & H3 & H4).
  exists (TextSplitter.collapseSpaces (trim t)). auto.
Qed.

Lemma X5_normalised_rows_settled_witness :
  exists rows,
    TextSplitter.splitWithNormalization (Str Scenario.amendmentLine) = Normal rows
    /\ Forall (fun entry =>
         exists t, entry = Some t /\ trimmedText t /\ trim t = t
                   /\ hasDoubleSpace t = false
                   /\ TextSplitter.normalizeRow entry = entry) rows.
Proof.
  eexists. split; [reflexivity|].
  apply (X5_normalised_rows_settled (Str Scenario.amendmentLine)). reflexivity.
Defined.

(** ** The clause number and what follows it *)

(** A detection comes from a cut of the trimmed line by one of the two
    numeral patterns. *)
Lemma detect_pieces line d :
  ClauseNumberDetector.detectClauseNumber line = Some d ->
  exists ms tl,
    pieces mergedNumeralItems ms
    /\ trimStart line = List.concat ms ++ tl
    /\ ClauseNumberDetector.fullClause d = trim (List.concat ms)
    /\ ClauseNumberDetector.baseNumber d = Regex.group 2 2 ms
    /\ ClauseNumberDetector.amendment d
       = ClauseNumberDetector.extractAmendmentSymbol (trimStart line)
    /\ ((ClauseNumberDetector.language d = ClauseNumberDetector.english
         /\ pieces (Regex.items ClauseNumberDetector.englishNumeralPattern) ms
         /\ ClauseNumberDetector.hasAlpha d
            = testClass isLetter (Regex.group 2 2 ms))
        \/ (ClauseNumberDetector.language d = ClauseNumberDetector.devanagari
            /\ pieces (Regex.items ClauseNumberDetector.devanagariNumeralPattern) ms
            /\ ClauseNumberDetector.hasAlpha d
               = DevanagariParser.isAlphaNumeric (Regex.group 2 2 ms))).
Proof.
  unfold ClauseNumberDetector.detectClauseNumber, Regex.exec.
  destruct (isEmptyString line || isEmptyString (trim line));
    [intros X; discriminate X|].
  destruct (Regex.test ClauseNumberDetector.subClausePattern (trimStart line));
    [intros X; discriminate X|].
  destruct (Regex.run (Regex.items ClauseNumberDetector.englishNumeralPattern)
              (Regex.anchoredEnd ClauseNumberDetector.englishNumeralPattern)
              (trimStart line)) as [[ms tl]|] eqn:He.
  - intros Hd. inversion Hd; subst d; clear Hd.
    apply run_sound in He as (Hps & Heq & _).
    exists ms, tl. cbn.
    split; [now apply english_pieces_merged|].
    split; [exact Heq|]. split; [reflexivity|]. split; [reflexivity|].
    split; [reflexivity|]. left. auto.
  - destruct (Regex.run (Regex.items ClauseNumberDetector.devanagariNumeralPattern)
                (Regex.anchoredEnd ClauseNumberDetector.devanagariNumeralPattern)
                (trimStart line)) as [[ms tl]|] eqn:Hv;
      [|intros X; discriminate X].
    intros Hd. inversion Hd; subst d; clear Hd.
    apply run_sound in Hv as (Hps & Heq & _).
    exists ms, tl. cbn.
    split; [now apply devanagari_pieces_merged|].
    split; [exact Heq|]. split; [reflexivity|]. split; [reflexivity|].
    split; [reflexivity|]. right. auto.
Qed.

Lemma forallb_not_In (p : Z -> bool) (m : jsstring) c :
  forallb p m = true -> p c = false -> ~ In c m.
Proof.
  intros Hm Hc Hin. rewrite forallb_forall in Hm.
  rewrite (Hm c Hin) in Hc. discriminate.
Qed.

(** The period that ends a match is its only one. *)
Lemma merged_match_period ms :
  pieces mergedNumeralItems ms ->
  exists pre, List.concat ms = pre ++ [period] /\ ~ In period pre.
Proof.
  intros Hps. unfold mergedNumeralItems, pieces in Hps.
  inversion Hps as [|i1 a r1 ms1 Ha Hps1]; subst.
  inversion Hps1 as [|i2 b r2 ms2 Hb Hps2]; subst.
  inversion Hps2 as [|i3 g r3 ms3 Hg Hps3]; subst.
  inversion Hps3 as [|i4 h r4 ms4 Hh Hps4]; subst.
  inversion Hps4 as [|i5 j r5 ms5 Hj Hps5]; subst.
  inversion Hps5 as [|i6 k r6 ms6 Hk Hps6]; subst.
  inversion Hps6; subst. clear Hps Hps1 Hps2 Hps3 Hps4 Hps5 Hps6.
  simpl in Hk. destruct k as [|c [|e k]]; try discriminate Hk.
  apply Z.eqb_eq in Hk. subst c.
  exists (a ++ b ++ g ++ h ++ j). split.
  - simpl. now rewrite <- !app_assoc.
  - intros Hin.
    repeat (apply in_app_or in Hin; destruct Hin as [Hin|Hin]).
    + pose proof (pieceOk_all _ _ _ _ Ha Hin) as X. discriminate X.
    + pose proof (pieceOk_all _ _ _ _ Hb Hin) as X. discriminate X.
    + pose proof (pieceOk_all _ _ _ _ Hg Hin) as X. discriminate X.
    + pose proof (pieceOk_all _ _ _ _ Hh Hin) as X. discriminate X.
    + pose proof (pieceOk_all _ _ _ _ Hj Hin) as X. discriminate X.
Qed.

Lemma indexOf_first c pre tl :
  ~ In c pre -> indexOf c (pre ++ c :: tl) = strlen pre.
Proof.
  unfold strlen. induction pre as [|d pre IH]; intros Hn; simpl.
  - now rewrite Z.eqb_refl.
  - assert (Hd : (d =? c) = false).
    { apply Z.eqb_neq. intros ->. apply Hn. now left. }
    rewrite Hd, IH by (intros H; apply Hn; now right).
    destruct (Z.of_nat (List.length pre) <? 0) eqn:E;
      [apply Z.ltb_lt in E; lia|].
    lia.
Qed.

Lemma last_snoc (pre : jsstring) c d : last (pre ++ [c]) d = c.
Proof. apply last_last. Qed.

Lemma endsWith_snoc pre c : endsWith c (pre ++ [c]) = true.
Proof. unfold endsWith. rewrite rev_app_distr. simpl. apply Z.eqb_refl. Qed.

Lemma head_of_app (x tl : jsstring) c y :
  x <> [] -> x ++ tl = c :: y -> exists x', x = c :: x'.
Proof.
  destruct x as [|e x']; [congruence|]. intros _ H. inversion H; subst. eauto.
Qed.

(** X6. Where a clause number is detected, the trimmed line is the clause
    text followed by the rest: the clause text is the matched prefix itself,
    it ends with a period and has no other, and [getRemainder], which looks
    for the first period of the line, returns exactly the rest, left-trimmed,
    or [null] when nothing but white space is left. *)
Theorem X6_clause_and_remainder (line : jsstring) (d : ClauseNumberDetector.detection) :
  ClauseNumberDetector.detectClauseNumber line = Some d ->
  exists pre rest,
    ClauseNumberDetector.fullClause d = pre ++ [period]
    /\ ~ In period pre
    /\ trimStart line = ClauseNumberDetector.fullClause d ++ rest
    /\ ClauseNumberDetector.getRemainder line = orNull (trimStart rest).
Proof.
  intros Hd.
  destruct (detect_pieces line d Hd) as (ms & tl & Hps & Heq & Hfull & _).
  destruct (merged_match_period ms Hps) as (pre & Hpre & Hnot).
  assert (Htrim : trim (List.concat ms) = List.concat ms).
  { apply trim_of_trimmed. rewrite Hpre.
    destruct (pre ++ [period]) as [|c y] eqn:E;
      [destruct pre; discriminate E|].
    assert (Hc : isWhiteSpace c = false).
    { rewrite Hpre in Heq. try rewrite E in Heq. simpl in Heq.
      eapply trimStart_head. exact Heq. }
    split; [exact Hc|]. rewrite <- E. now rewrite last_snoc. }
  rewrite Htrim in Hfull.
  exists pre, tl. split; [congruence|]. split; [exact Hnot|].
  split; [congruence|].
  unfold ClauseNumberDetector.getRemainder. rewrite Hd, Heq, Hpre.
  rewrite <- app_assoc. simpl app.
  rewrite (indexOf_first period pre tl Hnot).
  assert (Hi : (strlen pre =? -1) = false) by (apply Z.eqb_neq; unfold strlen; lia).
  rewrite Hi. cbn [negb].
  rewrite substringFrom_valid.
  - replace (Z.to_nat (strlen pre + 1)) with (List.length (pre ++ [period]))
      by (rewrite length_app; unfold strlen; simpl; lia).
    change (pre ++ period :: tl) with (pre ++ [period] ++ tl).
    now rewrite app_assoc, skipn_app, skipn_all, Nat.sub_diag.
  - unfold strlen. rewrite length_app. simpl. lia.
Qed.

Lemma X6_clause_and_remainder_witness :
  exists pre rest,
    ~ In period pre
    /\ trimStart Scenario.amendmentLine = (pre ++ [period]) ++ rest
    /\ ClauseNumberDetector.getRemainder Scenario.amendmentLine
       = orNull (trimStart rest).
Proof.
  destruct (ClauseNumberDetector.detectClauseNumber Scenario.amendmentLine)
    as [d|] eqn:Hd; [|vm_compute in Hd; discriminate Hd].
  destruct (X6_clause_and_remainder _ _ Hd) as (pre & rest & H1 & H2 & H3 & H4).
  exists pre, rest. rewrite <- H1. auto.
Defined.

(** ** The leading phrase *)

Lemma incl_trimStart s : incl (trimStart s) s.
Proof.
  induction s as [|c s IH]; simpl; [apply incl_refl|].
  destruct (isWhiteSpace c); [now apply incl_tl | apply incl_refl].
Qed.

Lemma incl_rev_l (s : jsstring) : incl (rev s) s.
Proof. intros c H. now apply in_rev. Qed.

Lemma incl_rev_r (s : jsstring) : incl s (rev s).
Proof. intros c H. now apply in_rev in H. Qed.

Lemma incl_trimEnd s : incl (trimEnd s) s.
Proof.
  unfold trimEnd. eapply incl_tran; [apply incl_rev_l|].
  eapply incl_tran; [apply incl_trimStart | apply incl_rev_l].
Qed.

Lemma incl_trim s : incl (trim s) s.
Proof.
  unfold trim. eapply incl_tran; [apply incl_trimEnd | apply incl_trimStart].
Qed.

Lemma indexOf_split c s :
  indexOf c s <> -1 ->
  exists pre post,
    s = pre ++ c :: post /\ ~ In c pre /\ indexOf c s = strlen pre.
Proof.
  induction s as [|d s IH]; simpl; [congruence|].
  destruct (d =? c) eqn:Hd.
  - intros _. apply Z.eqb_eq in Hd. subst d. exists [], s.
    split; [reflexivity|]. split; [intros []|reflexivity].
  - destruct (indexOf c s <? 0) eqn:Hi; [congruence|]. intros _.
    apply Z.ltb_ge in Hi.
    destruct IH as (pre & post & -> & Hn & Hidx); [lia|].
    exists (d :: pre), post. split; [reflexivity|]. split.
    + intros [H|H]; [|now apply Hn]. apply Z.eqb_neq in Hd. congruence.
    + rewrite Hidx. unfold strlen. simpl List.length. lia.
Qed.

Lemma substring_pre pre c post :
  substring (pre ++ c :: post) 0 (strlen pre) = pre.
Proof.
  rewrite substring_prefix.
  - unfold strlen. rewrite Nat2Z.id. rewrite firstn_app, Nat.sub_diag, firstn_all.
    simpl. apply app_nil_r.
  - unfold strlen. rewrite length_app. lia.
Qed.

Lemma substringFrom_post pre (c : Z) post :
  substringFrom (pre ++ c :: post) (strlen pre + 1) = post.
Proof.
  rewrite substringFrom_valid.
  - replace (Z.to_nat (strlen pre + 1)) with (List.length (pre ++ [c]))
      by (rewrite length_app; unfold strlen; simpl; lia).
    change (pre ++ c :: post) with (pre ++ [c] ++ post).
    now rewrite app_assoc, skipn_app, skipn_all, Nat.sub_diag.
  - unfold strlen. rewrite length_app. simpl. lia.
Qed.

(** What [detectLeadingPhrase] returns, read off the remainder. *)
Lemma detectLeadingPhrase_some line r l :
  LeadingPhraseDetector.detectLeadingPhrase line (Some r) = Some l ->
  exists pre post,
    r = pre ++ colon :: post /\ ~ In colon pre /\ trim pre <> []
    /\ LeadingPhraseDetector.phrase l = trim pre ++ [colon]
    /\ LeadingPhraseDetector.content l = orNull (trim post)
    /\ LeadingPhraseDetector.hasContent l = negb (isEmptyString (trim post)).
Proof.
  unfold LeadingPhraseDetector.detectLeadingPhrase.
  destruct r as [|c0 r0]; [intros X; discriminate X|].
  destruct (indexOf colon (c0 :: r0) =? -1) eqn:Hi; [intros X; discriminate X|].
  apply Z.eqb_neq in Hi.
  destruct (indexOf_split colon (c0 :: r0) Hi) as (pre & post & Hr & Hn & Hidx).
  rewrite Hidx, Hr, substring_pre, substringFrom_post.
  destruct (isEmptyString (trim pre)) eqn:He; [intros X; discriminate X|].
  intros H; inversion H; subst l; clear H. cbn.
  exists pre, post. repeat split; auto.
  - destruct (trim pre); [discriminate He | discriminate].
  - unfold strlen. destruct (trim post); reflexivity.
Qed.

Lemma last_nonempty_default (s : jsstring) d e : s <> [] -> last s d = last s e.
Proof.
  induction s as [|c s IH]; [congruence|]. intros _.
  destruct s as [|c' s]; [reflexivity|].
  change (last (c :: c' :: s) d) with (last (c' :: s) d).
  change (last (c :: c' :: s) e) with (last (c' :: s) e).
  apply IH. discriminate.
Qed.

Lemma endsWith_last s c d : s <> [] -> endsWith c s = (last s d =? c).
Proof.
  intros Hne. destruct (exists_last Hne) as (u & e & ->).
  rewrite last_last. unfold endsWith. rewrite rev_app_distr. reflexivity.
Qed.

Lemma isLeadingPhrase_trimmed t :
  t <> [] -> trimmedText t -> last t colon = colon ->
  RowGenerator.isLeadingPhrase t = true.
Proof.
  intros Hne Ht Hl. unfold RowGenerator.isLeadingPhrase.
  rewrite (trim_of_trimmed t Ht).
  destruct t as [|c y]; [congruence|]. cbn [isEmptyString orb].
  rewrite (endsWith_last (c :: y) colon colon Hne), Hl. apply Z.eqb_refl.
Qed.

(** X7. A leading phrase that [getLeadingPhrase] returns is the text before
    the first colon of the remainder, trimmed and not empty, followed by that
    colon: it has no other colon.  [isLeadingPhrase] holds of it, also after
    the normalisation pass, and [hasLeadingPhrase] holds of the line. *)
Theorem X7_leading_phrase_shape (line p : jsstring) :
  LeadingPhraseDetector.getLeadingPhrase line = Some p ->
  exists q,
    p = q ++ [colon] /\ q <> [] /\ trimmedText q /\ ~ In colon q
    /\ RowGenerator.isLeadingPhrase p = true
    /\ RowGenerator.isLeadingPhrase (TextSplitter.collapseSpaces (trim p)) = true
    /\ LeadingPhraseDetector.hasLeadingPhrase line = true.
Proof.
  unfold LeadingPhraseDetector.getLeadingPhrase,
    LeadingPhraseDetector.hasLeadingPhrase.
  destruct (ClauseNumberDetector.detectClauseNumber line) as [d|];
    [|intros X; discriminate X].
  destruct (ClauseNumberDetector.getRemainder line) as [r|];
    [|intros X; discriminate X].
  destruct (negb (truthyN (Some r))); [intros X; discriminate X|].
  destruct (LeadingPhraseDetector.detectLeadingPhrase line (Some r)) as [l|] eqn:El;
    [|intros X; discriminate X].
  intros H; inversion H; subst p; clear H.
  destruct (detectLeadingPhrase_some line r l El)
    as (pre & post & Hr & Hn & Hq & Hp & _).
  assert (Htq : trimmedText (trim pre)) by apply trim_trimmedText.
  assert (Htp : trimmedText (trim pre ++ [colon])).
  { destruct (trim pre) as [|c y] eqn:E; [congruence|].
    destruct Htq as [Hc _]. split; [exact Hc|].
    change ((c :: y) ++ [colon]) with (c :: y ++ [colon]).
    change (c :: y ++ [colon]) with ((c :: y) ++ [colon]).
    now rewrite last_last. }
  assert (Hne : trim pre ++ [colon] <> []) by (destruct (trim pre); discriminate).
  exists (trim pre). rewrite Hp.
  split; [reflexivity|]. split; [exact Hq|]. split; [exact Htq|].
  split; [intros Hin; apply Hn; now apply incl_trim|].
  split; [apply isLeadingPhrase_trimmed; auto; apply last_last|].
  split; [|reflexivity].
  rewrite (trim_of_trimmed _ Htp).
  apply isLeadingPhrase_trimmed.
  - now apply collapse_nonempty.
  - now apply collapse_trimmed.
  - rewrite collapse_last. apply last_last.
Qed.

Lemma X7_leading_phrase_shape_witness :
  exists p q,
    LeadingPhraseDetector.getLeadingPhrase
      [49; period; space; 97; space; colon; space; 98] = Some p
    /\ p = q ++ [colon] /\ ~ In colon q
    /\ RowGenerator.isLeadingPhrase p = true.
Proof.
  destruct (LeadingPhraseDetector.getLeadingPhrase
              [49; period; space; 97; space; colon; space; 98])
    as [p|] eqn:Hp; [|vm_compute in Hp; discriminate Hp].
  destruct (X7_leading_phrase_shape _ p Hp) as (q & H1 & _ & _ & H4 & H5 & _).
  exists p, q. auto.
Defined.

(** ** Rows are made of the units of their line *)

Section UnitsOfLine.
Import ClauseNumberDetector LeadingPhraseDetector TextSplitter.

Lemma incl_orNull x r : orNull x = Some r -> r = x.
Proof. unfold orNull. destruct (isEmptyString x); congruence. Qed.

Lemma getRemainder_incl line r : getRemainder line = Some r -> incl r line.
Proof.
  intros H. unfold getRemainder in H.
  destruct (detectClauseNumber line) as [d|] eqn:Hd; [|discriminate H].
  destruct (X6_clause_and_remainder line d Hd) as (pre & rest & _ & _ & Hl & Hr).
  unfold getRemainder in Hr. rewrite Hd in Hr. rewrite Hr in H.
  apply incl_orNull in H. subst r.
  eapply incl_tran; [apply incl_trimStart|].
  eapply incl_tran; [|apply incl_trimStart]. rewrite Hl.
  now apply incl_appr, incl_refl.
Qed.

Lemma extractAmendmentSymbol_In x a :
  extractAmendmentSymbol x = Some a -> In a x.
Proof.
  unfold extractAmendmentSymbol.
  destruct (trimStart x) as [|c y] eqn:E; cbn [charAt0]; [discriminate|].
  destruct (existsb (Z.eqb c) amendmentSymbols); [|discriminate].
  intros H; inversion H; subst. apply incl_trimStart. rewrite E. now left.
Qed.

Lemma getClauseNumberRow_incl line t :
  getClauseNumberRow line = Some t -> incl t line.
Proof.
  unfold getClauseNumberRow.
  destruct (detectClauseNumber line) as [d|] eqn:Hd; [|discriminate].
  destruct (X6_clause_and_remainder line d Hd) as (pre & rest & _ & _ & Hl & _).
  assert (Hf : incl (fullClause d) line).
  { eapply incl_tran; [|apply incl_trimStart]. rewrite Hl.
    now apply incl_appl, incl_refl. }
  destruct (detect_pieces line d Hd) as (_ & _ & _ & _ & _ & _ & Ha & _).
  destruct (amendment d) as [a|] eqn:Ea; intros H; inversion H; subst; [|exact Hf].
  apply incl_cons; [|exact Hf].
  apply incl_trimStart. apply extractAmendmentSymbol_In. congruence.
Qed.

Lemma getLeadingPhrase_incl line p : getLeadingPhrase line = Some p -> incl p line.
Proof.
  unfold getLeadingPhrase.
  destruct (detectClauseNumber line) as [d|]; [|discriminate].
  destruct (getRemainder line) as [r|] eqn:Er; [|discriminate].
  destruct (negb (truthyN (Some r))); [discriminate|].
  destruct (detectLeadingPhrase line (Some r)) as [l|] eqn:El; [|discriminate].
  intros H; inversion H; subst p; clear H.
  destruct (detectLeadingPhrase_some line r l El) as (pre & post & Hr & _ & _ & Hp & _).
  rewrite Hp. eapply incl_tran; [|apply (getRemainder_incl line r Er)].
  rewrite Hr. apply incl_app.
  - eapply incl_tran; [apply incl_trim|]. now apply incl_appl, incl_refl.
  - intros c [<-|[]]. apply in_or_app. right. now left.
Qed.

Lemma getContentAfterPhrase_incl line c :
  getContentAfterPhrase line = Some c -> incl c line.
Proof.
  unfold getContentAfterPhrase.
  destruct (detectClauseNumber line) as [d|]; [|discriminate].
  destruct (getRemainder line) as [r|] eqn:Er; [|discriminate].
  destruct (negb (truthyN (Some r))); [discriminate|].
  destruct (detectLeadingPhrase line (Some r)) as [l|] eqn:El; [|discriminate].
  destruct (detectLeadingPhrase_some line r l El) as (pre & post & Hr & _ & _ & _ & Hc & _).
  destruct (hasContent l); [|discriminate]. rewrite Hc. intros H.
  apply incl_orNull in H. subst c.
  eapply incl_tran; [apply incl_trim|].
  eapply incl_tran; [|apply (getRemainder_incl line r Er)].
  rewrite Hr. apply incl_appr. now apply incl_tl, incl_refl.
Qed.

Lemma splitLine_incl line t : In (Some t) (splitLine line) -> incl t line.
Proof.
  unfold splitLine.
  destruct (detectClauseNumber line) as [d|].
  - destruct (truthyN (getLeadingPhrase line)).
    + destruct (truthyN (getContentAfterPhrase line)); simpl;
        intros [H|[H|H]];
        eauto using getClauseNumberRow_incl, getLeadingPhrase_incl,
          getContentAfterPhrase_incl;
        try (destruct H as [H|[]]; eauto using getContentAfterPhrase_incl);
        try (now destruct H).
    + destruct (truthyN (getRemainder line)); simpl;
        intros [H|H]; eauto using getClauseNumberRow_incl;
        try (destruct H as [H|[]]; eauto using getRemainder_incl);
        try (now destruct H).
  - destruct (isSubClause line); simpl; intros [H|[]]; inversion H;
      apply incl_refl.
Qed.

Lemma split_no_separator sep s : forall l, In l (split sep s) -> ~ In sep l.
Proof.
  induction s as [|c s IH]; simpl; intros l.
  - intros [<-|[]] [].
  - destruct (c =? sep) eqn:Hc.
    + intros [<-|H]; [intros []|now apply IH].
    + destruct (split sep s) as [|l0 ls] eqn:E.
      * intros [<-|[]] [H|[]]. apply Z.eqb_neq in Hc. congruence.
      * intros [<-|H].
        -- intros [H|H]; [apply Z.eqb_neq in Hc; congruence|].
           revert H. apply IH. now left.
        -- apply IH. now right.
Qed.

Lemma incl_collapse s : incl (collapseSpaces s) s.
Proof.
  induction s as [|c s IH]; simpl; [apply incl_refl|].
  destruct ((c =? space) && match s with d :: _ => d =? space | [] => false end).
  - now apply incl_tl.
  - apply incl_cons; [now left | now apply incl_tl].
Qed.

End UnitsOfLine.

(** X8. Every row [splitText] returns is a string made only of code units
    that occur in the line it was cut from; nothing else is put into a row.
    In particular no row holds a line feed. *)
Theorem X8_rows_from_line_units (s : jsstring) (rows : list nullable) :
  TextSplitter.splitText (Str s) = Normal rows ->
  Forall (fun entry =>
    exists t line,
      entry = Some t /\ In line (split newline s)
      /\ incl t line /\ ~ In newline t) rows.
Proof.
  destruct s as [|c s]; [intros H; inversion H; constructor|].
  rewrite splitText_string by discriminate.
  intros H; inversion H; subst; clear H.
  apply Forall_forall. intros entry Hin.
  apply in_flat_map in Hin as (line & Hline & Hin).
  pose proof (proj2 (splitLine_shape line)) as Hall.
  rewrite Forall_forall in Hall. specialize (Hall entry Hin).
  destruct entry as [t|]; [|now elim Hall].
  exists t, line. split; [reflexivity|]. split; [exact Hline|].
  pose proof (splitLine_incl line t Hin) as Hi.
  split; [exact Hi|].
  intros Hn. apply (split_no_separator newline (c :: s) line Hline). now apply Hi.
Qed.

Lemma X8_rows_from_line_units_witness :
  exists rows,
    TextSplitter.splitText (Str Scenario.amendmentLine) = Normal rows
    /\ Forall (fun entry =>
         exists t line,
           entry = Some t /\ In line (split newline Scenario.amendmentLine)
           /\ incl t line /\ ~ In newline t) rows.
Proof.
  eexists. split; [reflexivity|].
  apply (X8_rows_from_line_units Scenario.amendmentLine). reflexivity.
Defined.

(** ** The splitter without the guard *)



(** ** Counting clauses and leading phrases *)

Section Counting.
Import ClauseNumberDetector LeadingPhraseDetector TextSplitter.

Lemma pushClause_fold lines : forall acc,
  map detected (fold_left pushClause lines acc)
  = map detected acc ++ detections lines
  /\ (map lineNumber acc = map Z.of_nat (seq 0 (List.length acc)) ->
      map lineNumber (fold_left pushClause lines acc)
      = map Z.of_nat (seq 0 (List.length (fold_left pushClause lines acc)))).
Proof.
  induction lines as [|line lines IH]; intros acc.
  - simpl. rewrite app_nil_r. auto.
  - cbn [fold_left detections].
    destruct (detectClauseNumber line) as [d|] eqn:E.
    + assert (Hp : pushClause acc line
                   = acc ++ [{| lineNumber := Z.of_nat (List.length acc);
                                detected := d |}])
        by (unfold pushClause; now rewrite E).
      rewrite Hp.
      destruct (IH (acc ++ [{| lineNumber := Z.of_nat (List.length acc);
                               detected := d |}])) as [H1 H2].
      split.
      * rewrite H1, map_app. simpl. now rewrite <- app_assoc.
      * intros Hacc. apply H2.
        rewrite map_app, length_app. simpl. rewrite Nat.add_1_r.
        rewrite seq_S, map_app. simpl. now rewrite Hacc.
    + assert (Hp : pushClause acc line = acc)
        by (unfold pushClause; now rewrite E).
      rewrite Hp. apply IH.
Qed.

Lemma analyzeLine_counts lines : forall a b e,
  fst (fst (fold_left analyzeLine lines (a, b, e)))
  = a + countIf hasClauseNumber lines
  /\ snd (fst (fold_left analyzeLine lines (a, b, e)))
     = b + countIf (fun l => hasClauseNumber l && hasLeadingPhrase l) lines.
Proof.
  unfold countIf.
  induction lines as [|line lines IH]; intros a b e; [simpl; lia|].
  cbn [fold_left filter].
  destruct (analyzeLine (a, b, e) line) as [[a' b'] e'] eqn:E.
  destruct (IH a' b' e') as [H1 H2]. rewrite H1, H2.
  unfold analyzeLine in E.
  destruct (hasClauseNumber line);
    [destruct (hasLeadingPhrase line);
     [destruct (truthyN (getContentAfterPhrase line))|]|];
    inversion E; subst; cbn [andb List.length]; rewrite ?Nat2Z.inj_succ; lia.
Qed.

Lemma detections_count lines :
  Z.of_nat (List.length (detections lines)) = countIf hasClauseNumber lines.
Proof.
  unfold countIf, hasClauseNumber.
  induction lines as [|line lines IH]; [reflexivity|]. simpl.
  destruct (detectClauseNumber line); simpl; rewrite ?Nat2Z.inj_succ; lia.
Qed.


Lemma hasLeadingPhrase_getLeadingPhrase line :
  hasLeadingPhrase line = truthyN (getLeadingPhrase line).
Proof.
  destruct (truthyN (getLeadingPhrase line)) eqn:Ht.
  - now apply getLeadingPhrase_hasLeadingPhrase.
  - destruct (getLeadingPhrase line) as [p|] eqn:Ep.
    + destruct (X7_leading_phrase_shape line p Ep) as (q & -> & _).
      destruct q; discriminate Ht.
    + revert Ep. unfold getLeadingPhrase, hasLeadingPhrase.
      destruct (detectClauseNumber line); [|reflexivity].
      destruct (negb (truthyN (getRemainder line))); [reflexivity|].
      destruct (detectLeadingPhrase line (getRemainder line));
        [discriminate | reflexivity].
Qed.




End Counting.

(** X10. [extractAllClauseNumbers] returns the detections of the lines that
    have a clause number, in order.  Their [lineNumber] is their place in
    that list, 0, 1, 2, ..., not the index of the line in the text.  There
    are as many as [analyzeSplitting] counts in [clauseCount]. *)
Theorem X10_all_clause_numbers (s : jsstring) :
  s <> [] ->
  exists entries a,
    ClauseNumberDetector.extractAllClauseNumbers (Str s) = Normal entries
    /\ TextSplitter.analyzeSplitting (Str s) = Normal a
    /\ map ClauseNumberDetector.detected entries = detections (split newline s)
    /\ map ClauseNumberDetector.lineNumber entries
       = map Z.of_nat (seq 0 (List.length entries))
    /\ Z.of_nat (List.length entries) = TextSplitter.clauseCount a.
Proof.
  intros Hs. destruct s as [|c s]; [congruence|].
  destruct (pushClause_fold (split newline (c :: s)) []) as [H1 H2].
  cbn [map app List.length seq] in H1, H2.
  exists (fold_left ClauseNumberDetector.pushClause (split newline (c :: s)) []).
  unfold TextSplitter.analyzeSplitting.
  cbn [truthy isString isEmptyString negb orb].
  destruct (analyzeLine_counts (split newline (c :: s)) 0 0
              (Z.of_nat (List.length (split newline (c :: s))))) as [Hc _].
  destruct (fold_left TextSplitter.analyzeLine (split newline (c :: s))
              (0, 0, Z.of_nat (List.length (split newline (c :: s)))))
    as [[cc lc] e].
  eexists. split; [reflexivity|]. split; [reflexivity|].
  split; [exact H1|]. split; [now apply H2|].
  cbn [TextSplitter.clauseCount]. cbn [fst snd] in Hc.
  rewrite Hc, Z.add_0_l, <- detections_count, <- H1. now rewrite length_map.
Qed.

Lemma X10_all_clause_numbers_witness :
  Scenario.amendmentLine <> []
  /\ exists entries,
       ClauseNumberDetector.extractAllClauseNumbers (Str Scenario.amendmentLine)
       = Normal entries
       /\ map ClauseNumberDetector.lineNumber entries
          = map Z.of_nat (seq 0 (List.length entries)).
Proof.
  assert (H : Scenario.amendmentLine <> []) by discriminate.
  split; [exact H|].
  destruct (X10_all_clause_numbers Scenario.amendmentLine H)
    as (entries & a & H1 & _ & _ & H4 & _).
  exists entries. auto.
Defined.



(** ** How far the estimate is from the rows *)

Section EstimateGap.
Import ClauseNumberDetector LeadingPhraseDetector TextSplitter.

Lemma countIf_cons {A : Type} (p : A -> bool) x l :
  countIf p (x :: l) = (if p x then 1 else 0) + countIf p l.
Proof.
  unfold countIf. cbn [filter]. destruct (p x); cbn [List.length];
    rewrite ?Nat2Z.inj_succ; lia.
Qed.

Lemma countIf_le {A : Type} (p q : A -> bool) l :
  (forall x, p x = true -> q x = true) -> countIf p l <= countIf q l.
Proof.
  intros Hpq. induction l as [|x l IH]; [reflexivity|].
  rewrite !countIf_cons. specialize (Hpq x).
  destruct (p x) eqn:Hp; destruct (q x) eqn:Hq; lia.
Qed.

Lemma countIf_bounds {A : Type} (p : A -> bool) l :
  0 <= countIf p l <= Z.of_nat (List.length l).
Proof.
  induction l as [|x l IH]; [unfold countIf; simpl; lia|].
  rewrite countIf_cons. cbn [List.length]. rewrite Nat2Z.inj_succ.
  destruct (p x); lia.
Qed.

Lemma hasClauseNumber_nonblank line :
  hasClauseNumber line = true -> negb (isEmptyString (trim line)) = true.
Proof.
  unfold hasClauseNumber, detectClauseNumber.
  destruct (isEmptyString (trim line)); [|reflexivity].
  rewrite orb_true_r. discriminate.
Qed.

(** A line pushes at least what the estimator counts for it, less one when
    it has a clause number. *)
Lemma splitLine_estimate_gap line :
  1 + extraRows line - (if hasClauseNumber line then 1 else 0)
  <= Z.of_nat (List.length (splitLine line)).
Proof.
  unfold splitLine, extraRows.
  rewrite hasLeadingPhrase_getLeadingPhrase.
  unfold hasClauseNumber.
  destruct (detectClauseNumber line) as [d|].
  - destruct (truthyN (getLeadingPhrase line)).
    + destruct (truthyN (getContentAfterPhrase line)); simpl; lia.
    + destruct (truthyN (getRemainder line)); simpl; lia.
  - destruct (isSubClause line); simpl; lia.
Qed.

Lemma splitLines_estimate_gap lines :
  Z.of_nat (List.length lines) + sumExtra lines - countIf hasClauseNumber lines
  <= Z.of_nat (List.length (flat_map splitLine lines)).
Proof.
  induction lines as [|line lines IH]; [unfold countIf; simpl; lia|].
  rewrite countIf_cons.
  cbn [flat_map List.length sumExtra fold_right]. fold (sumExtra lines).
  rewrite length_app, Nat2Z.inj_add, Nat2Z.inj_succ.
  pose proof (splitLine_estimate_gap line). lia.
Qed.

Lemma extraRows_bounds line :
  0 <= extraRows line <= 3.
Proof.
  unfold extraRows.
  destruct (hasClauseNumber line); [|lia].
  destruct (hasLeadingPhrase line); [|lia].
  destruct (truthyN (getContentAfterPhrase line)); lia.
Qed.

Lemma sumExtra_bounds lines :
  0 <= sumExtra lines <= 3 * Z.of_nat (List.length lines).
Proof.
  induction lines as [|line lines IH]; [simpl; lia|].
  cbn [sumExtra fold_right List.length]. fold (sumExtra lines).
  rewrite Nat2Z.inj_succ. pose proof (extraRows_bounds line). lia.
Qed.

End EstimateGap.

(** X12. On a text that is not empty the counters of [analyzeSplitting] are
    ordered: leading phrases are at most the clauses, which are at most the
    lines that are not blank, which are at most the lines.  The estimate is at
    most four rows a line, and it is larger than the number of rows
    [splitText] returns by at most one for every clause. *)
Theorem X12_estimate_gap (s : jsstring) :
  s <> [] ->
  exists a rows blank,
    TextSplitter.analyzeSplitting (Str s) = Normal a
    /\ TextSplitter.splitText (Str s) = Normal rows
    /\ TextSplitter.nonEmptyLines a = Some blank
    /\ 0 <= TextSplitter.leadingPhraseCount a <= TextSplitter.clauseCount a
    /\ TextSplitter.clauseCount a <= blank <= TextSplitter.totalLines a
    /\ TextSplitter.estimatedRows a <= 4 * TextSplitter.totalLines a
    /\ TextSplitter.estimatedRows a - TextSplitter.clauseCount a
       <= Z.of_nat (List.length rows) <= TextSplitter.estimatedRows a.
Proof.
  intros Hs. destruct s as [|c s]; [congruence|].
  set (lines := split newline (c :: s)).
  pose proof (splitLines_estimate_gap lines) as Hgap.
  pose proof (splitLines_within_estimate lines) as Hup.
  pose proof (sumExtra_bounds lines) as Hsum.
  destruct (analyzeLine_counts lines 0 0 (Z.of_nat (List.length lines))) as [Hc Hl].
  pose proof (analyzeLine_estimate lines 0 0 (Z.of_nat (List.length lines))) as He.
  rewrite (splitText_string (c :: s)) by discriminate. fold lines.
  unfold TextSplitter.analyzeSplitting.
  cbn [truthy isString isEmptyString negb orb]. fold lines.
  destruct (fold_left TextSplitter.analyzeLine lines
              (0, 0, Z.of_nat (List.length lines))) as [[cc lc] e].
  cbn [fst snd] in Hc, Hl, He.
  eexists. eexists. eexists.
  split; [reflexivity|]. split; [reflexivity|]. split; [reflexivity|].
  cbn [TextSplitter.leadingPhraseCount TextSplitter.clauseCount
       TextSplitter.totalLines TextSplitter.estimatedRows].
  fold (countIf (fun l => negb (isEmptyString (trim l))) lines).
  pose proof (countIf_le
                (fun l => ClauseNumberDetector.hasClauseNumber l
                          && LeadingPhraseDetector.hasLeadingPhrase l)
                ClauseNumberDetector.hasClauseNumber lines) as H1.
  pose proof (countIf_le ClauseNumberDetector.hasClauseNumber
                (fun l => negb (isEmptyString (trim l))) lines
                hasClauseNumber_nonblank) as H2.
  pose proof (countIf_bounds
                (fun l => ClauseNumberDetector.hasClauseNumber l
                          && LeadingPhraseDetector.hasLeadingPhrase l) lines) as H3.
  pose proof (countIf_bounds (fun l => negb (isEmptyString (trim l))) lines) as H4.
  assert (H1' : forall x,
            ClauseNumberDetector.hasClauseNumber x
            && LeadingPhraseDetector.hasLeadingPhrase x = true ->
            ClauseNumberDetector.hasClauseNumber x = true)
    by (intros x Hx; now apply andb_prop in Hx as [Hx _]).
  specialize (H1 H1').
  repeat split; lia.
Qed.

Lemma X12_estimate_gap_witness :
  Scenario.amendmentLine <> []
  /\ exists a rows,
       TextSplitter.analyzeSplitting (Str Scenario.amendmentLine) = Normal a
       /\ TextSplitter.splitText (Str Scenario.amendmentLine) = Normal rows
       /\ TextSplitter.estimatedRows a - TextSplitter.clauseCount a
          <= Z.of_nat (List.length rows) <= TextSplitter.estimatedRows a.
Proof.
  assert (H : Scenario.amendmentLine <> []) by discriminate.
  split; [exact H|].
  destruct (X12_estimate_gap Scenario.amendmentLine H)
    as (a & rows & blank & H1 & H2 & _ & _ & _ & _ & H7).
  exists a, rows. auto.
Defined.

(** ** The Devanagari tables *)

Section Tables.
Import DevanagariParser.

Lemma unitRange_all (P : Z -> bool) lo n :
  forallb P (unitRange lo n) = true ->
  forall c, lo <= c < lo + Z.of_nat n -> P c = true.
Proof.
  intros H c Hc. rewrite forallb_forall in H. apply H.
  unfold unitRange. apply in_map_iff. exists (Z.to_nat (c - lo)). split; [lia|].
  apply in_seq. lia.
Qed.

Lemma lookup_None table c : ~ In c (map fst table) -> lookup table c = None.
Proof.
  induction table as [|[k v] table IH]; simpl; [reflexivity|].
  intros H. destruct (k =? c) eqn:E.
  - apply Z.eqb_eq in E. exfalso. apply H. now left.
  - apply IH. intros Hin. apply H. now right.
Qed.

Lemma digit_table c :
  isDevanagariDigit c = true -> lookup devanagariDigits c = Some (c - 2358).
Proof.
  intros H.
  assert (Hr : 2406 <= c < 2406 + Z.of_nat 10) by class_solve.
  assert (G := unitRange_all
                 (fun c => match lookup devanagariDigits c with
                           | Some v => v =? c - 2358
                           | None => false
                           end) 2406 10 eq_refl c Hr).
  cbv beta in G.
  destruct (lookup devanagariDigits c) as [v|]; [|discriminate G].
  apply Z.eqb_eq in G. now subst.
Qed.

Lemma digit_table_none c :
  isDevanagariDigit c = false -> lookup devanagariDigits c = None.
Proof.
  intros H. apply lookup_None. simpl. intros Hin.
  assert (Hc : isDevanagariDigit c = true).
  { unfold isDevanagariDigit.
    repeat (destruct Hin as [<-|Hin]; [reflexivity|]). destruct Hin. }
  congruence.
Qed.

Lemma letter_table c :
  isDevanagariLetter c = true -> c <> unmappedLetter ->
  exists v, lookup devanagariLetters c = Some v /\ isLower v = true
            /\ existsb (Z.eqb c) devanagariLetterKeys = true.
Proof.
  intros H Hc.
  assert (Hr : 2325 <= c < 2325 + Z.of_nat 27) by class_solve.
  assert (G := unitRange_all
                 (fun c => (c =? unmappedLetter)
                           || match lookup devanagariLetters c with
                              | Some v => isLower v
                                          && existsb (Z.eqb c) devanagariLetterKeys
                              | None => false
                              end) 2325 27 eq_refl c Hr).
  cbv beta in G.
  apply Z.eqb_neq in Hc. rewrite Hc in G. cbn [orb] in G.
  destruct (lookup devanagariLetters c) as [v|]; [|discriminate G].
  apply andb_prop in G as [G1 G2]. eauto.
Qed.

Lemma letter_keys_range c :
  existsb (Z.eqb c) devanagariLetterKeys = true ->
  isDevanagariLetter c = true /\ c <> unmappedLetter.
Proof.
  intros H. apply existsb_exists in H as (k & Hin & Hk).
  apply Z.eqb_eq in Hk. subst k. simpl in Hin.
  repeat (destruct Hin as [<-|Hin]; [split; [reflexivity | discriminate]|]).
  destruct Hin.
Qed.

Lemma letter_table_none c :
  isDevanagariLetter c = false -> lookup devanagariLetters c = None.
Proof.
  intros H. apply lookup_None. simpl. intros Hin.
  assert (Hc : isDevanagariLetter c = true).
  { unfold isDevanagariLetter.
    repeat (destruct Hin as [<-|Hin]; [reflexivity|]). destruct Hin. }
  congruence.
Qed.

End Tables.

(** ** Converting Devanagari numerals *)

Section Conversion.
Import DevanagariParser.

Lemma convert_unit c :
  match lookup devanagariDigits c with Some digit => digit | None => c end
  = if isDevanagariDigit c then c - 2358 else c.
Proof.
  destruct (isDevanagariDigit c) eqn:E.
  - now rewrite (digit_table c E).
  - now rewrite (digit_table_none c E).
Qed.

Lemma convert_map s :
  convertDevanagariToEnglish s
  = map (fun c => if isDevanagariDigit c then c - 2358 else c) s.
Proof. unfold convertDevanagariToEnglish. apply map_ext, convert_unit. Qed.

Lemma converted_unit_plain c :
  isDevanagariDigit (if isDevanagariDigit c then c - 2358 else c) = false.
Proof.
  destruct (isDevanagariDigit c) eqn:E; [|exact E]. class_solve.
Qed.

End Conversion.

(** X13. [convertDevanagariToEnglish] works unit by unit: the length stays,
    every Devanagari digit becomes the ASCII digit of the same value and every
    other unit stays as it is.  So no Devanagari digit is left, converting
    twice is converting once, a string of Devanagari digits becomes a string
    of ASCII digits, and a string without Devanagari digits is unchanged. *)
Theorem X13_convert_digits (s : jsstring) :
  DevanagariParser.convertDevanagariToEnglish s
  = map (fun c => if isDevanagariDigit c then c - 2406 + 48 else c) s
  /\ List.length (DevanagariParser.convertDevanagariToEnglish s) = List.length s
  /\ DevanagariParser.hasDevanagariDigits
       (DevanagariParser.convertDevanagariToEnglish s) = false
  /\ DevanagariParser.convertDevanagariToEnglish
       (DevanagariParser.convertDevanagariToEnglish s)
     = DevanagariParser.convertDevanagariToEnglish s
  /\ (forallb isDevanagariDigit s = true ->
      forallb isDigit (DevanagariParser.convertDevanagariToEnglish s) = true)
  /\ (DevanagariParser.hasDevanagariDigits s = false ->
      DevanagariParser.convertDevanagariToEnglish s = s).
Proof.
  rewrite !convert_map. split; [|split; [|split; [|split; [|split]]]].
  - apply map_ext. intros c. destruct (isDevanagariDigit c); [lia | reflexivity].
  - apply length_map.
  - unfold DevanagariParser.hasDevanagariDigits, testClass.
    apply not_true_iff_false. intros H.
    apply existsb_exists in H as (c & Hin & Hc).
    apply in_map_iff in Hin as (c0 & <- & _).
    now rewrite converted_unit_plain in Hc.
  - rewrite map_map. apply map_ext. intros c.
    now rewrite converted_unit_plain.
  - intros H. rewrite forallb_forall in *. intros c Hin.
    apply in_map_iff in Hin as (c0 & <- & Hin0).
    specialize (H c0 Hin0). rewrite H. class_solve.
  - unfold DevanagariParser.hasDevanagariDigits, testClass. intros H.
    rewrite <- (map_id s) at 2. apply map_ext_in. intros c Hin.
    destruct (isDevanagariDigit c) eqn:E; [|reflexivity].
    assert (X : existsb isDevanagariDigit s = true)
      by (apply existsb_exists; eauto).
    congruence.
Qed.

Lemma X13_convert_digits_witness :
  forallb isDevanagariDigit [2407; 2412] = true
  /\ forallb isDigit (DevanagariParser.convertDevanagariToEnglish [2407; 2412]) = true.
Proof.
  assert (H : forallb isDevanagariDigit [2407; 2412] = true) by reflexivity.
  split; [exact H|].
  exact (proj1 (proj2 (proj2 (proj2 (proj2 (X13_convert_digits [2407; 2412])))))
           H).
Defined.

(** ** The English equivalent of a Devanagari numeral *)

Section Equivalent.
Import DevanagariParser.

Let equivalentUnit (char : Z) : Z :=
  match lookup devanagariDigits char with
  | Some digit => digit
  | None =>
      match lookup devanagariLetters char with
      | Some letter => letter
      | None => char
      end
  end.

Lemma equivalent_digit c :
  isDevanagariDigit c = true -> isDigit (equivalentUnit c) = true.
Proof.
  intros H. unfold equivalentUnit. rewrite (digit_table c H). class_solve.
Qed.

Lemma equivalent_letter c :
  isDevanagariLetter c = true -> c <> unmappedLetter ->
  isLower (equivalentUnit c) = true.
Proof.
  intros H Hc. unfold equivalentUnit.
  rewrite digit_table_none by class_solve.
  destruct (letter_table c H Hc) as (v & -> & Hv & _). exact Hv.
Qed.

Lemma equivalent_other c :
  isDevanagariDigit c = false -> isDevanagariLetter c = false ->
  equivalentUnit c = c.
Proof.
  intros Hd Hl. unfold equivalentUnit.
  now rewrite digit_table_none, letter_table_none.
Qed.

Lemma equivalent_symbol c : isSymbol c = true -> equivalentUnit c = c.
Proof. intros H. apply equivalent_other; class_solve. Qed.

Lemma rowShape_units u c :
  rowShape isDigit isLower u -> In c u ->
  isSymbol c || isDigit c || isLower c || isPeriod c = true.
Proof.
  intros (sym & digits & suffix & dot & -> & Hsym & _ & Hdig & Hsuf & Hdot) Hin.
  rewrite forallb_forall in Hdig.
  rewrite !in_app_iff in Hin. destruct Hin as [Hin|[Hin|[Hin|Hin]]].
  - destruct Hsym as [->|(x & -> & Hx)]; [destruct Hin|].
    destruct Hin as [<-|[]]. now rewrite Hx.
  - rewrite (Hdig c Hin). now rewrite orb_true_r.
  - destruct Hsuf as [->|(x & -> & Hx)]; [destruct Hin|].
    destruct Hin as [<-|[]]. rewrite Hx. now rewrite orb_true_r.
  - destruct Hdot as [->| ->]; [destruct Hin|].
    destruct Hin as [<-|[]]. now rewrite !orb_true_r.
Qed.

Lemma equivalent_rowShape t :
  rowShape isDevanagariDigit isDevanagariLetter t ->
  (rowShape isDigit isLower (getEnglishEquivalent t) <-> ~ In unmappedLetter t).
Proof.
  intros Ht. change (getEnglishEquivalent t) with (map equivalentUnit t). split.
  - intros He Hin.
    apply (in_map equivalentUnit) in Hin.
    apply (rowShape_units _ _ He) in Hin. discriminate Hin.
  - intros Hno.
    destruct Ht as (sym & digits & suffix & dot & -> & Hsym & Hne & Hdig & Hsuf
                    & Hdot).
    exists (map equivalentUnit sym), (map equivalentUnit digits),
      (map equivalentUnit suffix), (map equivalentUnit dot).
    rewrite !map_app. split; [reflexivity|].
    split; [|split; [|split; [|split]]].
    + destruct Hsym as [->|(x & -> & Hx)]; [now left|right].
      exists x. cbn [map]. now rewrite (equivalent_symbol x Hx).
    + destruct digits; [congruence | discriminate].
    + rewrite forallb_forall in *. intros c Hin.
      apply in_map_iff in Hin as (c0 & <- & Hin0).
      now apply equivalent_digit, Hdig.
    + destruct Hsuf as [->|(x & -> & Hx)]; [now left|right].
      exists (equivalentUnit x). split; [reflexivity|].
      apply equivalent_letter; [exact Hx|].
      intros ->. apply Hno. rewrite !in_app_iff. right. right. left. now left.
    + destruct Hdot as [->| ->]; [now left | now right].
Qed.

End Equivalent.

(** X14. For a text that [isClauseNumber]'s Devanagari pattern accepts,
    [getEnglishEquivalent] keeps the length, and its result is accepted by
    the English pattern exactly when the text does not hold U+0929: that
    letter is in the suffix range of the pattern but is not a key of
    [devanagariLetters], so it is left as it is. *)
Theorem X14_english_equivalent_row (t : jsstring) :
  Regex.test RowGenerator.devanagariRowPattern t = true ->
  List.length (DevanagariParser.getEnglishEquivalent t) = List.length t
  /\ (Regex.test RowGenerator.englishRowPattern
        (DevanagariParser.getEnglishEquivalent t) = true
      <-> ~ In unmappedLetter t).
Proof.
  intros H. split; [apply length_map|].
  unfold RowGenerator.englishRowPattern, RowGenerator.devanagariRowPattern in *.
  rewrite rowPattern_iff in *. now apply equivalent_rowShape.
Qed.

Lemma X14_english_equivalent_row_witness :
  Regex.test RowGenerator.devanagariRowPattern [asterisk; 2407; 2412; 2325; period]
  = true
  /\ Regex.test RowGenerator.englishRowPattern
       (DevanagariParser.getEnglishEquivalent [asterisk; 2407; 2412; 2325; period])
     = true.
Proof.
  assert (H : Regex.test RowGenerator.devanagariRowPattern
                [asterisk; 2407; 2412; 2325; period] = true) by reflexivity.
  split; [exact H|].
  apply (proj2 (X14_english_equivalent_row _ H)).
  vm_compute. intros [X|[X|[X|[X|[X|[]]]]]]; discriminate X.
Defined.

(** ** The type of a clause *)

Section ClauseType.
Import ClauseNumberDetector.

Lemma numeral_group (p1 p2 pd pl p5 p6 : Z -> bool) ms :
  pieces [(Regex.Opt, p1); (Regex.Star, p2); (Regex.Plus, pd); (Regex.Opt, pl);
          (Regex.Star, p5); (Regex.One, p6)] ms ->
  exists digits suffix,
    Regex.group 2 2 ms = digits ++ suffix
    /\ digits <> [] /\ forallb pd digits = true
    /\ (suffix = [] \/ exists c, suffix = [c] /\ pl c = true).
Proof.
  intros Hps. unfold pieces in Hps.
  inversion Hps as [|i1 a r1 ms1 Ha Hps1]; subst.
  inversion Hps1 as [|i2 b r2 ms2 Hb Hps2]; subst.
  inversion Hps2 as [|i3 g r3 ms3 Hg Hps3]; subst.
  inversion Hps3 as [|i4 h r4 ms4 Hh Hps4]; subst.
  exists g, h. apply pieceOk_plus_iff in Hg as [Hne Hg].
  apply pieceOk_opt_iff in Hh.
  split; [|auto]. unfold Regex.group. cbn [skipn firstn List.concat].
  now rewrite app_nil_r.
Qed.

Lemma digits_no_letter digits :
  forallb isDigit digits = true -> existsb isLetter digits = false.
Proof.
  intros H. apply not_true_iff_false. intros E.
  apply existsb_exists in E as (c & Hin & Hc).
  rewrite forallb_forall in H. specialize (H c Hin). class_solve.
Qed.

Lemma english_hasAlpha digits suffix :
  forallb isDigit digits = true ->
  suffix = [] \/ (exists c, suffix = [c] /\ isLetter c = true) ->
  testClass isLetter (digits ++ suffix) = true
  <-> exists c, suffix = [c] /\ c <> unmappedLetter.
Proof.
  intros Hd Hs. unfold testClass.
  rewrite existsb_app, (digits_no_letter digits Hd). cbn [orb].
  destruct Hs as [->|(c & -> & Hc)].
  - split; [discriminate|]. intros (c & X & _). discriminate X.
  - cbn [existsb]. rewrite Hc. split; [|reflexivity].
    intros _. exists c. split; [reflexivity|]. intros ->. discriminate Hc.
Qed.

Lemma devanagari_hasAlpha digits suffix :
  digits <> [] -> forallb isDevanagariDigit digits = true ->
  suffix = [] \/ (exists c, suffix = [c] /\ isDevanagariLetter c = true) ->
  DevanagariParser.isAlphaNumeric (digits ++ suffix) = true
  <-> exists c, suffix = [c] /\ c <> unmappedLetter.
Proof.
  intros Hne Hd Hs.
  unfold DevanagariParser.isAlphaNumeric, DevanagariParser.extractDevanagariLetter.
  rewrite rev_app_distr.
  destruct Hs as [->|(c & -> & Hc)].
  - cbn [rev app].
    destruct (rev digits) as [|lastChar r] eqn:E.
    + split; [discriminate|]. intros (c & X & _). discriminate X.
    + assert (Hl : isDevanagariDigit lastChar = true).
      { rewrite forallb_forall in Hd. apply Hd, in_rev. rewrite E. now left. }
      destruct (existsb (Z.eqb lastChar) DevanagariParser.devanagariLetterKeys)
        eqn:K.
      * apply letter_keys_range in K as [K _]. class_solve.
      * split; [discriminate|]. intros (c & X & _). discriminate X.
  - cbn [rev app].
    destruct (existsb (Z.eqb c) DevanagariParser.devanagariLetterKeys) eqn:K.
    + apply letter_keys_range in K as [_ K].
      split; [|reflexivity]. intros _. exists c. auto.
    + split; [discriminate|]. intros (x & X & Hx). exfalso.
      injection X as <-.
      destruct (letter_table c Hc Hx) as (_ & _ & _ & K'). congruence.
Qed.

End ClauseType.

(** X15. The number of a detected clause is a run of digits and at most one
    suffix letter.  [hasAlpha] is set exactly when there is a suffix letter
    other than U+0929 (which the Devanagari pattern accepts but
    [isAlphaNumeric] does not know).  [isAmendmentClause] holds exactly when
    [hasAlpha] is set or an amendment symbol was found, and [getClauseType]
    answers amendment in that case and regular otherwise. *)
Theorem X15_clause_type (line : jsstring) (d : ClauseNumberDetector.detection) :
  ClauseNumberDetector.detectClauseNumber line = Some d ->
  exists digits suffix,
    ClauseNumberDetector.baseNumber d = digits ++ suffix
    /\ digits <> []
    /\ forallb isAnyDigit digits = true
    /\ (suffix = [] \/ exists c, suffix = [c] /\ isAnyLetter c = true)
    /\ (ClauseNumberDetector.hasAlpha d = true
        <-> exists c, suffix = [c] /\ c <> unmappedLetter)
    /\ (ClauseNumberDetector.isAmendmentClause line = true
        <-> (exists c, suffix = [c] /\ c <> unmappedLetter)
            \/ exists sym, ClauseNumberDetector.amendment d = Some sym)
    /\ ClauseNumberDetector.getClauseType line
       = Some (if ClauseNumberDetector.isAmendmentClause line
               then ClauseNumberDetector.amendmentType
               else ClauseNumberDetector.regularType).
Proof.
  intros Hd.
  destruct (detect_pieces line d Hd)
    as (ms & tl & _ & _ & _ & Hbase & _ & Hlang).
  assert (Halpha : exists digits suffix,
             ClauseNumberDetector.baseNumber d = digits ++ suffix
             /\ digits <> []
             /\ forallb isAnyDigit digits = true
             /\ (suffix = [] \/ exists c, suffix = [c] /\ isAnyLetter c = true)
             /\ (ClauseNumberDetector.hasAlpha d = true
                 <-> exists c, suffix = [c] /\ c <> unmappedLetter)).
  { destruct Hlang as [(_ & Hps & Ha)|(_ & Hps & Ha)].
    - destruct (numeral_group _ _ _ _ _ _ ms Hps)
        as (digits & suffix & Hg & Hne & Hdig & Hsuf).
      exists digits, suffix. rewrite Hbase, Ha, Hg.
      split; [reflexivity|]. split; [exact Hne|].
      split.
      { rewrite forallb_forall in *. intros c Hin. unfold isAnyDigit.
        now rewrite (Hdig c Hin). }
      split.
      { destruct Hsuf as [->|(c & -> & Hc)]; [now left|right].
        exists c. split; [reflexivity|]. unfold isAnyLetter. now rewrite Hc. }
      now apply english_hasAlpha.
    - destruct (numeral_group _ _ _ _ _ _ ms Hps)
        as (digits & suffix & Hg & Hne & Hdig & Hsuf).
      exists digits, suffix. rewrite Hbase, Ha, Hg.
      split; [reflexivity|]. split; [exact Hne|].
      split.
      { rewrite forallb_forall in *. intros c Hin. unfold isAnyDigit.
        rewrite (Hdig c Hin). apply orb_true_r. }
      split.
      { destruct Hsuf as [->|(c & -> & Hc)]; [now left|right].
        exists c. split; [reflexivity|]. unfold isAnyLetter. rewrite Hc.
        apply orb_true_r. }
      now apply devanagari_hasAlpha. }
  destruct Halpha as (digits & suffix & H1 & H2 & H3 & H4 & H5).
  exists digits, suffix.
  split; [exact H1|]. split; [exact H2|]. split; [exact H3|].
  split; [exact H4|]. split; [exact H5|].
  unfold ClauseNumberDetector.isAmendmentClause,
    ClauseNumberDetector.getClauseType.
  rewrite Hd. split.
  - rewrite orb_true_iff, H5.
    destruct (ClauseNumberDetector.amendment d) as [sym|].
    + split; intros _; right; [exists sym|]; reflexivity.
    + split; (intros [H|H]; [now left|]).
      * discriminate H.
      * destruct H as (sym & X). discriminate X.
  - destruct (ClauseNumberDetector.hasAlpha d
              || match ClauseNumberDetector.amendment d with
                 | Some _ => true
                 | None => false
                 end); reflexivity.
Qed.

Lemma X15_clause_type_witness :
  exists d,
    ClauseNumberDetector.detectClauseNumber Scenario.amendmentLine = Some d
    /\ ClauseNumberDetector.getClauseType Scenario.amendmentLine
       = Some ClauseNumberDetector.amendmentType.
Proof.
  destruct (ClauseNumberDetector.detectClauseNumber Scenario.amendmentLine)
    as [d|] eqn:H; [|vm_compute in H; discriminate H].
  exists d. split; [reflexivity|].
  destruct (X15_clause_type _ d H) as (digits & suffix & _ & _ & _ & _ & _ & _ & G).
  rewrite G. reflexivity.
Defined.

(** ** Cleaning extracted text *)

Section Cleaning.
Import TextExtractor.

Lemma replaceCRLF_length_pair s :
  (List.length (replaceCRLF s) <= List.length s)%nat
  /\ forall c, (List.length (replaceCRLF (c :: s)) <= S (List.length s))%nat.
Proof.
  induction s as [|d s [IH1 IH2]].
  - split; [apply le_n|]. intros c. cbn [replaceCRLF].
    destruct (c =? carriageReturn); apply le_n.
  - split; [apply IH2|]. intros c.
    change (replaceCRLF (c :: d :: s))
      with (if c =? carriageReturn
            then if d =? newline then newline :: replaceCRLF s
                 else c :: replaceCRLF (d :: s)
            else c :: replaceCRLF (d :: s)).
    specialize (IH2 d).
    destruct (c =? carriageReturn); [destruct (d =? newline)|];
      cbn [List.length] in *; lia.
Qed.

Lemma replaceCRLF_clean s : ~ In carriageReturn s -> replaceCRLF s = s.
Proof.
  induction s as [|c s IH]; [reflexivity|]. intros H. cbn [replaceCRLF].
  assert (Hc : (c =? carriageReturn) = false).
  { apply Z.eqb_neq. intros ->. apply H. now left. }
  rewrite Hc, IH; [reflexivity|]. intros Hin. apply H. now right.
Qed.

Lemma replaceCR_clean s : ~ In carriageReturn s -> replaceCR s = s.
Proof.
  intros H. unfold replaceCR. rewrite <- (map_id s) at 2.
  apply map_ext_in. intros c Hin.
  destruct (c =? carriageReturn) eqn:E; [|reflexivity].
  apply Z.eqb_eq in E. subst. contradiction.
Qed.

Lemma replaceCR_no_return s : ~ In carriageReturn (replaceCR s).
Proof.
  unfold replaceCR. intros H. apply in_map_iff in H as (c & Hc & _).
  destruct (c =? carriageReturn) eqn:E; [discriminate Hc|].
  apply Z.eqb_neq in E. congruence.
Qed.

Lemma normalizeLineEndings_clean s :
  ~ In carriageReturn s -> normalizeLineEndings s = s.
Proof.
  intros H. unfold normalizeLineEndings.
  now rewrite (replaceCRLF_clean s H), replaceCR_clean.
Qed.

Lemma cleanText_no_return t : ~ In carriageReturn (cleanText t).
Proof.
  unfold cleanText. destruct (isEmptyString t); [intros []|].
  apply replaceCR_no_return.
Qed.

Lemma cleanText_clean t :
  ~ In carriageReturn t -> charAt0 t <> Some byteOrderMark -> cleanText t = t.
Proof.
  intros Hr Hb. destruct t as [|c t]; [reflexivity|].
  unfold cleanText. cbn [isEmptyString].
  assert (Hc : (c =? byteOrderMark) = false).
  { apply Z.eqb_neq. intros ->. now apply Hb. }
  rewrite Hc. now apply normalizeLineEndings_clean.
Qed.

End Cleaning.

(** X16. [cleanText] leaves no carriage return and never makes the text
    longer; of a leading byte order mark it drops one, the first.  A text
    with no carriage return and no leading byte order mark is returned as it
    is, so cleaning a cleaned text changes nothing unless the first cleaning
    uncovered a second byte order mark. *)
Theorem X16_cleanText_settled (t : jsstring) :
  ~ In carriageReturn (TextExtractor.cleanText t)
  /\ (List.length (TextExtractor.cleanText t) <= List.length t)%nat
  /\ TextExtractor.cleanText (byteOrderMark :: t)
     = TextExtractor.normalizeLineEndings t
  /\ (~ In carriageReturn t -> charAt0 t <> Some byteOrderMark ->
      TextExtractor.cleanText t = t)
  /\ (charAt0 (TextExtractor.cleanText t) <> Some byteOrderMark ->
      TextExtractor.cleanText (TextExtractor.cleanText t)
      = TextExtractor.cleanText t).
Proof.
  split; [apply cleanText_no_return|].
  split.
  { unfold TextExtractor.cleanText. destruct t as [|c t]; [apply le_n|].
    cbn [isEmptyString]. unfold TextExtractor.normalizeLineEndings,
      TextExtractor.replaceCR.
    rewrite length_map.
    destruct (c =? byteOrderMark).
    - etransitivity; [apply replaceCRLF_length_pair|]. cbn [List.length]. lia.
    - apply (proj2 (replaceCRLF_length_pair t) c). }
  split; [reflexivity|].
  split; [apply cleanText_clean|].
  intros H. apply cleanText_clean; [apply cleanText_no_return | exact H].
Qed.

Lemma X16_cleanText_settled_witness :
  TextExtractor.cleanText (TextExtractor.cleanText
    (byteOrderMark :: Scenario.loneReturn))
  = TextExtractor.cleanText (byteOrderMark :: Scenario.loneReturn).
Proof.
  apply (proj2 (proj2 (proj2 (proj2
    (X16_cleanText_settled (byteOrderMark :: Scenario.loneReturn)))))).
  vm_compute. intros X. discriminate X.
Defined.

(** ** Rows as lines of text *)

Section Lines.

Lemma split_clean sep x : ~ In sep x -> split sep x = [x].
Proof.
  induction x as [|c x IH]; [reflexivity|]. intros H. cbn [split].
  assert (Hc : (c =? sep) = false).
  { apply Z.eqb_neq. intros ->. apply H. now left. }
  rewrite Hc, IH; [reflexivity|]. intros Hin. apply H. now right.
Qed.

Lemma split_app_sep sep x w :
  ~ In sep x -> split sep (x ++ sep :: w) = x :: split sep w.
Proof.
  induction x as [|c x IH]; intros H.
  - cbn [app split]. now rewrite Z.eqb_refl.
  - cbn [app split].
    assert (Hc : (c =? sep) = false).
    { apply Z.eqb_neq. intros ->. apply H. now left. }
    rewrite Hc, IH; [reflexivity|]. intros Hin. apply H. now right.
Qed.

Lemma split_join sep ls :
  ls <> [] -> Forall (fun l => ~ In sep l) ls ->
  split sep (join [sep] ls) = ls.
Proof.
  induction ls as [|x rest IH]; [congruence|]. intros _ Hall.
  inversion Hall as [|? ? Hx Hrest]; subst.
  destruct rest as [|y rest].
  - cbn [join]. now apply split_clean.
  - change (join [sep] (x :: y :: rest))
      with (x ++ sep :: join [sep] (y :: rest)).
    rewrite (split_app_sep sep x _ Hx), IH; [reflexivity | discriminate | exact Hrest].
Qed.

Lemma lit_cons a s :
  lit (String.String a s) = Z.of_N (Ascii.N_of_ascii a) :: lit s.
Proof. reflexivity. Qed.

Lemma decimal_units d :
  forallb (fun c => isDigit c || (c =? 45))
    (lit (DecimalString.NilEmpty.string_of_uint d)) = true.
Proof. induction d; cbn; auto. Qed.

Lemma numberToString_units n :
  forallb (fun c => isDigit c || (c =? 45)) (numberToString n) = true.
Proof.
  unfold numberToString.
  assert (Hu : forall d,
             forallb (fun c => isDigit c || (c =? 45))
               (lit (DecimalString.NilZero.string_of_uint d)) = true).
  { intros d. destruct d; try apply decimal_units. reflexivity. }
  destruct (Z.to_int n) as [d|d]; cbn [DecimalString.NilZero.string_of_int].
  - apply Hu.
  - rewrite lit_cons. cbn [forallb]. rewrite Hu. reflexivity.
Qed.

Lemma numberToString_without c n :
  isDigit c = false -> c <> 45 -> ~ In c (numberToString n).
Proof.
  intros Hd Hc Hin.
  pose proof (numberToString_units n) as H. rewrite forallb_forall in H.
  specialize (H c Hin). rewrite Hd in H. cbn [orb] in H.
  apply Z.eqb_eq in H. contradiction.
Qed.

Lemma replaceUnit_without x c by_ s :
  ~ In x by_ -> (x <> c -> ~ In x s) -> ~ In x (replaceUnit c by_ s).
Proof.
  intros Hby Hs Hin. unfold replaceUnit in Hin.
  apply in_flat_map in Hin as (d & Hd & Hin).
  destruct (d =? c) eqn:E; [contradiction|].
  destruct Hin as [<-|[]]. apply Z.eqb_neq in E. now apply (Hs E).
Qed.

Lemma replaceUnit_clean c by_ s : ~ In c s -> replaceUnit c by_ s = s.
Proof.
  induction s as [|d s IH]; [reflexivity|]. intros H.
  unfold replaceUnit in *. cbn [flat_map].
  assert (Hd : (d =? c) = false).
  { apply Z.eqb_neq. intros ->. apply H. now left. }
  rewrite Hd, IH; [reflexivity|]. intros Hin. apply H. now right.
Qed.

Lemma replaceUnit_keeps x c by_ s :
  In x s -> (x = c -> In x by_) -> In x (replaceUnit c by_ s).
Proof.
  intros Hin Hby. unfold replaceUnit. apply in_flat_map. exists x.
  split; [exact Hin|]. destruct (x =? c) eqn:E.
  - apply Z.eqb_eq in E. auto.
  - now left.
Qed.

Lemma replaceUnit_cons c by_ d s :
  replaceUnit c by_ (d :: s) = (if d =? c then by_ else [d]) ++ replaceUnit c by_ s.
Proof. reflexivity. Qed.

Lemma replaceUnit_app c by_ s1 s2 :
  replaceUnit c by_ (s1 ++ s2) = replaceUnit c by_ s1 ++ replaceUnit c by_ s2.
Proof. apply flat_map_app. Qed.

Lemma halveQuotes_quotes x : halveQuotes (34 :: 34 :: x) = 34 :: halveQuotes x.
Proof. reflexivity. Qed.

Lemma halveQuotes_other c x : c <> 34 -> halveQuotes (c :: x) = c :: halveQuotes x.
Proof.
  intros H. apply Z.eqb_neq in H. cbn [halveQuotes]. now rewrite H.
Qed.

Lemma halveQuotes_doubled s :
  halveQuotes (replaceUnit ExportHandler.quote
                 [ExportHandler.quote; ExportHandler.quote] s) = s.
Proof.
  induction s as [|c s IH]; [reflexivity|].
  rewrite replaceUnit_cons. unfold ExportHandler.quote in *.
  destruct (c =? 34) eqn:E.
  - apply Z.eqb_eq in E. subst c. cbn [app].
    now rewrite halveQuotes_quotes, IH.
  - apply Z.eqb_neq in E. cbn [app]. now rewrite halveQuotes_other, IH.
Qed.

Lemma halveQuotes_escaped s :
  halveQuotes
    (replaceUnit carriageReturn ExportHandler.backslashR
       (replaceUnit newline ExportHandler.backslashN
          (replaceUnit ExportHandler.quote
             [ExportHandler.quote; ExportHandler.quote] s)))
  = replaceUnit carriageReturn ExportHandler.backslashR
      (replaceUnit newline ExportHandler.backslashN s).
Proof.
  induction s as [|c s IH]; [reflexivity|].
  rewrite !replaceUnit_cons, !replaceUnit_app.
  unfold ExportHandler.quote, ExportHandler.backslashN, ExportHandler.backslashR,
    newline, carriageReturn in *.
  destruct (c =? 34) eqn:Eq.
  { apply Z.eqb_eq in Eq. subst c.
    change (replaceUnit 13 [92; 114] (replaceUnit 10 [92; 110] [34; 34]))
      with [34; 34].
    change (replaceUnit 13 [92; 114] (if 34 =? 10 then [92; 110] else [34]))
      with [34].
    cbn [app]. now rewrite halveQuotes_quotes, IH. }
  destruct (c =? 10) eqn:En.
  { apply Z.eqb_eq in En. subst c.
    change (replaceUnit 13 [92; 114] (replaceUnit 10 [92; 110] [10]))
      with [92; 110].
    change (replaceUnit 13 [92; 114] [92; 110]) with [92; 110].
    cbn [app]. rewrite !halveQuotes_other by discriminate. now rewrite IH. }
  destruct (c =? 13) eqn:Er.
  { apply Z.eqb_eq in Er. subst c.
    change (replaceUnit 13 [92; 114] (replaceUnit 10 [92; 110] [13]))
      with [92; 114].
    change (replaceUnit 13 [92; 114] [13]) with [92; 114].
    cbn [app]. rewrite !halveQuotes_other by discriminate. now rewrite IH. }
  assert (H1 : replaceUnit 10 [92; 110] [c] = [c]).
  { rewrite replaceUnit_cons, En. reflexivity. }
  assert (H2 : replaceUnit 13 [92; 114] [c] = [c]).
  { rewrite replaceUnit_cons, Er. reflexivity. }
  rewrite H1, H2. cbn [app].
  apply Z.eqb_neq in Eq. now rewrite halveQuotes_other, IH.
Qed.

Lemma indexOf_absent c s : indexOf c s = -1 <-> ~ In c s.
Proof.
  split.
  - induction s as [|d s IH]; [intros _ []|].
    cbn [indexOf]. destruct (d =? c) eqn:E; [discriminate|].
    destruct (indexOf_range c s) as [Hi|Hi].
    + intros _ [H|H]; [apply Z.eqb_neq in E; congruence | now apply IH].
    + destruct (indexOf c s <? 0) eqn:L; [lia|]. intros X. lia.
  - intros H. rewrite <- (app_nil_r s) in *.
    destruct (Z.eq_dec (indexOf c (s ++ [])) (-1)) as [E|E]; [exact E|].
    destruct (indexOf_split c _ E) as (pre & post & Hs & _).
    exfalso. apply H. rewrite Hs. apply in_elt.
Qed.

Lemma escapeCsvValue_one_line v :
  ~ In newline (ExportHandler.escapeCsvValue v)
  /\ ~ In carriageReturn (ExportHandler.escapeCsvValue v).
Proof.
  unfold ExportHandler.escapeCsvValue.
  destruct (isEmptyString v); [split; intros []|]. split.
  - apply replaceUnit_without.
    + intros [X|[X|[]]]; discriminate X.
    + intros _. apply replaceUnit_without.
      * intros [X|[X|[]]]; discriminate X.
      * intros X. congruence.
  - apply replaceUnit_without.
    + intros [X|[X|[]]]; discriminate X.
    + intros X. congruence.
Qed.

Lemma csvLine_one_line row : ~ In newline (ExportHandler.csvLine row).
Proof.
  unfold ExportHandler.csvLine. rewrite !in_app_iff.
  intros [H|[H|[H|[H|H]]]].
  - destruct H as [X|[]]; discriminate X.
  - revert H. apply numberToString_without; [reflexivity | discriminate].
  - destruct H as [X|[X|[X|[]]]]; discriminate X.
  - now apply (proj1 (escapeCsvValue_one_line (Row.text row))).
  - destruct H as [X|[]]; discriminate X.
Qed.

End Lines.

(** X17. [exportAsCsv] writes the header and then exactly one line per row,
    whatever the texts hold: splitting its result at the line feeds gives
    the header and the line of each row, in order.  A text is written with
    every double quote doubled and with its line feeds and carriage returns
    as backslash sequences, so halving the quotes of a written field gives
    the text with those sequences still in it. *)
Theorem X17_csv_one_line_per_row (rows : list Row.t) :
  split newline (ExportHandler.exportAsCsv rows)
  = Literal.csvHeader :: map ExportHandler.csvLine rows
  /\ Forall (fun row =>
       let field := ExportHandler.escapeCsvValue (Row.text row) in
       ~ In newline field /\ ~ In carriageReturn field
       /\ halveQuotes field
          = replaceUnit carriageReturn ExportHandler.backslashR
              (replaceUnit newline ExportHandler.backslashN (Row.text row)))
     rows.
Proof.
  split.
  - unfold ExportHandler.exportAsCsv. apply split_join; [discriminate|].
    constructor.
    + vm_compute. intros H.
      repeat (destruct H as [H|H]; [discriminate H|]). exact H.
    + apply Forall_forall. intros l Hin.
      apply in_map_iff in Hin as (row & <- & _). apply csvLine_one_line.
  - apply Forall_forall. intros row _. cbv zeta.
    split; [apply escapeCsvValue_one_line|].
    split; [apply escapeCsvValue_one_line|].
    unfold ExportHandler.escapeCsvValue.
    destruct (Row.text row) as [|c v]; [reflexivity|].
    cbn [isEmptyString]. apply halveQuotes_escaped.
Qed.

(** X18. Reading back a field written by [escapeDelimitedValue] (dropping
    the enclosing quotes, halving the doubled ones) gives the text with its
    line endings normalised, for any delimiter.  The field is put in quotes
    exactly when that text holds the delimiter, a line feed or a double
    quote; otherwise it is the text itself.  [null] is written as the empty
    field, and no field holds a carriage return. *)
Theorem X18_delimited_field_round_trip (v : jsstring) (delimiter : Z) :
  let text := TextExtractor.normalizeLineEndings v in
  let field := ExportHandler.escapeDelimitedValue (Some v) delimiter in
  unquoteField field = text
  /\ ~ In carriageReturn field
  /\ (In delimiter text \/ In newline text \/ In ExportHandler.quote text ->
      field = [ExportHandler.quote]
              ++ replaceUnit ExportHandler.quote
                   [ExportHandler.quote; ExportHandler.quote] text
              ++ [ExportHandler.quote])
  /\ (~ (In delimiter text \/ In newline text \/ In ExportHandler.quote text) ->
      field = text)
  /\ ExportHandler.escapeDelimitedValue None delimiter = [].
Proof.
  intros text field.
  set (doubled := replaceUnit ExportHandler.quote
                    [ExportHandler.quote; ExportHandler.quote] text).
  assert (Hfield : field
                   = if negb (indexOf delimiter doubled =? -1)
                        || testClass (fun c => (c =? newline)
                                               || (c =? ExportHandler.quote))
                             doubled
                     then [ExportHandler.quote] ++ doubled ++ [ExportHandler.quote]
                     else doubled) by reflexivity.
  assert (Hnoret : ~ In carriageReturn doubled).
  { apply replaceUnit_without.
    - intros [X|[X|[]]]; discriminate X.
    - intros _. apply replaceCR_no_return. }
  assert (Hquoted : In delimiter text \/ In newline text
                    \/ In ExportHandler.quote text ->
                    negb (indexOf delimiter doubled =? -1)
                    || testClass (fun c => (c =? newline)
                                           || (c =? ExportHandler.quote))
                         doubled = true).
  { intros H. apply orb_true_iff.
    destruct H as [H|[H|H]].
    - left. apply negb_true_iff, Z.eqb_neq. rewrite indexOf_absent.
      intros X. apply X. apply replaceUnit_keeps; [exact H|].
      intros ->. now left.
    - right. apply existsb_exists. exists newline. split; [|reflexivity].
      apply replaceUnit_keeps; [exact H|]. intros X. discriminate X.
    - right. apply existsb_exists. exists ExportHandler.quote.
      split; [|reflexivity].
      apply replaceUnit_keeps; [exact H|]. intros _. now left. }
  assert (Hplain : ~ (In delimiter text \/ In newline text
                      \/ In ExportHandler.quote text) ->
                   doubled = text
                   /\ negb (indexOf delimiter doubled =? -1)
                      || testClass (fun c => (c =? newline)
                                             || (c =? ExportHandler.quote))
                           doubled = false).
  { intros H.
    assert (Hd : doubled = text) by (apply replaceUnit_clean; tauto).
    split; [exact Hd|]. rewrite Hd. apply orb_false_iff. split.
    - apply negb_false_iff, Z.eqb_eq, indexOf_absent. tauto.
    - apply not_true_iff_false. intros X.
      apply existsb_exists in X as (c & Hin & Hc).
      apply orb_prop in Hc as [Hc|Hc]; apply Z.eqb_eq in Hc; subst c; tauto. }
  split; [|split; [|split; [|split]]].
  - rewrite Hfield.
    destruct (negb (indexOf delimiter doubled =? -1)
              || testClass (fun c => (c =? newline) || (c =? ExportHandler.quote))
                   doubled) eqn:E.
    + cbn [app unquoteField]. rewrite Z.eqb_refl, removelast_last.
      apply halveQuotes_doubled.
    + assert (Hno : ~ (In delimiter text \/ In newline text
                       \/ In ExportHandler.quote text)).
      { intros H. pose proof (Hquoted H) as Q. congruence. }
      destruct (Hplain Hno) as [Hd _]. rewrite Hd.
      destruct text as [|c t] eqn:Et; [reflexivity|].
      cbn [unquoteField].
      assert (Hc : (c =? 34) = false).
      { apply Z.eqb_neq. intros ->. apply Hno. right. right. now left. }
      now rewrite Hc.
  - rewrite Hfield.
    destruct (negb (indexOf delimiter doubled =? -1)
              || testClass (fun c => (c =? newline) || (c =? ExportHandler.quote))
                   doubled); [|exact Hnoret].
    rewrite !in_app_iff. intros [H|[H|H]]; [| contradiction |];
      destruct H as [X|[]]; discriminate X.
  - intros H. rewrite Hfield, (Hquoted H). reflexivity.
  - intros H. destruct (Hplain H) as [Hd E]. rewrite Hfield, E. exact Hd.
  - reflexivity.
Qed.

Lemma X18_delimited_field_round_trip_witness :
  ExportHandler.escapeDelimitedValue (Some [97; 44; 34; 13; 10; 98]) 44
  = [ExportHandler.quote]
    ++ replaceUnit ExportHandler.quote [ExportHandler.quote; ExportHandler.quote]
         (TextExtractor.normalizeLineEndings [97; 44; 34; 13; 10; 98])
    ++ [ExportHandler.quote].
Proof.
  apply (proj1 (proj2 (proj2
    (X18_delimited_field_round_trip [97; 44; 34; 13; 10; 98] 44)))).
  left. vm_compute. right. now left.
Defined.

(** ** Copying the rows of a text *)

Section Copy.

Lemma numbersFrom_nth n : forall i k,
  (k < n)%nat -> nth_error (numbersFrom i n) k = Some (i + Z.of_nat k + 1).
Proof.
  induction n as [|n IH]; intros i k Hk; [lia|].
  destruct k as [|k]; cbn [numbersFrom nth_error].
  - f_equal. lia.
  - rewrite IH by lia. f_equal. lia.
Qed.

Lemma normalised_without_newline s rows :
  TextSplitter.splitWithNormalization (Str s) = Normal rows ->
  Forall (fun entry => exists t, entry = Some t /\ ~ In newline t) rows.
Proof.
  unfold TextSplitter.splitWithNormalization.
  destruct s as [|c s]; [intros H; inversion H; constructor|].
  rewrite splitText_string by discriminate. cbn [bind].
  intros H; inversion H; subst; clear H.
  apply Forall_forall. intros entry Hin.
  apply in_map_iff in Hin as (entry0 & <- & Hin).
  apply in_flat_map in Hin as (line & Hline & Hin).
  pose proof (proj2 (splitLine_shape line)) as Hall.
  rewrite Forall_forall in Hall. specialize (Hall entry0 Hin).
  destruct entry0 as [t|]; [|now elim Hall].
  exists (TextSplitter.collapseSpaces (trim t)). split; [reflexivity|].
  intros Hn. apply (split_no_separator newline (c :: s) line Hline).
  apply (splitLine_incl line t Hin), incl_trim, incl_collapse, Hn.
Qed.

Lemma generated_rows_lines s objs :
  RowGenerator.generateRowsFromText (Str s) = Normal objs ->
  Forall (fun o => ~ In newline (Row.text o)) objs
  /\ map Row.number objs = numbersFrom 0 (List.length objs).
Proof.
  unfold RowGenerator.generateRowsFromText.
  destruct (TextSplitter.splitWithNormalization (Str s)) as [rows|] eqn:Hs;
    [|intros X; discriminate X].
  cbn [bind]. unfold RowGenerator.generateRows. intros H.
  destruct (generateRowsFrom_inv rows 0 objs H) as [Ht _].
  destruct (generateRowsFrom_numbers rows 0 objs H) as [Hn _].
  pose proof (normalised_without_newline s rows Hs) as Hall.
  split.
  - rewrite <- Ht in Hall. rewrite Forall_map in Hall.
    eapply Forall_impl; [|exact Hall].
    intros o (t & Ho & Hno). now injection Ho as ->.
  - rewrite Hn. f_equal. rewrite <- Ht. now rewrite length_map.
Qed.

Lemma formatRow_one_line row :
  ~ In newline (Row.text row) -> ~ In newline (CopyHandler.formatRow row).
Proof.
  intros Ht. unfold CopyHandler.formatRow.
  assert (Hp : ~ In newline Literal.rowPrefix).
  { vm_compute. intros H. repeat (destruct H as [H|H]; [discriminate H|]). exact H. }
  assert (Hc : ~ In newline Literal.colonSpace).
  { vm_compute. intros H. repeat (destruct H as [H|H]; [discriminate H|]). exact H. }
  assert (Hn : ~ In newline (numberToString (Row.number row)))
    by (apply numberToString_without; [reflexivity | discriminate]).
  destruct (Row.isEmpty row); rewrite !in_app_iff; tauto.
Qed.

End Copy.

(** X19. For the rows generated from a text, [formatRowsForCopy] gives
    exactly one line per row: no row text holds a line feed, so splitting
    the copied text at the line feeds gives back the line of each row, and
    line k (from 0) is the prefix with the number k + 1 followed by the row
    text, or by nothing for an empty row.  [exportAsText] gives the same
    lines, except that the line of an empty row is empty. *)
Theorem X19_copy_one_line_per_row (s : jsstring) (objs : list Row.t) :
  RowGenerator.generateRowsFromText (Str s) = Normal objs ->
  objs <> [] ->
  split newline (CopyHandler.formatRowsForCopy objs)
  = map CopyHandler.formatRow objs
  /\ split newline (ExportHandler.exportAsText objs)
     = map (fun row => if Row.isEmpty row then [] else CopyHandler.formatRow row)
         objs
  /\ forall k row,
       nth_error objs k = Some row ->
       CopyHandler.formatRow row
       = Literal.rowPrefix ++ numberToString (Z.of_nat k + 1)
         ++ Literal.colonSpace
         ++ (if Row.isEmpty row then [] else Row.text row).
Proof.
  intros H Hne. destruct (generated_rows_lines s objs H) as [Hall Hnum].
  assert (Hmap : forall (f : Row.t -> jsstring),
             (forall row, ~ In newline (Row.text row) -> ~ In newline (f row)) ->
             split newline (join [newline] (map f objs)) = map f objs).
  { intros f Hf. apply split_join.
    - destruct objs; [congruence | discriminate].
    - rewrite Forall_map. eapply Forall_impl; [|exact Hall]. exact Hf. }
  split; [|split].
  - apply Hmap, formatRow_one_line.
  - unfold ExportHandler.exportAsText.
    rewrite (map_ext (fun row =>
               if Row.isEmpty row then []
               else Literal.rowPrefix ++ numberToString (Row.number row)
                    ++ Literal.colonSpace ++ Row.text row)
              (fun row => if Row.isEmpty row then []
                          else CopyHandler.formatRow row)).
    + apply Hmap. intros row Ht.
      destruct (Row.isEmpty row); [intros [] | now apply formatRow_one_line].
    + intros row. unfold CopyHandler.formatRow.
      destruct (Row.isEmpty row); reflexivity.
  - intros k row Hk.
    assert (Hlt : (k < List.length objs)%nat)
      by (apply nth_error_Some; congruence).
    pose proof (map_nth_error Row.number k objs Hk) as Hr.
    rewrite Hnum, (numbersFrom_nth _ 0 k Hlt) in Hr.
    injection Hr as Hr. replace (Z.of_nat k + 1) with (Row.number row) by lia.
    unfold CopyHandler.formatRow.
    destruct (Row.isEmpty row); [now rewrite app_nil_r | reflexivity].
Qed.

Lemma X19_copy_one_line_per_row_witness :
  exists objs,
    RowGenerator.generateRowsFromText (Str Scenario.amendmentLine) = Normal objs
    /\ objs <> []
    /\ split newline (CopyHandler.formatRowsForCopy objs)
       = map CopyHandler.formatRow objs.
Proof.
  eexists. split; [reflexivity|].
  assert (Hne : forall (a b : Row.t), [a; b] <> []) by discriminate.
  split; [apply Hne|].
  exact (proj1 (X19_copy_one_line_per_row Scenario.amendmentLine _ eq_refl
                  (Hne _ _))).
Defined.

(** ** The extension of a file name *)

Section Extension.

Lemma split_last_part sep ext : forall base,
  ~ In sep ext ->
  last (split sep (base ++ sep :: ext)) [] = ext
  /\ (1 < List.length (split sep (base ++ sep :: ext)))%nat.
Proof.
  intros base Hext. induction base as [|c base [IH1 IH2]].
  - cbn [app split]. rewrite Z.eqb_refl, (split_clean sep ext Hext).
    split; [reflexivity | cbn; lia].
  - cbn [app split]. destruct (c =? sep).
    + destruct (split sep (base ++ sep :: ext)) as [|l ls] eqn:E;
        [cbn in IH2; lia|].
      split; [exact IH1 | cbn [List.length] in *; lia].
    + destruct (split sep (base ++ sep :: ext)) as [|l [|l' ls]] eqn:E;
        [cbn in IH2; lia | cbn in IH2; lia |].
      split; [exact IH1 | cbn [List.length] in *; lia].
Qed.

Lemma last_In {A : Type} (l : list A) d : l <> [] -> In (last l d) l.
Proof.
  induction l as [|x l IH]; [congruence|]. intros _.
  destruct l as [|y l]; [now left|]. right. apply IH. discriminate.
Qed.

End Extension.

(** X20. [getFileExtension] answers what follows the last period of the
    name, and the empty string when the name has no period; its answer never
    holds a period. *)
Theorem X20_file_extension (filename : jsstring) :
  ~ In period (TextExtractor.getFileExtension filename)
  /\ (~ In period filename -> TextExtractor.getFileExtension filename = [])
  /\ (forall base ext,
        filename = base ++ period :: ext -> ~ In period ext ->
        TextExtractor.getFileExtension filename = ext).
Proof.
  unfold TextExtractor.getFileExtension. split; [|split].
  - destruct (1 <? Z.of_nat (List.length (split period filename)));
      [|intros []].
    apply (split_no_separator period filename), last_In, split_nonempty.
  - intros H. rewrite (split_clean period filename H). reflexivity.
  - intros base ext -> Hext.
    destruct (split_last_part period ext base Hext) as [Hl Hn].
    assert (Hc : (1 <? Z.of_nat (List.length (split period (base ++ period :: ext))))
                 = true) by (apply Z.ltb_lt; lia).
    rewrite Hc. exact Hl.
Qed.

Lemma X20_file_extension_witness :
  TextExtractor.getFileExtension [97; period; 98; period; 116; 120; 116]
  = [116; 120; 116].
Proof.
  apply (proj2 (proj2 (X20_file_extension [97; period; 98; period; 116; 120; 116]))
           [97; period; 98]); [reflexivity|].
  vm_compute. intros [X|[X|[X|[]]]]; discriminate X.
Defined.

(** ** The classes of a row *)

Section RowClasses.
Import RowGenerator.

Lemma getRowClasses_In row :
  let classes := getRowClasses row in
  (In Literal.emptyRowClass classes <-> Row.isEmpty row = true)
  /\ (In Literal.clauseNumberClass classes <-> Row.isClauseNumber row = true)
  /\ (In Literal.leadingPhraseClass classes <-> Row.isLeadingPhrase row = true)
  /\ (In Literal.amendmentClauseClass classes <-> Row.isAmendment row = true)
  /\ (In Literal.devanagariClass classes
      <-> Row.language row = Row.devanagari \/ Row.language row = Row.mixed).
Proof.
  destruct row as [n t e c l a g len]. unfold getRowClasses.
  cbn [Row.isEmpty Row.isClauseNumber Row.isLeadingPhrase Row.isAmendment
       Row.language].
  destruct e, c, l, a, g; vm_compute;
    repeat split; intros H;
    first [reflexivity | solve [auto 8] | solve [intuition discriminate]].
Qed.

Lemma trimStart_nil_white s : trimStart s = [] -> forallb isWhiteSpace s = true.
Proof.
  induction s as [|c s IH]; [reflexivity|]. cbn [trimStart forallb].
  destruct (isWhiteSpace c); [exact IH | discriminate].
Qed.

Lemma trim_nil_white s : trim s = [] -> forallb isWhiteSpace s = true.
Proof.
  intros H. apply trimStart_nil_white.
  destruct (trimStart s) as [|c x] eqn:E; [reflexivity|].
  exfalso. apply (trim_nonblank s); [rewrite E; discriminate | exact H].
Qed.

Lemma white_text_plain s :
  forallb isWhiteSpace s = true ->
  isAmendment s = false
  /\ testClass isLetter s = false /\ testClass isDevanagari s = false.
Proof.
  intros H. rewrite forallb_forall in H. split; [|split].
  - unfold isAmendment. destruct (isEmptyString s); [reflexivity|].
    apply not_true_iff_false. intros X.
    apply existsb_exists in X as (sym & Hsym & Hin).
    unfold includes in Hin. apply existsb_exists in Hin as (c & Hc & Heq).
    apply Z.eqb_eq in Heq. subst c. specialize (H sym Hc).
    assert (Hs : isSymbol sym = true).
    { unfold isSymbol. apply existsb_exists. exists sym.
      split; [exact Hsym | apply Z.eqb_refl]. }
    apply symbol_not_white in Hs. congruence.
  - apply not_true_iff_false. intros X.
    apply existsb_exists in X as (c & Hc & Hl). specialize (H c Hc). class_solve.
  - apply not_true_iff_false. intros X.
    apply existsb_exists in X as (c & Hc & Hl). specialize (H c Hc). class_solve.
Qed.

Lemma rowShape_no_colon_end isD isL t :
  (forall c, isD c = true -> c <> colon) ->
  (forall c, isL c = true -> c <> colon) ->
  rowShape isD isL t -> endsWith colon t = false.
Proof.
  intros HD HL (sym & digits & suffix & dot & -> & _ & Hne & Hdig & Hsuf & Hdot).
  unfold endsWith. rewrite !rev_app_distr.
  destruct Hdot as [->| ->]; [|reflexivity]. cbn [rev app].
  destruct Hsuf as [->|(c & -> & Hc)].
  - cbn [rev app]. destruct (rev digits) as [|d r] eqn:E.
    + apply (f_equal (@rev Z)) in E. rewrite rev_involutive in E. now elim Hne.
    + cbn [app]. apply Z.eqb_neq, HD.
      rewrite forallb_forall in Hdig. apply Hdig, in_rev. rewrite E. now left.
  - cbn [rev app]. apply Z.eqb_neq, HL, Hc.
Qed.

Lemma clause_row_no_phrase text :
  isClauseNumber text && isLeadingPhrase text = false.
Proof.
  destruct (isClauseNumber text) eqn:Hc; [|reflexivity]. cbn [andb].
  unfold isLeadingPhrase.
  destruct (isEmptyString text || isEmptyString (trim text)); [reflexivity|].
  apply isClauseNumber_iff in Hc as [Hc|Hc];
    (eapply rowShape_no_colon_end; [| |exact Hc]); intros c H; class_solve.
Qed.

Lemma generateRowsFrom_fields rows : forall i objs,
  generateRowsFrom i rows = Normal objs ->
  Forall (fun o =>
    Row.isEmpty o = isEmptyString (trim (Row.text o))
    /\ Row.isClauseNumber o = isClauseNumber (Row.text o)
    /\ Row.isLeadingPhrase o = isLeadingPhrase (Row.text o)
    /\ Row.isAmendment o = isAmendment (Row.text o)
    /\ Row.language o = detectLanguage (Row.text o)) objs.
Proof.
  induction rows as [|entry rows IH]; intros i objs; cbn [generateRowsFrom].
  - intros H; inversion H; subst. constructor.
  - destruct entry as [text|]; cbn [rowObject bind]; [|intros X; discriminate X].
    destruct (generateRowsFrom (i + 1) rows) as [objs'|] eqn:Hgen;
      cbn [bind]; [|intros X; discriminate X].
    intros H; inversion H; subst. constructor.
    + cbn. auto.
    + exact (IH _ _ Hgen).
Qed.

End RowClasses.

(** X21. For every row [generateRows] builds, [getRowClasses] and
    [getDisplayText] agree with the text: a row whose text is blank has the
    one class of an empty row and is displayed as the empty string; any other
    row lacks that class and is displayed as its text; no row has both the
    clause-number and the leading-phrase class; and the Devanagari class is
    there exactly when the text holds a Devanagari unit. *)
Theorem X21_generated_row_classes (rows : list nullable) (objs : list Row.t) :
  RowGenerator.generateRows rows = Normal objs ->
  Forall (fun row =>
    let classes := RowGenerator.getRowClasses row in
    (trim (Row.text row) = [] ->
       classes = [Literal.emptyRowClass] /\ RowGenerator.getDisplayText row = [])
    /\ (trim (Row.text row) <> [] ->
          ~ In Literal.emptyRowClass classes
          /\ RowGenerator.getDisplayText row = Row.text row)
    /\ ~ (In Literal.clauseNumberClass classes
          /\ In Literal.leadingPhraseClass classes)
    /\ (In Literal.devanagariClass classes
        <-> DevanagariParser.hasDevanagari (Row.text row) = true)) objs.
Proof.
  intros H. unfold RowGenerator.generateRows in H.
  pose proof (generateRowsFrom_fields rows 0 objs H) as Hall.
  eapply Forall_impl; [|exact Hall]. clear H Hall.
  intros row (Fe & Fc & Fl & Fa & Fg). cbv zeta.
  pose proof (getRowClasses_In row) as (He & Hc & Hl & _ & Hg).
  split; [|split; [|split]].
  - intros Ht. unfold RowGenerator.getRowClasses, RowGenerator.getDisplayText.
    destruct (white_text_plain _ (trim_nil_white _ Ht)) as (Ha & Hlat & Hdev).
    assert (Hcn : RowGenerator.isClauseNumber (Row.text row) = false).
    { unfold RowGenerator.isClauseNumber. rewrite Ht.
      cbn [isEmptyString]. now rewrite orb_true_r. }
    assert (Hlp : RowGenerator.isLeadingPhrase (Row.text row) = false).
    { unfold RowGenerator.isLeadingPhrase. rewrite Ht.
      cbn [isEmptyString]. now rewrite orb_true_r. }
    assert (Hlang : RowGenerator.detectLanguage (Row.text row) = Row.unknown
                    \/ RowGenerator.detectLanguage (Row.text row) = Row.other).
    { unfold RowGenerator.detectLanguage.
      destruct (isEmptyString (Row.text row)); [now left|].
      rewrite Hlat, Hdev. now right. }
    rewrite Fe, Fc, Fl, Fa, Fg, Ht, Ha, Hcn, Hlp. cbn [isEmptyString].
    destruct Hlang as [-> | ->]; split; reflexivity.
  - intros Ht.
    assert (Hemp : isEmptyString (trim (Row.text row)) = false)
      by (destruct (trim (Row.text row)); [congruence | reflexivity]).
    split.
    + rewrite He, Fe, Hemp. discriminate.
    + unfold RowGenerator.getDisplayText. now rewrite Fe, Hemp.
  - rewrite Hc, Hl, Fc, Fl. intros [H1 H2].
    pose proof (clause_row_no_phrase (Row.text row)) as X.
    rewrite H1, H2 in X. discriminate X.
  - rewrite Hg, Fg. unfold DevanagariParser.hasDevanagari,
      RowGenerator.detectLanguage.
    destruct (Row.text row) as [|c text']; cbn [isEmptyString].
    + cbn. split; [intros [X|X]; discriminate X | intros X; discriminate X].
    + destruct (testClass isLetter (c :: text'));
        destruct (testClass isDevanagari (c :: text')); cbn [andb];
        split; intros X; auto; try discriminate X;
        destruct X as [X|X]; discriminate X.
Qed.

Lemma X21_generated_row_classes_witness :
  exists objs,
    RowGenerator.generateRows [Some [space]; Some Scenario.bareNumber] = Normal objs
    /\ Forall (fun row =>
         trim (Row.text row) = [] ->
         RowGenerator.getRowClasses row = [Literal.emptyRowClass]) objs.
Proof.
  eexists. split; [reflexivity|].
  eapply Forall_impl;
    [|apply (X21_generated_row_classes [Some [space]; Some Scenario.bareNumber]);
      reflexivity].
  intros row (H & _) Ht. exact (proj1 (H Ht)).
Defined.

(** ** Little content after a leading phrase *)

(** X22. [hasMinimalContent] never throws, although it reads the length of
    a content that may be [null]: it answers true exactly for the lines that
    have a leading phrase whose content, as [getContentAfterPhrase] gives it,
    is missing or shorter than ten units. *)
Theorem X22_minimal_content (line : jsstring) :
  LeadingPhraseDetector.hasMinimalContent line
  = Normal (LeadingPhraseDetector.hasLeadingPhrase line
            && match LeadingPhraseDetector.getContentAfterPhrase line with
               | None => true
               | Some c => strlen c <? 10
               end).
Proof.
  unfold LeadingPhraseDetector.hasMinimalContent,
    LeadingPhraseDetector.hasLeadingPhrase,
    LeadingPhraseDetector.getContentAfterPhrase.
  destruct (ClauseNumberDetector.detectClauseNumber line); [|reflexivity].
  destruct (ClauseNumberDetector.getRemainder line) as [r|]; [|reflexivity].
  destruct (negb (truthyN (Some r))); [reflexivity|].
  destruct (LeadingPhraseDetector.detectLeadingPhrase line (Some r)) as [l|] eqn:E;
    [|reflexivity].
  destruct (detectLeadingPhrase_some line r l E)
    as (pre & post & _ & _ & _ & _ & Hc & Hh).
  rewrite Hc, Hh. unfold orNull.
  destruct (isEmptyString (trim post)); reflexivity.
Qed.

(** ** The base of a Devanagari numeral *)

Section BaseNumber.
Import DevanagariParser.

Lemma numeral_pieces text n :
  extractDevanagariNumeral text = Some n ->
  exists digits suffix,
    n = digits ++ suffix
    /\ digits <> [] /\ forallb isDevanagariDigit digits = true
    /\ (suffix = [] \/ exists c, suffix = [c] /\ isDevanagariLetter c = true).
Proof.
  unfold extractDevanagariNumeral, Regex.exec.
  destruct (Regex.run (Regex.items numeralPattern)
              (Regex.anchoredEnd numeralPattern) text) as [[ms tl]|] eqn:E;
    [|intros X; discriminate X].
  intros H. injection H as <-.
  apply run_sound in E as (Hps & _ & _). unfold pieces in Hps. cbn in Hps.
  inversion Hps as [|i1 a r1 ms1 Ha Hps1]; subst.
  inversion Hps1 as [|i2 g r2 ms2 Hg Hps2]; subst.
  inversion Hps2 as [|i3 h r3 ms3 Hh Hps3]; subst.
  exists g, h. apply pieceOk_plus_iff in Hg as [Hne Hg].
  apply pieceOk_opt_iff in Hh.
  split; [|auto]. unfold Regex.group. cbn [skipn firstn List.concat].
  now rewrite app_nil_r.
Qed.

End BaseNumber.

(** X23. What [extractDevanagariNumeral] finds is a run of Devanagari digits
    with at most one suffix letter.  [isAlphaNumeric] holds for it exactly
    when there is a suffix letter other than U+0929; then
    [extractDevanagariLetter] answers that letter and [getBaseNumber] the
    digits, and otherwise [getBaseNumber] answers the numeral as it is, the
    letter U+0929 included. *)
Theorem X23_devanagari_base_number (text n : jsstring) :
  DevanagariParser.extractDevanagariNumeral text = Some n ->
  exists digits suffix,
    n = digits ++ suffix
    /\ digits <> [] /\ forallb isDevanagariDigit digits = true
    /\ (suffix = [] \/ exists c, suffix = [c] /\ isDevanagariLetter c = true)
    /\ (DevanagariParser.isAlphaNumeric n = true
        <-> exists c, suffix = [c] /\ c <> unmappedLetter)
    /\ (forall c, DevanagariParser.extractDevanagariLetter n = Some c ->
                  suffix = [c])
    /\ DevanagariParser.getBaseNumber n
       = (if DevanagariParser.isAlphaNumeric n then digits else n).
Proof.
  intros H.
  destruct (numeral_pieces text n H) as (digits & suffix & -> & Hne & Hdig & Hsuf).
  exists digits, suffix.
  pose proof (devanagari_hasAlpha digits suffix Hne Hdig Hsuf) as Halpha.
  split; [reflexivity|]. split; [exact Hne|]. split; [exact Hdig|].
  split; [exact Hsuf|]. split; [exact Halpha|].
  assert (Hlast : forall c,
             DevanagariParser.extractDevanagariLetter (digits ++ suffix) = Some c ->
             suffix = [c]).
  { intros c Hc.
    assert (Ha : DevanagariParser.isAlphaNumeric (digits ++ suffix) = true)
      by (unfold DevanagariParser.isAlphaNumeric; now rewrite Hc).
    apply Halpha in Ha as (x & -> & _).
    revert Hc. unfold DevanagariParser.extractDevanagariLetter.
    rewrite rev_app_distr. cbn [rev app].
    destruct (existsb (Z.eqb x) DevanagariParser.devanagariLetterKeys);
      [|intros X; discriminate X].
    intros X. now injection X as ->. }
  split; [exact Hlast|].
  unfold DevanagariParser.getBaseNumber, DevanagariParser.isAlphaNumeric.
  destruct (DevanagariParser.extractDevanagariLetter (digits ++ suffix))
    as [c|] eqn:E; [|reflexivity].
  rewrite (Hlast c eq_refl). unfold dropLast. apply removelast_last.
Qed.

Lemma X23_devanagari_base_number_witness :
  exists n digits suffix,
    DevanagariParser.extractDevanagariNumeral [2407; 2412; 2325; period] = Some n
    /\ n = digits ++ suffix
    /\ DevanagariParser.getBaseNumber n
       = (if DevanagariParser.isAlphaNumeric n then digits else n).
Proof.
  destruct (DevanagariParser.extractDevanagariNumeral [2407; 2412; 2325; period])
    as [n|] eqn:H; [|vm_compute in H; discriminate H].
  destruct (X23_devanagari_base_number _ n H)
    as (digits & suffix & Hn & _ & _ & _ & _ & _ & G).
  exists n, digits, suffix. split; [reflexivity|]. split; [exact Hn | exact G].
Defined.

(** ** Delimited export: when a row stays on one line *)

Section Delimited.
Import TextExtractor.

Lemma normalizeLineEndings_return s :
  exists rest, normalizeLineEndings (carriageReturn :: s) = newline :: rest.
Proof.
  unfold normalizeLineEndings. destruct s as [|d s]; [now exists []|].
  change (replaceCRLF (carriageReturn :: d :: s))
    with (if d =? newline then newline :: replaceCRLF s
          else carriageReturn :: replaceCRLF (d :: s)).
  destruct (d =? newline); eexists; reflexivity.
Qed.

Lemma normalizeLineEndings_breaks s :
  In newline s \/ In carriageReturn s -> In newline (normalizeLineEndings s).
Proof.
  induction s as [|c s IH]; [intros [[]|[]]|]. intros H.
  destruct (Z.eq_dec c carriageReturn) as [->|Hc].
  - destruct (normalizeLineEndings_return s) as (rest & ->). now left.
  - assert (Hcons : normalizeLineEndings (c :: s) = c :: normalizeLineEndings s).
    { unfold normalizeLineEndings. cbn [replaceCRLF].
      apply Z.eqb_neq in Hc. rewrite Hc. cbn [replaceCR map]. now rewrite Hc. }
    rewrite Hcons.
    destruct H as [[H|H]|[H|H]]; [left; exact H | right; auto | congruence
                                  | right; auto].
Qed.

Lemma delimited_field_newline v delimiter :
  In newline (ExportHandler.escapeDelimitedValue (Some v) delimiter)
  <-> In newline v \/ In carriageReturn v.
Proof.
  set (text := normalizeLineEndings v).
  set (doubled := replaceUnit ExportHandler.quote
                    [ExportHandler.quote; ExportHandler.quote] text).
  assert (Hfield : ExportHandler.escapeDelimitedValue (Some v) delimiter
                   = if negb (indexOf delimiter doubled =? -1)
                        || testClass (fun c => (c =? newline)
                                               || (c =? ExportHandler.quote))
                             doubled
                     then [ExportHandler.quote] ++ doubled ++ [ExportHandler.quote]
                     else doubled) by reflexivity.
  split.
  - intros H.
    assert (Hd : In newline doubled).
    { rewrite Hfield in H.
      destruct (negb (indexOf delimiter doubled =? -1)
                || testClass (fun c => (c =? newline) || (c =? ExportHandler.quote))
                     doubled); [|exact H].
      rewrite !in_app_iff in H. destruct H as [H|[H|H]]; [|exact H|];
        destruct H as [X|[]]; discriminate X. }
    assert (Ht : In newline text).
    { unfold doubled, replaceUnit in Hd.
      apply in_flat_map in Hd as (c & Hc & Hin).
      destruct (c =? ExportHandler.quote).
      - destruct Hin as [X|[X|[]]]; discriminate X.
      - destruct Hin as [<-|[]]. exact Hc. }
    destruct (in_dec Z.eq_dec carriageReturn v) as [Hr|Hr]; [now right|].
    left. unfold text in Ht. now rewrite (normalizeLineEndings_clean v Hr) in Ht.
  - intros H. apply normalizeLineEndings_breaks in H. fold text in H.
    assert (Hd : In newline doubled).
    { apply replaceUnit_keeps; [exact H|]. intros X. discriminate X. }
    assert (Hq : testClass (fun c => (c =? newline) || (c =? ExportHandler.quote))
                   doubled = true).
    { apply existsb_exists. exists newline. split; [exact Hd | reflexivity]. }
    rewrite Hfield, Hq, orb_true_r, !in_app_iff. right. now left.
Qed.

Lemma delimitedLine_newline delimiter row :
  delimiter <> newline ->
  In newline (ExportHandler.delimitedLine delimiter row)
  <-> In newline (Row.text row) \/ In carriageReturn (Row.text row).
Proof.
  intros Hd. rewrite <- (delimited_field_newline (Row.text row) delimiter).
  unfold ExportHandler.delimitedLine. cbn [join]. rewrite !in_app_iff.
  split; [|tauto]. intros [H|[H|H]]; [| |exact H].
  - exfalso. revert H. apply numberToString_without; [reflexivity | discriminate].
  - destruct H as [X|[]]. congruence.
Qed.

End Delimited.

(** X24. In the delimited export, with a delimiter other than the line feed,
    the line of a row holds a line feed exactly when the row text holds a
    line feed or a carriage return (the field is then put in quotes and
    spans lines).  So when no row text holds either, [exportAsDelimited]
    gives the header and exactly one line per row. *)
Theorem X24_delimited_lines (rows : list Row.t) (delimiter : Z) :
  delimiter <> newline ->
  Forall (fun row =>
    In newline (ExportHandler.delimitedLine delimiter row)
    <-> In newline (Row.text row) \/ In carriageReturn (Row.text row)) rows
  /\ (Forall (fun row => ~ In newline (Row.text row)
                         /\ ~ In carriageReturn (Row.text row)) rows ->
      split newline (ExportHandler.exportAsDelimited rows delimiter)
      = join [delimiter] [Literal.headerRowNumber; Literal.headerTextContent]
          :: map (ExportHandler.delimitedLine delimiter) rows).
Proof.
  intros Hd. split.
  - apply Forall_forall. intros row _. now apply delimitedLine_newline.
  - intros Hall. unfold ExportHandler.exportAsDelimited.
    apply split_join; [discriminate|]. constructor.
    + cbn [join]. rewrite !in_app_iff. intros [H|[H|H]].
      * revert H. vm_compute. intros H.
        repeat (destruct H as [H|H]; [discriminate H|]). exact H.
      * destruct H as [X|[]]. congruence.
      * revert H. vm_compute. intros H.
        repeat (destruct H as [H|H]; [discriminate H|]). exact H.
    + rewrite Forall_map. eapply Forall_impl; [|exact Hall].
      intros row [Hn Hr]. rewrite (delimitedLine_newline delimiter row Hd). tauto.
Qed.

Lemma X24_delimited_lines_witness :
  exists objs,
    RowGenerator.generateRows [Some Scenario.bareNumber; Some Scenario.act]
    = Normal objs
    /\ split newline (ExportHandler.exportAsDelimited objs 44)
       = join [44] [Literal.headerRowNumber; Literal.headerTextContent]
           :: map (ExportHandler.delimitedLine 44) objs.
Proof.
  eexists. split; [reflexivity|].
  assert (Hd : 44 <> newline) by discriminate.
  apply (proj2 (X24_delimited_lines _ 44 Hd)).
  repeat constructor; vm_compute; intros H;
    repeat (destruct H as [H|H]; [discriminate H|]); exact H.
Defined.
